(** * Financial data pipeline: extraction, categorisation, identity, load

    A shallow embedding of the ETL core of the financial AI agent
    repository (data_pipeline/src) together with the properties its
    specification states about it.

    Python values are embedded as the inductive type [value]; a Python
    dict read from JSON is an association list in insertion order; a
    generator is the finite trace of what it yields followed by how it
    ends; a function that can raise returns a [result].  Text is ASCII:
    [lower], [strip] and the regular-expression search act on ASCII
    letters and ASCII white space, and [encode] is then the identity. *)

From Stdlib Require Import ZArith List Bool Ascii String Lia.
From Corelib Require Import SpecFloat.
From stdpp Require Import gmap strings pretty.

Set Warnings "-register-all".

Local Open Scope string_scope.
Local Open Scope Z_scope.
Local Open Scope list_scope.

(* ===================================================================== *)
(** * Part I: the embedding *)
(* ===================================================================== *)

(** ** Python values, exceptions, results and generators *)

(** Python floats are IEEE 754 binary64 numbers. *)
Definition prec : Z := 53.
Definition emax : Z := 1024.
Abbreviation float := spec_float.

Inductive value : Type :=
| VNone
| VBool (b : bool)
| VInt (n : Z)
| VFloat (f : float)
| VStr (s : string)
| VList (items : list value)
| VDict (entries : list (string * value)).

(** A Python dict with string keys, in insertion order. *)
Abbreviation dict := (list (string * value)).

(** Exception classes; the ones the program raises itself carry their
    message, the ones raised by the interpreter do not.  The last three
    are those of [sqlalchemy.exc] that a refused insert and the session
    after it raise. *)
Inductive exn : Type :=
| FileNotFoundError (msg : string)
| JSONDecodeError
| ValueError (msg : string)
| AttributeError
| TypeError
| KeyError
| IndexError
| OverflowError
| IntegrityError
| DataError
| PendingRollbackError.

Inductive result (A : Type) : Type :=
| Ok (a : A)
| Raise (e : exn).
Arguments Ok {A} a.
Arguments Raise {A} e.

Definition bind {A B : Type} (r : result A) (k : A -> result B) : result B :=
  match r with
  | Ok a => k a
  | Raise e => Raise e
  end.

Notation "'let*' x ':=' r 'in' k" := (bind r (fun x => k))
  (at level 10, x name, r at level 100, k at level 200, only parsing).

(** A generator run to its end: the items it yielded, in order, and the
    exception that ended it, if one did. *)
Record gen (A : Type) : Type := Gen { yielded : list A; raised : option exn }.
Arguments Gen {A} yielded raised.
Arguments yielded {A} g.
Arguments raised {A} g.

Definition gen_done {A : Type} : gen A := Gen [] None.
Definition gen_yield {A : Type} (a : A) : gen A := Gen [a] None.
Definition gen_raise {A : Type} (e : exn) : gen A := Gen [] (Some e).

(** Running [g1] and then, if it ended normally, [g2]. *)
Definition gen_seq {A : Type} (g1 g2 : gen A) : gen A :=
  match raised g1 with
  | Some e => g1
  | None => Gen (yielded g1 ++ yielded g2) (raised g2)
  end.

(** A step that may raise before the rest of the generator runs. *)
Definition gen_try {A B : Type} (r : result B) (k : B -> gen A) : gen A :=
  match r with
  | Ok b => k b
  | Raise e => gen_raise e
  end.

(** [for x in xs: yield from body x] *)
Section GenFor.
Context {A B : Type} (body : B -> gen A).

Fixpoint gen_for (xs : list B) : gen A :=
  match xs with
  | [] => gen_done
  | x :: rest => gen_seq (body x) (gen_for rest)
  end.
End GenFor.

(** Mapping the yielded items, as a loop that re-yields each one. *)
Definition gen_map {A B : Type} (f : A -> B) (g : gen A) : gen B :=
  Gen (map f (yielded g)) (raised g).

Definition gen_filter {A : Type} (p : A -> bool) (g : gen A) : gen A :=
  Gen (List.filter p (yielded g)) (raised g).

(** ** Strings *)

Module Str.

Definition is_upper (c : ascii) : bool :=
  let n := N_of_ascii c in ((65 <=? n) && (n <=? 90))%N.

Definition lower_char (c : ascii) : ascii :=
  if is_upper c then ascii_of_N (N_of_ascii c + 32) else c.

(** [s.lower()] of an ASCII text: the letters A to Z are lowered, any
    other character is kept. *)
Fixpoint lower (s : string) : string :=
  match s with
  | EmptyString => EmptyString
  | String c rest => String (lower_char c) (lower rest)
  end.

(** White space as [str.strip] sees it. *)
Definition is_space (c : ascii) : bool :=
  let n := N_of_ascii c in
  (((9 <=? n) && (n <=? 13)) || ((28 <=? n) && (n <=? 32)))%N.

Fixpoint lstrip (s : string) : string :=
  match s with
  | EmptyString => EmptyString
  | String c rest => if is_space c then lstrip rest else s
  end.

(** Drops trailing white space: a character is kept when it is not
    white space or something is kept after it. *)
Fixpoint rstrip (s : string) : string :=
  match s with
  | EmptyString => EmptyString
  | String c rest =>
      match rstrip rest with
      | EmptyString => if is_space c then EmptyString else String c EmptyString
      | kept => String c kept
      end
  end.

(** [s.strip()] *)
Definition strip (s : string) : string := rstrip (lstrip s).

(** [needle in hay] on strings. *)
Fixpoint contains (needle hay : string) : bool :=
  if String.prefix needle hay then true
  else match hay with
       | EmptyString => false
       | String _ rest => contains needle rest
       end.

(** [s.replace(c, "")] for a one-character [c]. *)
Fixpoint remove_char (c : ascii) (s : string) : string :=
  match s with
  | EmptyString => EmptyString
  | String d rest =>
      if Ascii.eqb c d then remove_char c rest else String d (remove_char c rest)
  end.

(** [s.split(c)[0]]: the text before the first [c]. *)
Fixpoint before_char (c : ascii) (s : string) : string :=
  match s with
  | EmptyString => EmptyString
  | String d rest => if Ascii.eqb c d then EmptyString else String d (before_char c rest)
  end.

Definition nonempty (s : string) : bool :=
  match s with EmptyString => false | _ => true end.

Definition is_lower (c : ascii) : bool :=
  let n := N_of_ascii c in ((97 <=? n) && (n <=? 122))%N.

Definition upper_char (c : ascii) : ascii :=
  if is_lower c then ascii_of_N (N_of_ascii c - 32) else c.

(** [s.title()]: a letter after a letter is lowered, any other letter
    is raised. *)
Fixpoint title_from (after_letter : bool) (s : string) : string :=
  match s with
  | EmptyString => EmptyString
  | String c rest =>
      let letter := is_upper c || is_lower c in
      String (if after_letter then lower_char c else upper_char c) (title_from letter rest)
  end.

Definition title (s : string) : string := title_from false s.

End Str.

(** ** Dicts and dynamic operations *)

Module Py.

(** Looks [key] up and continues with [present v] or [absent]; written
    as a fold so that recursive walks over nested JSON stay structural. *)
Section DictCase.
Context {A : Type} (key : string) (absent : A) (present : value -> A).

Fixpoint dict_case (d : dict) : A :=
  match d with
  | [] => absent
  | (k, v) :: rest => if String.eqb k key then present v else dict_case rest
  end.
End DictCase.

(** [d.get(key)], [None] when absent: as an option. *)
Definition dict_find (key : string) (d : dict) : option value :=
  dict_case key None Some d.

(** [d.get(key, default)] *)
Definition dict_get (key : string) (d : dict) (default : value) : value :=
  dict_case key default (fun v => v) d.

(** [key in d] *)
Definition dict_has (key : string) (d : dict) : bool :=
  dict_case key false (fun _ => true) d.

(** [d[key] = v]: replaces in place, or appends. *)
Fixpoint dict_set (key : string) (v : value) (d : dict) : dict :=
  match d with
  | [] => [(key, v)]
  | (k, w) :: rest =>
      if String.eqb k key then (k, v) :: rest else (k, w) :: dict_set key v rest
  end.

(** [{**d, k1: v1, ...}] *)
Definition dict_update (d updates : dict) : dict :=
  fold_left (fun acc kv => dict_set (fst kv) (snd kv) acc) updates d.

Definition float_zero : float := S754_zero false.

(** [f != 0.0] *)
Definition float_nonzero (f : float) : bool := negb (SFeqb f float_zero).

(** [v != 0.0] *)
Definition ne_zero (v : value) : bool :=
  match v with
  | VFloat f => float_nonzero f
  | VInt n => negb (n =? 0)
  | VBool b => b
  | _ => true
  end.

(** [bool(v)] *)
Definition truthy (v : value) : bool :=
  match v with
  | VNone => false
  | VBool b => b
  | VInt n => negb (n =? 0)
  | VFloat f => float_nonzero f
  | VStr s => Str.nonempty s
  | VList items => match items with [] => false | _ => true end
  | VDict entries => match entries with [] => false | _ => true end
  end.

Definition is_str (s : string) (v : value) : bool :=
  match v with
  | VStr t => String.eqb s t
  | _ => false
  end.

(** [v.get(key)]: only dicts have [get]. *)
Definition get_attr (key : string) (v : value) : result value :=
  match v with
  | VDict d => Ok (dict_get key d VNone)
  | _ => Raise AttributeError
  end.

(** [v.get(key, default)] *)
Definition get_attr_default (key : string) (default : value) (v : value) : result value :=
  match v with
  | VDict d => Ok (dict_get key d default)
  | _ => Raise AttributeError
  end.

(** [v.strip()]: only strings have [strip]. *)
Definition strip_attr (v : value) : result string :=
  match v with
  | VStr s => Ok (Str.strip s)
  | _ => Raise AttributeError
  end.

(** [key in v] for a string [key]: a key of a dict, an element of a
    list, a substring of a string; other values are not containers. *)
Definition py_in (key : string) (v : value) : result bool :=
  match v with
  | VDict d => Ok (dict_has key d)
  | VList items => Ok (existsb (is_str key) items)
  | VStr s => Ok (Str.contains key s)
  | _ => Raise TypeError
  end.

(** [v[key]] for a string [key]. *)
Definition subscript (key : string) (v : value) : result value :=
  match v with
  | VDict d => dict_case key (Raise KeyError) Ok d
  | _ => Raise TypeError
  end.

(** [for x in v]: a list gives its elements, a dict its keys, a string
    its characters; other values are not iterable. *)
Definition chars (s : string) : list value :=
  map (fun ch => VStr (String ch EmptyString)) (list_ascii_of_string s).

Definition py_iter (v : value) : result (list value) :=
  match v with
  | VList items => Ok items
  | VDict d => Ok (map (fun kv => VStr (fst kv)) d)
  | VStr s => Ok (chars s)
  | _ => Raise TypeError
  end.

(** [enumerate(xs)] *)
Fixpoint enumerate_from {A : Type} (start : nat) (xs : list A) : list (nat * A) :=
  match xs with
  | [] => []
  | x :: rest => (start, x) :: enumerate_from (S start) rest
  end.

Definition enumerate {A : Type} (xs : list A) : list (nat * A) := enumerate_from 0 xs.

End Py.

(** A value of a [Numeric(20, 2)] column: not-a-number, or a number of
    hundredths. *)
Inductive numeric : Type :=
| NumericNaN
| Hundredths (n : Z).

(** What is computed outside the repository and is not modelled:
    [py_str v] is what the interpreter prints for a value that is not
    a string, [str(v)], which f-strings use as well; [to_numeric x] is
    what PostgreSQL holds in a [Numeric(20, 2)] column for the float
    [x] once it has accepted it, the driver sending the float as its
    shortest decimal text and the server rounding that to hundredths. *)
Class PyRuntime : Type := {
  py_str : value -> string;
  to_numeric : float -> numeric
}.

(** [str(v)] and [f"{v}"] *)
Definition str_of {rt : PyRuntime} (v : value) : string :=
  match v with
  | VStr s => s
  | _ => py_str v
  end.

(** ** [float(...)]: text and integers to binary64 *)

Module PyFloat.

Definition is_digit (c : ascii) : bool :=
  let n := N_of_ascii c in ((48 <=? n) && (n <=? 57))%N.

Definition digit_value (c : ascii) : Z := Z.of_N (N_of_ascii c) - 48.

(** Underscores may only sit between two digits; they are dropped
    before the number is read. [prev] is the character just seen. *)
Fixpoint strip_underscores (prev : ascii) (s : string) : option string :=
  match s with
  | EmptyString => if Ascii.eqb prev "_" then None else Some EmptyString
  | String c rest =>
      if Ascii.eqb c "_" then
        if is_digit prev then strip_underscores c rest else None
      else if Ascii.eqb prev "_" && negb (is_digit c) then None
      else option_map (String c) (strip_underscores c rest)
  end.

Definition split_sign (s : string) : bool * string :=
  match s with
  | String "-" rest => (true, rest)
  | String "+" rest => (false, rest)
  | _ => (false, s)
  end.

(** The longest run of digits at the front of [s], and what follows. *)
Fixpoint take_digits (s : string) : list Z * string :=
  match s with
  | EmptyString => ([], EmptyString)
  | String c rest =>
      if is_digit c then
        let '(ds, after) := take_digits rest in (digit_value c :: ds, after)
      else ([], s)
  end.

Definition digits_to_Z (ds : list Z) : Z :=
  fold_left (fun acc d => 10 * acc + d) ds 0.

Definition is_exponent_mark (c : ascii) : bool :=
  Ascii.eqb c "e" || Ascii.eqb c "E".

(** An unsigned decimal literal, all of [s]: digits, an optional point
    and digits (at least one digit in all), an optional exponent with at
    least one digit.  The result [(m, e)] stands for [m * 10^e]. *)
Definition parse_number (s : string) : option (Z * Z) :=
  let '(int_part, r1) := take_digits s in
  let '(frac_part, r2) :=
    match r1 with
    | String "." r => take_digits r
    | _ => ([], r1)
    end in
  let fraclen := Z.of_nat (length frac_part) in
  match int_part ++ frac_part with
  | [] => None
  | ds =>
      let m := digits_to_Z ds in
      match r2 with
      | EmptyString => Some (m, - fraclen)
      | String c r3 =>
          if is_exponent_mark c then
            let '(eneg, r4) := split_sign r3 in
            match take_digits r4 with
            | (d :: ds', EmptyString) =>
                let e := digits_to_Z (d :: ds') in
                Some (m, (if eneg then - e else e) - fraclen)
            | _ => None
            end
          else None
      end
  end.

(** [m * 10^e] rounded to the nearest binary64, ties to even; too large
    becomes an infinity, too small a zero. *)
Definition decimal_to_float (neg : bool) (m e : Z) : float :=
  match m with
  | Zpos _ =>
      if 0 <=? e then
        binary_normalize prec emax (if neg then - (m * 10 ^ e) else m * 10 ^ e) 0 neg
      else
        let '(q, e2, loc) := SFdiv_core_binary prec emax m 0 (10 ^ (- e)) 0 in
        binary_round_aux prec emax neg q e2 loc
  | _ => S754_zero neg
  end.

(** White space as [float] sees it: the space and the five control
    characters from tab to carriage return.  The separators 0x1c to
    0x1f, which [str.strip] drops, are left in place and make the text
    unreadable. *)
Definition is_space (c : ascii) : bool :=
  let n := N_of_ascii c in (((9 <=? n) && (n <=? 13)) || (n =? 32))%N.

Fixpoint lstrip (s : string) : string :=
  match s with
  | EmptyString => EmptyString
  | String c rest => if is_space c then lstrip rest else s
  end.

Fixpoint rstrip (s : string) : string :=
  match s with
  | EmptyString => EmptyString
  | String c rest =>
      match rstrip rest with
      | EmptyString => if is_space c then EmptyString else String c EmptyString
      | kept => String c kept
      end
  end.

(** [float(s)] for a string: [None] stands for ValueError. *)
Definition of_string (s : string) : option float :=
  match strip_underscores Ascii.zero (rstrip (lstrip s)) with
  | None => None
  | Some text =>
      let '(neg, body) := split_sign text in
      match parse_number body with
      | Some (m, e) => Some (decimal_to_float neg m e)
      | None =>
          let word := Str.lower body in
          if String.eqb word "inf" || String.eqb word "infinity" then Some (S754_infinity neg)
          else if String.eqb word "nan" then Some S754_nan
          else None
      end
  end.

(** [float(n)] for an int: OverflowError when [n] is out of range. *)
Definition of_int (n : Z) : result float :=
  match binary_normalize prec emax n 0 false with
  | S754_infinity _ => Raise OverflowError
  | f => Ok f
  end.

(** [float(v)] *)
Definition of_value (v : value) : result float :=
  match v with
  | VFloat f => Ok f
  | VInt n => of_int n
  | VBool b => of_int (if b then 1 else 0)
  | VStr s =>
      match of_string s with
      | Some f => Ok f
      | None => Raise (ValueError ("could not convert string to float"))
      end
  | _ => Raise TypeError
  end.

End PyFloat.

(** ** [hashlib.sha256]

    SHA-256 (FIPS 180-4) on 32-bit words held in [Z], every addition
    reduced modulo 2^32. *)

Module Sha256.

Definition mask32 : Z := 0xffffffff.
Definition add32 (a b : Z) : Z := Z.land (a + b) mask32.
Definition not32 (a : Z) : Z := Z.lxor a mask32.
Definition rotr (n x : Z) : Z :=
  Z.lor (Z.shiftr x n) (Z.land (Z.shiftl x (32 - n)) mask32).
Definition shr (n x : Z) : Z := Z.shiftr x n.

Definition Ch (x y z : Z) : Z := Z.lxor (Z.land x y) (Z.land (not32 x) z).
Definition Maj (x y z : Z) : Z :=
  Z.lxor (Z.lxor (Z.land x y) (Z.land x z)) (Z.land y z).
Definition Sigma0 (x : Z) : Z := Z.lxor (Z.lxor (rotr 2 x) (rotr 13 x)) (rotr 22 x).
Definition Sigma1 (x : Z) : Z := Z.lxor (Z.lxor (rotr 6 x) (rotr 11 x)) (rotr 25 x).
Definition sigma0 (x : Z) : Z := Z.lxor (Z.lxor (rotr 7 x) (rotr 18 x)) (shr 3 x).
Definition sigma1 (x : Z) : Z := Z.lxor (Z.lxor (rotr 17 x) (rotr 19 x)) (shr 10 x).

(** The first 64 primes. *)
Definition primes : list Z :=
  [ 2; 3; 5; 7; 11; 13; 17; 19; 23; 29; 31; 37; 41; 43; 47; 53;
    59; 61; 67; 71; 73; 79; 83; 89; 97; 101; 103; 107; 109; 113; 127; 131;
    137; 139; 149; 151; 157; 163; 167; 173; 179; 181; 191; 193; 197; 199; 211; 223;
    227; 229; 233; 239; 241; 251; 257; 263; 269; 271; 277; 281; 283; 293; 307; 311 ].

(** The integer cube root of [n], found bit by bit from [2^bits] down. *)
Fixpoint cube_root (bits : nat) (n root : Z) : Z :=
  match bits with
  | O => root
  | S bits' =>
      let candidate := root + 2 ^ Z.of_nat bits' in
      cube_root bits' n (if candidate * candidate * candidate <=? n then candidate else root)
  end.

(** The round constants: the first 32 bits of the fractional parts of
    the cube roots of the first 64 primes. *)
Definition K : list Z :=
  map (fun p => Z.land (cube_root 36 (p * 2 ^ 96) 0) mask32) primes.

(** The initial hash value: the first 32 bits of the fractional parts
    of the square roots of the first 8 primes. *)
Definition H0 : list Z :=
  map (fun p => Z.land (Z.sqrt (p * 2 ^ 64)) mask32) (firstn 8 primes).

(** The message followed by the bit 1, zeros up to 56 modulo 64 bytes,
    and its length in bits as 8 big-endian bytes. *)
Definition be_bytes (count : nat) (x : Z) : list Z :=
  map (fun i => Z.land (Z.shiftr x (8 * Z.of_nat (count - 1 - i)%nat)) 0xff) (seq 0%nat count).

Definition pad (msg : list Z) : list Z :=
  let len := Z.of_nat (length msg) in
  let zeros := Z.to_nat ((55 - len) mod 64) in
  msg ++ [0x80] ++ repeat 0 zeros ++ be_bytes 8 (8 * len).

Fixpoint be_words (bytes : list Z) : list Z :=
  match bytes with
  | b0 :: b1 :: b2 :: b3 :: rest =>
      (Z.shiftl b0 24 + Z.shiftl b1 16 + Z.shiftl b2 8 + b3) :: be_words rest
  | _ => []
  end.

(** The 64-word message schedule, built from the 16 words of a block. *)
Fixpoint schedule (more : nat) (w : list Z) : list Z :=
  match more with
  | O => w
  | S more' =>
      let t := length w in
      let at_ (back : nat) := nth (t - back)%nat w 0 in
      schedule more'
        (w ++ [add32 (add32 (sigma1 (at_ 2%nat)) (at_ 7%nat))
                     (add32 (sigma0 (at_ 15%nat)) (at_ 16%nat))])
  end.

Record state : Type := State { a : Z; b : Z; c : Z; d : Z; e : Z; f : Z; g : Z; h : Z }.

Definition round (s : state) (kw : Z * Z) : state :=
  let t1 := add32 (add32 (add32 (h s) (Sigma1 (e s)))
                         (add32 (Ch (e s) (f s) (g s)) (fst kw)))
                  (snd kw) in
  let t2 := add32 (Sigma0 (a s)) (Maj (a s) (b s) (c s)) in
  State (add32 t1 t2) (a s) (b s) (c s) (add32 (d s) t1) (e s) (f s) (g s).

Definition compress (s : state) (block : list Z) : state :=
  let w := schedule 48%nat block in
  let r := fold_left round (combine K w) s in
  State (add32 (a s) (a r)) (add32 (b s) (b r)) (add32 (c s) (c r)) (add32 (d s) (d r))
        (add32 (e s) (e r)) (add32 (f s) (f r)) (add32 (g s) (g r)) (add32 (h s) (h r)).

Fixpoint blocks (count : nat) (words : list Z) : list (list Z) :=
  match count with
  | O => []
  | S count' => firstn 16%nat words :: blocks count' (skipn 16%nat words)
  end.

Definition initial : state :=
  State (nth 0%nat H0 0) (nth 1%nat H0 0) (nth 2%nat H0 0) (nth 3%nat H0 0)
        (nth 4%nat H0 0) (nth 5%nat H0 0) (nth 6%nat H0 0) (nth 7%nat H0 0).

Definition digest_words (msg : list Z) : list Z :=
  let words := be_words (pad msg) in
  let s := fold_left compress (blocks (length words / 16)%nat words) initial in
  [a s; b s; c s; d s; e s; f s; g s; h s].

Definition hex_digit (n : Z) : ascii :=
  ascii_of_N (Z.to_N (if n <? 10 then 48 + n else 87 + n)).

Definition hex_word (x : Z) : string :=
  string_of_list_ascii
    (map (fun i => hex_digit (Z.land (Z.shiftr x (4 * Z.of_nat (7 - i)%nat)) 0xf))
         (seq 0%nat 8%nat)).

Definition bytes_of_string (s : string) : list Z :=
  map (fun ch => Z.of_N (N_of_ascii ch)) (list_ascii_of_string s).

(** [hashlib.sha256(s.encode()).hexdigest()] *)
Definition hexdigest (s : string) : string :=
  String.concat "" (map hex_word (digest_words (bytes_of_string s))).

End Sha256.

(** ** utils/category_mapper.py *)

Module CategoryMapper.


(** Keyword rules, a dict in declaration order. *)
Definition CATEGORY_MAPPINGS : list (string * list string) :=
  [ ("Revenue",
     [ "revenue"; "sales"; "income"; "professional income";
       "business revenue"; "service_division"; "Sales & Revenue" ]);
    ("Cost of Goods Sold",
     [ "cogs"; "cost of goods"; "material_cost"; "material cost";
       "shipping_expense"; "shipping"; "freight"; "material_cost" ]);
    ("Payroll & Compensation",
     [ "payroll"; "salary"; "salaries"; "wages"; "compensation";
       "labor_expense"; "labor expense"; "employee"; "gratuity";
       "vacation payout"; "contribution to fund"; "incentive";
       "hiring cost"; "hiring"; "alc" ]);
    ("Marketing & Advertising",
     [ "marketing"; "advertising"; "advertisement"; "promotion";
       "marketing_expense" ]);
    ("Technology & IT",
     [ "technology_expense"; "technology"; "software"; "it"; "computer";
       "hosting"; "cloud"; "saas"; "internet"; "network"; "connectivity";
       "application service"; "secured storage" ]);
    ("Professional Services",
     [ "professional_fee"; "professional"; "consulting"; "legal";
       "accounting"; "consultant"; "audit"; "license"; "licensing";
       "fts"; "payment to reviewers"; "processing fee" ]);
    ("Travel & Entertainment",
     [ "travel_expense"; "travel"; "trip"; "entertainment_expense";
       "entertainment"; "meal_expense"; "meal"; "hotel"; "flight";
       "personnel travel"; "accommodation"; "transportation";
       "trip expense"; "trip insurance" ]);
    ("Facilities & Operations",
     [ "facility_cost"; "facility"; "facilities"; "rent"; "lease";
       "utilities"; "utility_expense"; "utility"; "maintenance";
       "building"; "operations_expense"; "operations"; "cleaning";
       "workplace equipment"; "leasing" ]);
    ("Office & Administrative",
     [ "office_expense"; "office"; "supplies"; "stationery";
       "communication_expense"; "communication"; "telephone";
       "correspondence"; "administrative"; "admin"; "equipment_expense";
       "equipment"; "import duty"; "additional expenses"; "fees and memberships";
       "membership"; "insurance_expense"; "insurance" ]);
    ("Research & Development",
     [ "research"; "development"; "r&d"; "rd_"; "innovation";
       "rd_labor_expense"; "rd_labor"; "rd_contractor_fee"; "rd_contractor";
       "rd_equipment"; "rd_supplies"; "rd_expense" ]);
    ("Depreciation & Amortization",
     [ "depreciation_expense"; "depreciation"; "amortization" ]);
    ("Taxes & Fees",
     [ "tax_expense"; "tax"; "taxes"; "duty"; "banking_expense";
       "bank"; "financial institution charges"; "fee for" ]) ].

(** [re.compile(re.escape(keyword), re.IGNORECASE)]: the keyword taken
    literally, letter case ignored. *)
Record pattern : Type := Pattern { keyword : string }.

(** [pattern.search(text)] *)
Definition search (p : pattern) (text : string) : bool :=
  Str.contains (Str.lower (keyword p)) (Str.lower text).

Definition _compile_patterns : list (string * list pattern) :=
  map (fun entry => (fst entry, map Pattern (snd entry))) CATEGORY_MAPPINGS.

Definition _compiled_patterns : list (string * list pattern) := _compile_patterns.

(** The inner loop: the category as soon as one of its patterns is found. *)
Fixpoint search_patterns (category : string) (patterns : list pattern) (text : string)
  : option string :=
  match patterns with
  | [] => None
  | p :: rest =>
      if search p text then Some category else search_patterns category rest text
  end.

(** The outer loop over the categories in dict order. *)
Fixpoint search_categories (table : list (string * list pattern)) (text : string)
  : option string :=
  match table with
  | [] => None
  | (category, patterns) :: rest =>
      match search_patterns category patterns text with
      | Some found => Some found
      | None => search_categories rest text
      end
  end.

(** [f"{account_name} {existing_category or ''}".lower()] *)
Definition search_text (account_name : string) (existing_category : option string) : string :=
  Str.lower (account_name +:+ " " +:+
             match existing_category with Some hint => hint | None => "" end).

Definition map_category (account_name account_type : string)
  (existing_category : option string) : string :=
  if String.eqb account_type "revenue" then "Revenue"
  else if String.eqb account_type "cogs" then "Cost of Goods Sold"
  else
    match search_categories _compiled_patterns (Str.lower account_name) with
    | Some category => category
    | None =>
        match search_categories _compiled_patterns
                (search_text account_name existing_category) with
        | Some category => category
        | None => "Other Expenses"
        end
    end.


Definition map_account_category := map_category.

End CategoryMapper.

(** ** extractors/base.py: what is on disk at [source_path] *)

Inductive source_file : Type :=
| NoFile                  (* the path does not exist *)
| Unparsable              (* the file is not JSON *)
| Json (doc : value).     (* what [json.load] returns *)

(** ** extractors/rootfi_extractor.py *)

Module RootfiExtractor.

Record t : Type := Extractor {
  source_path : string;
  file : source_file;
  data : option (list value)       (* [self.data], [None] until validated *)
}.

Definition __init__ (source_path : string) (file : source_file) : t :=
  Extractor source_path file None.

(** The loop over [required_fields]. *)
Fixpoint check_required (fields : list string) (first_record : value) : result unit :=
  match fields with
  | [] => Ok tt
  | field :: rest =>
      let* present := Py.py_in field first_record in
      if negb present then Raise (ValueError ("Missing required field: " +:+ field))
      else check_required rest first_record
  end.

(** [validate]: the value returned or the exception raised, and the
    extractor afterwards.  [self.data] is assigned before the success
    is logged, and evaluating the log arguments can still raise. *)
Definition validate (self : t) : result bool * t :=
  match file self with
  | NoFile => (Raise (FileNotFoundError ("Data file not found: " +:+ source_path self)), self)
  | Unparsable => (Raise JSONDecodeError, self)
  | Json doc =>
      match Py.py_in "data" doc with
      | Raise e => (Raise e, self)
      | Ok false => (Raise (ValueError "Missing 'data' key in Rootfi file"), self)
      | Ok true =>
          match Py.subscript "data" doc with
          | Raise e => (Raise e, self)
          | Ok (VList []) => (Raise (ValueError "Empty data array in Rootfi file"), self)
          | Ok (VList (first_record :: others)) =>
              match check_required ["period_start"; "period_end"] first_record with
              | Raise e => (Raise e, self)
              | Ok _ =>
                  let records := first_record :: others in
                  let self' := Extractor (source_path self) (file self) (Some records) in
                  let logged :=
                    let* first_period := Py.get_attr "period_start" first_record in
                    let* last_period := Py.get_attr "period_end" (List.last records VNone) in
                    Ok true in
                  (logged, self')
              end
          | Ok _ => (Raise (ValueError "'data' should be a list of period records"), self)
          end
      end
  end.

(** The dict a leaf yields; [float(value)] can raise. *)
Definition leaf (name account_type : string) (parent_name val account_id : value)
  : gen dict :=
  gen_try (match val with
           | VNone => Ok Py.float_zero
           | _ => PyFloat.of_value val
           end)
    (fun amount =>
       gen_yield [ ("account_name", VStr name);
                   ("account_type", VStr account_type);
                   ("parent_account", parent_name);
                   ("amount", VFloat amount);
                   ("source_account_id", account_id) ]).

(** Iterating anything but a list hands out strings (or nothing, or
    fails), and a string has no [get]. *)
Fixpoint _process_line_items (line_items : value) (account_type : string)
  (parent_name : value) {struct line_items} : gen dict :=
  match line_items with
  | VList items =>
      (fix each (items : list value) : gen dict :=
         match items with
         | [] => gen_done
         | item :: rest =>
             gen_seq
               (match item with
                | VDict d =>
                    gen_try (Py.strip_attr (Py.dict_get "name" d (VStr "")))
                      (fun name =>
                         let val := Py.dict_get "value" d (VInt 0) in
                         let account_id := Py.dict_get "account_id" d VNone in
                         if Str.nonempty name then
                           Py.dict_case "line_items"
                             (leaf name account_type parent_name val account_id)
                             (fun children =>
                                if Py.truthy children then
                                  _process_line_items children account_type (VStr name)
                                else leaf name account_type parent_name val account_id)
                             d
                         else gen_done)
                | _ => gen_raise AttributeError
                end)
               (each rest)
         end) items
  | VDict [] => gen_done
  | VDict (_ :: _) => gen_raise AttributeError
  | VStr EmptyString => gen_done
  | VStr (String _ _) => gen_raise AttributeError
  | _ => gen_raise TypeError
  end.

(** One of the three blocks of [_extract_period]: the sections listed
    under [key], walked with the account type of that block. *)
Definition extract_sections {rt : PyRuntime} (record : dict) (key account_type : string)
  (period_start period_end currency_id : value) : gen dict :=
  let sections := Py.dict_get key record VNone in
  if Py.dict_has key record && Py.truthy sections then
    gen_try (Py.py_iter sections)
      (gen_for (fun section =>
         gen_try (Py.py_in "line_items" section) (fun has_items =>
           if has_items then
             gen_try (Py.subscript "line_items" section) (fun line_items =>
             gen_try (Py.get_attr "name" section) (fun section_name =>
               gen_map
                 (fun item_data =>
                    Py.dict_update item_data
                      [ ("period_start", period_start);
                        ("period_end", period_end);
                        ("currency", if Py.truthy currency_id then currency_id else VStr "USD");
                        ("source_system", VStr "rootfi");
                        ("source_record_id",
                         VStr (str_of (Py.dict_get "rootfi_id" record (VStr "")))) ])
                 (_process_line_items line_items account_type section_name)))
           else gen_done)))
  else gen_done.

Definition _extract_period {rt : PyRuntime} (record : value) : gen dict :=
  match record with
  | VDict r =>
      let period_start := Py.dict_get "period_start" r VNone in
      let period_end := Py.dict_get "period_end" r VNone in
      let currency_id := Py.dict_get "currency_id" r (VStr "USD") in
      if negb (Py.truthy period_start) || negb (Py.truthy period_end) then gen_done
      else
        let sections key account_type :=
          extract_sections r key account_type period_start period_end currency_id in
        gen_seq (sections "revenue" "revenue")
       (gen_seq (sections "cost_of_goods_sold" "cogs")
                (sections "operating_expenses" "expense"))
  | _ => gen_raise AttributeError
  end.

(** [transaction["amount"] != 0.0] *)
Definition nonzero_amount (transaction : dict) : bool :=
  Py.ne_zero (Py.dict_get "amount" transaction VNone).

(** [extract]: validates first when that was skipped. *)
Definition extract {rt : PyRuntime} (self : t) : gen dict :=
  let ready :=
    match data self with
    | Some records => Ok records
    | None =>
        let '(outcome, self') := validate self in
        let* _ := outcome in
        match data self' with
        | Some records => Ok records
        | None => Raise TypeError
        end
    end in
  gen_try ready (gen_for (fun period_record =>
    gen_filter nonzero_amount (_extract_period period_record))).

End RootfiExtractor.

(** ** extractors/quickbooks_extractor.py *)

Module QuickBooksExtractor.

Record t : Type := Extractor {
  source_path : string;
  file : source_file;
  data : option value              (* [self.data], [None] until validated *)
}.

Definition __init__ (source_path : string) (file : source_file) : t :=
  Extractor source_path file None.

(** [if key not in container: raise ValueError(msg)] *)
Definition require (key : string) (container : value) (msg : string) : result unit :=
  let* present := Py.py_in key container in
  if present then Ok tt else Raise (ValueError msg).

Definition validate (self : t) : result bool * t :=
  match file self with
  | NoFile => (Raise (FileNotFoundError ("Data file not found: " +:+ source_path self)), self)
  | Unparsable => (Raise JSONDecodeError, self)
  | Json doc =>
      let checked :=
        let* _ := require "data" doc "Missing 'data' key in QuickBooks file" in
        let* payload := Py.subscript "data" doc in
        let* _ := require "Header" payload "Missing 'Header' in QuickBooks data" in
        let* _ := require "Columns" payload "Missing 'Columns' in QuickBooks data" in
        let* _ := require "Rows" payload "Missing 'Rows' in QuickBooks data" in
        Ok payload in
      match checked with
      | Raise e => (Raise e, self)
      | Ok payload =>
          let self' := Extractor (source_path self) (file self) (Some payload) in
          let logged :=
            let* header := Py.subscript "Header" payload in
            let* report_name := Py.get_attr "ReportName" header in
            let* currency := Py.get_attr "Currency" header in
            Ok true in
          (logged, self')
      end
  end.

(** A parsed money column. *)
Record column : Type := Column {
  title : value;
  start_date : value;
  end_date : value;
  col_key : value
}.

(** [{item["Name"]: item["Value"] for item in ...}]: later items
    overwrite earlier ones; a list or a dict cannot be a key.  Only
    string keys are ever looked up, so only they are kept. *)
Fixpoint metadata_of (items : list value) (acc : dict) : result dict :=
  match items with
  | [] => Ok acc
  | item :: rest =>
      let* name := Py.subscript "Name" item in
      let* val := Py.subscript "Value" item in
      match name with
      | VList _ | VDict _ => Raise TypeError
      | VStr key => metadata_of rest (Py.dict_set key val acc)
      | _ => metadata_of rest acc
      end
  end.

Fixpoint parse_column_list (cols : list value) : result (list column) :=
  match cols with
  | [] => Ok []
  | col :: rest =>
      let* col_type := Py.subscript "ColType" col in
      if Py.is_str "Money" col_type then
        let* meta_items := bind (Py.get_attr_default "MetaData" (VList []) col) Py.py_iter in
        let* metadata := metadata_of meta_items [] in
        let* col_title := Py.subscript "ColTitle" col in
        let* parsed := parse_column_list rest in
        Ok (Column col_title
                   (Py.dict_get "StartDate" metadata VNone)
                   (Py.dict_get "EndDate" metadata VNone)
                   (Py.dict_get "ColKey" metadata VNone) :: parsed)
      else parse_column_list rest
  end.

(** [_parse_columns]: the money columns of [self.data["Columns"]["Column"]]. *)
Definition _parse_columns (self_data : value) : result (list column) :=
  let* columns := Py.subscript "Columns" self_data in
  let* column := Py.subscript "Column" columns in
  let* cols := Py.py_iter column in
  parse_column_list cols.

(** The account type a Section row sets from its group label; an
    unmatched label leaves the inherited one. *)
Definition section_account_type (group : value) (account_type : option string)
  : result (option string) :=
  let* income := Py.py_in "Income" group in
  let* revenue := if income then Ok true else Py.py_in "Revenue" group in
  if revenue then Ok (Some "revenue")
  else
    let* cost := Py.py_in "Cost of Goods Sold" group in
    let* cogs := if cost then Ok true else Py.py_in "COGS" group in
    if cogs then Ok (Some "cogs")
    else
      let* expenses := Py.py_in "Expenses" group in
      let* expense := if expenses then Ok true else Py.py_in "Operating Expenses" group in
      if expense then Ok (Some "expense") else Ok account_type.

(** [col_data[0].get("value", "").strip()] guarded by
    [col_data and len(col_data) > 0]; [None] when the guard fails. *)
Definition first_cell_name (col_data : value) : result (option string) :=
  match col_data with
  | VList (cell :: _) =>
      let* text := bind (Py.get_attr_default "value" (VStr "") cell) Py.strip_attr in
      Ok (Some text)
  | VStr (String _ _) => Raise AttributeError     (* a character has no [get] *)
  | VDict (_ :: _) => Raise KeyError              (* no key 0 *)
  | VInt _ | VFloat _ | VBool _ =>
      if Py.truthy col_data then Raise TypeError  (* no [len] *)
      else Ok None
  | _ => Ok None
  end.

(** The amount of a cell: commas and dollar signs dropped, then
    [float]; text that is not a number, and a value that is not text,
    give 0.0. *)
Definition parse_amount (amount_str : value) : float :=
  match amount_str with
  | VStr s =>
      match PyFloat.of_string (Str.remove_char "$" (Str.remove_char "," s)) with
      | Some amount => amount
      | None => Py.float_zero
      end
  | _ => Py.float_zero
  end.

(** [account_type or "other"] *)
Definition type_or_other (account_type : option string) : string :=
  match account_type with
  | Some ty => if Str.nonempty ty then ty else "other"
  | None => "other"
  end.

(** The body of the loop over [enumerate(columns)] of a Data row: the
    column at [idx] takes the cell at [idx + 1], if there is one. *)
Definition cell_records (self_data : value) (cells : list value)
  (account_name : string) (parent_account : value) (account_type : option string)
  (idx : nat) (col_def : column) : gen dict :=
  match nth_error cells (idx + 1) with
  | Some cell =>
      gen_try (Py.get_attr_default "value" (VStr "0") cell) (fun amount_str =>
        let amount := parse_amount amount_str in
        if Py.float_nonzero amount then
          gen_try (bind (Py.subscript "Header" self_data)
                        (Py.get_attr_default "Currency" (VStr "USD")))
            (fun currency =>
               gen_yield [ ("account_name", VStr account_name);
                           ("account_type", VStr (type_or_other account_type));
                           ("parent_account", parent_account);
                           ("period_start", start_date col_def);
                           ("period_end", end_date col_def);
                           ("amount", VFloat amount);
                           ("currency", currency);
                           ("source_system", VStr "quickbooks") ])
        else gen_done)
  | None => gen_done
  end.

Definition data_cells (self_data : value) (columns : list column) (cells : list value)
  (account_name : string) (parent_account : value) (account_type : option string)
  : gen dict :=
  gen_for (fun '(idx, col_def) =>
             cell_records self_data cells account_name parent_account account_type
               idx col_def)
          (Py.enumerate columns).

(** The Data-row part of [_process_row]. *)
Definition data_row (self_data : value) (columns : list column) (row : dict)
  (parent_account : value) (account_type : option string) : gen dict :=
  let col_data := Py.dict_get "ColData" row (VList []) in
  gen_try (first_cell_name col_data) (fun account_name =>
    match account_name, col_data with
    | Some name, VList cells =>
        if Str.nonempty name then
          data_cells self_data columns cells name parent_account account_type
        else gen_done
    | _, _ => gen_done
    end).

(** [child_parent or parent_account] for the children of a row. *)
Definition child_parent_of (row_type : value) (row : dict) (parent_account : value)
  : result value :=
  if Py.is_str "Data" row_type then
    let* child_parent := first_cell_name (Py.dict_get "ColData" row (VList [])) in
    match child_parent with
    | Some name => Ok (if Str.nonempty name then VStr name else parent_account)
    | None => Ok parent_account
    end
  else Ok parent_account.

Section ProcessRow.
Context (self_data : value) (columns : list column).

Fixpoint _process_row (row : value) (parent_account : value)
  (account_type : option string) {struct row} : gen dict :=
  match row with
  | VDict r =>
      let row_type := Py.dict_get "type" r VNone in
      gen_try (if Py.is_str "Section" row_type
               then section_account_type (Py.dict_get "group" r (VStr "")) account_type
               else Ok account_type)
        (fun account_type =>
           gen_seq
             (if Py.is_str "Data" row_type
              then data_row self_data columns r parent_account account_type
              else gen_done)
             (Py.dict_case "Rows" gen_done
                (fun rows =>
                   match rows with
                   | VDict rs =>
                       Py.dict_case "Row" gen_done
                         (fun child_rows =>
                            let child child_row :=
                              gen_try (child_parent_of row_type r parent_account)
                                (fun parent => _process_row child_row parent account_type) in
                            match child_rows with
                            | VList children => gen_for child children
                            | single => gen_seq (child single) gen_done
                            end)
                         rs
                   | _ => gen_done
                   end)
                r))
  | _ => gen_raise AttributeError
  end.
End ProcessRow.

(** [extract]: validates first when that was skipped. *)
Definition extract (self : t) : gen dict :=
  let ready :=
    match data self with
    | Some payload => Ok payload
    | None =>
        let '(outcome, self') := validate self in
        let* _ := outcome in
        match data self' with
        | Some payload => Ok payload
        | None => Raise TypeError
        end
    end in
  gen_try ready (fun self_data =>
  gen_try (_parse_columns self_data) (fun columns =>
  gen_try (let* rows_obj := Py.get_attr_default "Rows" (VDict []) self_data in
           Py.get_attr_default "Row" (VList []) rows_obj) (fun rows =>
    let rows := match rows with VList items => items | single => [single] end in
    gen_for (fun row => _process_row self_data columns row VNone None) rows))).

End QuickBooksExtractor.

(** ** transformers/financial_transformer.py *)

(** [datetime.date]; the transformer only ever holds midnights, so a
    parsed [datetime] is its date. *)
Record date : Type := Date { year : Z; month : Z; day : Z }.

Module PyDate.

Definition is_leap (y : Z) : bool :=
  (y mod 4 =? 0) && (negb (y mod 100 =? 0) || (y mod 400 =? 0)).

Definition days_in_month (y m : Z) : Z :=
  if m =? 2 then (if is_leap y then 29 else 28)
  else if (m =? 4) || (m =? 6) || (m =? 9) || (m =? 11) then 30
  else 31.

Definition digit (c : ascii) : option Z :=
  if PyFloat.is_digit c then Some (PyFloat.digit_value c) else None.

Definition digit_in (lo hi : Z) (c : ascii) : option Z :=
  match digit c with
  | Some n => if (lo <=? n) && (n <=? hi) then Some n else None
  | None => None
  end.

(** [%Y]: four digits. *)
Definition parse_year (s : string) : option Z :=
  match s with
  | String c1 (String c2 (String c3 (String c4 EmptyString))) =>
      match digit c1, digit c2, digit c3, digit c4 with
      | Some d1, Some d2, Some d3, Some d4 => Some (1000 * d1 + 100 * d2 + 10 * d3 + d4)
      | _, _, _, _ => None
      end
  | _ => None
  end.

(** [%m]: 10 to 12, 01 to 09, or 1 to 9. *)
Definition parse_month (s : string) : option Z :=
  match s with
  | String c1 (String c2 EmptyString) =>
      match digit c1 with
      | Some 1 => option_map (Z.add 10) (digit_in 0 2 c2)
      | Some 0 => digit_in 1 9 c2
      | _ => None
      end
  | String c1 EmptyString => digit_in 1 9 c1
  | _ => None
  end.

(** [%d]: 30 or 31, 10 to 29, 01 to 09, 1 to 9, or a space and 1 to 9. *)
Definition parse_day (s : string) : option Z :=
  match s with
  | String c1 (String c2 EmptyString) =>
      if Ascii.eqb c1 " " then digit_in 1 9 c2
      else
        match digit c1 with
        | Some 3 => option_map (Z.add 30) (digit_in 0 1 c2)
        | Some 2 => option_map (Z.add 20) (digit c2)
        | Some 1 => option_map (Z.add 10) (digit c2)
        | Some 0 => digit_in 1 9 c2
        | _ => None
        end
  | String c1 EmptyString => digit_in 1 9 c1
  | _ => None
  end.

(** The text before the first [c] and the text after it. *)
Fixpoint split_once (c : ascii) (s : string) : option (string * string) :=
  match s with
  | EmptyString => None
  | String d rest =>
      if Ascii.eqb c d then Some (EmptyString, rest)
      else match split_once c rest with
           | Some (before, after) => Some (String d before, after)
           | None => None
           end
  end.

(** [datetime.strptime(s, "%Y-%m-%d")]: [None] stands for ValueError.
    The whole text must match and name a day that exists, from year 1 on. *)
Definition strptime_ymd (s : string) : option date :=
  match split_once "-" s with
  | Some (year_text, rest) =>
      match split_once "-" rest with
      | Some (month_text, day_text) =>
          match parse_year year_text, parse_month month_text, parse_day day_text with
          | Some y, Some m, Some d =>
              if (1 <=? y) && (d <=? days_in_month y m) then Some (Date y m d) else None
          | _, _, _ => None
          end
      | None => None
      end
  | None => None
  end.

(** [int(d.strftime("%Y%m%d"))] *)
Definition yyyymmdd (d : date) : Z := 10000 * year d + 100 * month d + day d.

End PyDate.

(** A normalized transaction, the dict [transform_transaction] returns. *)
Record Transaction : Type := {
  account_id : string;
  account_name : string;
  account_type : value;
  account_category : string;
  parent_account : value;
  source_system : value;
  source_account_id : value;
  period_start : date;
  period_end : date;
  amount : float;
  currency : value;
  source_record_id : value
}.

(** A normalized account, the dict [transform_account] returns. *)
Module Account.
Record t : Type := Row {
  account_id : string;
  account_name : string;
  account_type : value;
  parent_account_id : value;
  source_system : value;
  source_account_id : value
}.
End Account.

Module FinancialTransformer.

(** [hashlib.sha256(key.encode()).hexdigest()[:16]] of the lowered key. *)
Definition _generate_account_id (account_name account_type source_system : string) : string :=
  let key := Str.lower (source_system +:+ ":" +:+ account_type +:+ ":" +:+ account_name) in
  String.substring 0 16 (Sha256.hexdigest key).

Definition formats : list string :=
  [ "%Y-%m-%d"; "%Y-%m-%dT%H:%M:%S"; "%Y-%m-%dT%H:%M:%S.%fZ"; "%Y-%m-%dT%H:%M:%S%z" ].

(** One turn of the loop over [formats]: whatever the format, the text
    before the first "T" is read as year-month-day; a value without
    [split] raises AttributeError, which is caught like ValueError. *)
Definition try_format (fmt : string) (date_str : value) : option date :=
  match date_str with
  | VStr s => PyDate.strptime_ymd (Str.before_char "T" s)
  | _ => None
  end.

Fixpoint try_formats (fmts : list string) (date_str : value) : option date :=
  match fmts with
  | [] => None
  | fmt :: rest =>
      match try_format fmt date_str with
      | Some parsed => Some parsed
      | None => try_formats rest date_str
      end
  end.

Definition _parse_date (date_str : value) : option date :=
  if negb (Py.truthy date_str) then None else try_formats formats date_str.

(** [map_account_category(account_name, account_type, parent_account)]
    on the values of a raw record: a type that is not text equals
    neither "revenue" nor "cogs", and a hint that is not text is
    formatted by the f-string. *)
Definition category_of {rt : PyRuntime} (account_name : string)
  (account_type parent_account : value) : string :=
  let hint := if Py.truthy parent_account then Some (str_of parent_account) else None in
  match account_type with
  | VStr ty => CategoryMapper.map_account_category account_name ty hint
  | _ => CategoryMapper.map_account_category account_name "" hint
  end.

Definition transform_transaction {rt : PyRuntime} (raw_data : dict) : result Transaction :=
  let* account_name := Py.strip_attr (Py.dict_get "account_name" raw_data (VStr "")) in
  let account_type := Py.dict_get "account_type" raw_data (VStr "other") in
  let source_system := Py.dict_get "source_system" raw_data (VStr "unknown") in
  let account_id :=
    _generate_account_id account_name (str_of account_type) (str_of source_system) in
  let period_start := _parse_date (Py.dict_get "period_start" raw_data VNone) in
  let period_end := _parse_date (Py.dict_get "period_end" raw_data VNone) in
  match period_start, period_end with
  | Some period_start, Some period_end =>
      let* amount := PyFloat.of_value (Py.dict_get "amount" raw_data (VFloat Py.float_zero)) in
      let parent_account := Py.dict_get "parent_account" raw_data VNone in
      let account_category := category_of account_name account_type parent_account in
      Ok {| account_id := account_id;
            account_name := account_name;
            account_type := account_type;
            account_category := account_category;
            parent_account := parent_account;
            source_system := source_system;
            source_account_id := Py.dict_get "source_account_id" raw_data VNone;
            period_start := period_start;
            period_end := period_end;
            amount := amount;
            currency := Py.dict_get "currency" raw_data (VStr "USD");
            source_record_id := Py.dict_get "source_record_id" raw_data VNone |}
  | _, _ => Raise (ValueError ("Invalid period dates: " +:+ py_str (VDict raw_data)))
  end.

(** [self.account_cache]: the ids handed out so far, each under itself. *)
Definition account_cache : Type := gmap string string.

(** [FinancialTransformer()] starts with an empty cache. *)
Definition __init__ : account_cache := ∅.

(** [transform_account]: what is returned or raised, and the cache
    afterwards; [None] is returned for an account already seen. *)
Definition transform_account {rt : PyRuntime} (self : account_cache) (raw_data : dict)
  : result (option Account.t) * account_cache :=
  match Py.strip_attr (Py.dict_get "account_name" raw_data (VStr "")) with
  | Raise e => (Raise e, self)
  | Ok account_name =>
      let account_type := Py.dict_get "account_type" raw_data (VStr "other") in
      let source_system := Py.dict_get "source_system" raw_data (VStr "unknown") in
      let account_id :=
        _generate_account_id account_name (str_of account_type) (str_of source_system) in
      let cache_key := account_id in
      match self !! cache_key with
      | Some _ => (Ok None, self)
      | None =>
          (Ok (Some (Account.Row account_id account_name account_type
                       (Py.dict_get "parent_account" raw_data VNone)
                       source_system
                       (Py.dict_get "source_account_id" raw_data VNone))),
           <[cache_key := account_id]> self)
      end
  end.

End FinancialTransformer.

(** ** models/financial.py: the tables, and the store that holds them

    Surrogate keys come from a serial and are positive.  The timestamp
    columns are left out.  The store is reachable, and the statements
    on the dimensions succeed: their rows fit their columns.  The bulk
    insert into [fact_financials] is checked against the constraints
    the table declares, and is refused when a row breaks one. *)

Module DimAccount.
Record t : Type := Row {
  account_key : positive;
  account_id : string;
  account_name : string;
  account_type : value;
  account_category : option string;
  parent_account_name : value;
  is_parent : bool;
  source_system : value;
  source_account_id : value
}.
End DimAccount.

Module DimDate.
Record t : Type := Row {
  date_key : Z;
  date_ : date;
  year_ : Z;
  quarter : Z;
  month_ : Z;
  month_name : string;
  year_quarter : string;
  year_month : string
}.
End DimDate.

Module DimSource.
Record t : Type := Row {
  source_key : positive;
  source_name : string;
  source_description : option string
}.
End DimSource.

(** [class FinancialFact], with the type [A] of its amount left open:
    the object the pipeline builds holds the Python float, the row of
    [fact_financials] holds the [Numeric(20, 2)] the column made of it. *)
Module FinancialFact.
Record t (A : Type) : Type := Row {
  account_key : positive;
  period_start_key : Z;
  period_end_key : Z;
  source_key : positive;
  amount_ : A;
  currency_ : value;
  year_ : Z;
  quarter : Z;
  month_ : Z;
  year_quarter : string;
  source_record_id_ : value
}.
Arguments Row {A} _ _ _ _ _ _ _ _ _ _ _.
Arguments account_key {A} _.
Arguments period_start_key {A} _.
Arguments period_end_key {A} _.
Arguments source_key {A} _.
Arguments amount_ {A} _.
Arguments currency_ {A} _.
Arguments year_ {A} _.
Arguments quarter {A} _.
Arguments month_ {A} _.
Arguments year_quarter {A} _.
Arguments source_record_id_ {A} _.

(** The row stored for an object: its columns, the amount as the
    column holds it.  The ORM leaves an attribute that is [None] out of
    the INSERT, so that a currency that is [None] is stored as the
    default of its column, "USD". *)
Definition stored {rt : PyRuntime} (fact : t float) : t numeric :=
  Row (account_key fact) (period_start_key fact) (period_end_key fact) (source_key fact)
      (to_numeric (amount_ fact))
      (match currency_ fact with
       | VNone => VStr "USD"
       | currency => currency
       end)
      (year_ fact) (quarter fact) (month_ fact)
      (year_quarter fact) (source_record_id_ fact).
End FinancialFact.

Inductive run_status : Type := Started | Completed | Failed.

Module PipelineRun.
Record t : Type := Row {
  run_id : string;
  source_system : string;
  status : run_status;
  records_processed : Z;
  records_failed : Z;
  error : option exn           (* [error_message] is [str] of it *)
}.
End PipelineRun.

#[global] Instance date_eq_dec : EqDecision date.
Proof. solve_decision. Defined.

#[global] Instance date_countable : Countable date :=
  inj_countable' (fun d => (year d, month d, day d))
                 (fun t => Date t.1.1 t.1.2 t.2)
                 (fun d => match d with Date _ _ _ => eq_refl end).

Module Store.

Record t : Type := Db {
  dim_account : gmap string DimAccount.t;      (* unique on account_id *)
  dim_account_seq : positive;                  (* next account_key *)
  dim_date : gmap date DimDate.t;              (* unique on date *)
  dim_source : gmap string DimSource.t;        (* unique on source_name *)
  dim_source_seq : positive;                   (* next source_key *)
  fact_financials : list (FinancialFact.t numeric);
  pipeline_runs : gmap string PipelineRun.t    (* unique on run_id *)
}.

Definition empty : t := Db ∅ 1%positive ∅ ∅ 1%positive [] ∅.

(** [db.add(run); db.commit()] and the later commits of a changed run. *)
Definition save_run (run : PipelineRun.t) (db : t) : t :=
  Db (dim_account db) (dim_account_seq db) (dim_date db) (dim_source db)
     (dim_source_seq db) (fact_financials db)
     (<[PipelineRun.run_id run := run]> (pipeline_runs db)).

(** [INSERT INTO dim_account ... ON CONFLICT (account_id) DO UPDATE SET
    account_name, account_type, account_category, parent_account_name,
    is_parent ... RETURNING account_key].  The serial advances for the
    proposed row whether or not it is kept. *)
Definition upsert_account (proposed : positive -> DimAccount.t) (db : t) : positive * t :=
  let fresh := proposed (dim_account_seq db) in
  let kept :=
    match dim_account db !! DimAccount.account_id fresh with
    | Some existing =>
        DimAccount.Row (DimAccount.account_key existing)
                       (DimAccount.account_id existing)
                       (DimAccount.account_name fresh)
                       (DimAccount.account_type fresh)
                       (DimAccount.account_category fresh)
                       (DimAccount.parent_account_name fresh)
                       (DimAccount.is_parent fresh)
                       (DimAccount.source_system existing)
                       (DimAccount.source_account_id existing)
    | None => fresh
    end in
  (DimAccount.account_key kept,
   Db (<[DimAccount.account_id fresh := kept]> (dim_account db))
      (Pos.succ (dim_account_seq db)) (dim_date db) (dim_source db)
      (dim_source_seq db) (fact_financials db) (pipeline_runs db)).

(** [INSERT INTO dim_date ... ON CONFLICT (date) DO NOTHING] *)
Definition insert_dates (rows : list DimDate.t) (db : t) : t :=
  Db (dim_account db) (dim_account_seq db)
     (fold_left (fun table row =>
                   match table !! DimDate.date_ row with
                   | Some _ => table
                   | None => <[DimDate.date_ row := row]> table
                   end) rows (dim_date db))
     (dim_source db) (dim_source_seq db) (fact_financials db) (pipeline_runs db).

(** [SELECT source_key FROM dim_source WHERE source_name = ...] *)
Definition select_source_key (source_name : string) (db : t) : option positive :=
  DimSource.source_key <$> dim_source db !! source_name.

(** [db.add(DimSource(...)); db.commit(); db.refresh(source)] *)
Definition add_source (source_name : string) (description : option string) (db : t)
  : positive * t :=
  let key := dim_source_seq db in
  (key,
   Db (dim_account db) (dim_account_seq db) (dim_date db)
      (<[source_name := DimSource.Row key source_name description]> (dim_source db))
      (Pos.succ key) (fact_financials db) (pipeline_runs db)).

(** *** The constraints of [fact_financials] *)

Definition has_nul (s : string) : bool :=
  existsb (Ascii.eqb Ascii.zero) (list_ascii_of_string s).

(** A text in a [String(n)] column: at most [n] characters. *)
Definition fits_text (n : nat) (s : string) : bool := (String.length s <=? n)%nat.

(** A value in a text column, [nullable] or not.  Only text and [None]
    are followed: what becomes of another value is up to the driver and
    the server, it is taken as refused here, and the properties of the
    insert are stated for text and [None]. *)
Definition fits_string (nullable : bool) (n : nat) (v : value) : bool :=
  match v with
  | VStr s => fits_text n s
  | VNone => nullable
  | _ => false
  end.

Definition is_null (v : value) : bool :=
  match v with VNone => true | _ => false end.

(** An [Integer] column holds 32 bits. *)
Definition fits_integer (n : Z) : bool := (- 2 ^ 31 <=? n) && (n <? 2 ^ 31).

(** [Numeric(20, 2)] has 18 digits before the point: a finite float
    fits when its magnitude is below 10^18.  Not-a-number is a numeric
    value; the infinities are not. *)
Definition fits_numeric (x : float) : bool :=
  match x with
  | S754_zero _ | S754_nan => true
  | S754_infinity _ => false
  | S754_finite _ m e =>
      if 0 <=? e then Zpos m * 2 ^ e <? 10 ^ 18 else Zpos m <? 10 ^ 18 * 2 ^ (- e)
  end.

(** The text sent for a row holds a NUL character, which the driver
    refuses before anything reaches the server. *)
Definition sends_nul (fact : FinancialFact.t float) : bool :=
  let nul v := match v with VStr s => has_nul s | _ => false end in
  nul (FinancialFact.currency_ fact) || has_nul (FinancialFact.year_quarter fact)
  || nul (FinancialFact.source_record_id_ fact).

(** Every value of the row fits the type of its column; a currency
    that is [None] is not sent. *)
Definition fits_columns (fact : FinancialFact.t float) : bool :=
  fits_integer (FinancialFact.period_start_key fact)
  && fits_integer (FinancialFact.period_end_key fact)
  && fits_numeric (FinancialFact.amount_ fact)
  && (is_null (FinancialFact.currency_ fact)
      || fits_string false 10 (FinancialFact.currency_ fact))
  && fits_integer (FinancialFact.year_ fact)
  && fits_integer (FinancialFact.quarter fact)
  && fits_integer (FinancialFact.month_ fact)
  && fits_text 10 (FinancialFact.year_quarter fact)
  && fits_string true 255 (FinancialFact.source_record_id_ fact).

(** What the server objects to in a row by itself, if anything: a
    value that does not fit its column (DataError).  No column that is
    [nullable=False] is left without a value: the keys, the amount and
    the numbers of the period are always there, and the currency has
    its default. *)
Definition row_error (fact : FinancialFact.t float) : option exn :=
  if negb (fits_columns fact) then Some DataError else None.

Fixpoint first_row_error (facts : list (FinancialFact.t float)) : option exn :=
  match facts with
  | [] => None
  | fact :: rest =>
      match row_error fact with
      | Some e => Some e
      | None => first_row_error rest
      end
  end.

(** The keys a fact row may refer to: those of the rows of the three
    dimensions. *)
Definition has_account_key (db : t) (key : positive) : bool :=
  bool_decide (map_Exists (fun _ row => DimAccount.account_key row = key) (dim_account db)).

Definition has_date_key (db : t) (key : Z) : bool :=
  bool_decide (map_Exists (fun _ row => DimDate.date_key row = key) (dim_date db)).

Definition has_source_key (db : t) (key : positive) : bool :=
  bool_decide (map_Exists (fun _ row => DimSource.source_key row = key) (dim_source db)).

(** The four foreign keys of a fact row. *)
Definition references (db : t) (fact : FinancialFact.t float) : bool :=
  has_account_key db (FinancialFact.account_key fact)
  && has_date_key db (FinancialFact.period_start_key fact)
  && has_date_key db (FinancialFact.period_end_key fact)
  && has_source_key db (FinancialFact.source_key fact).

(** [db.bulk_save_objects(facts); db.commit()]: one INSERT of all the
    rows.  The driver refuses a NUL character (ValueError); the server
    then takes the rows in order and stops at the first that does not
    fit its columns; the foreign keys are checked when all rows are in
    (IntegrityError).  A refused insert stores none of
    the rows. *)
Definition bulk_save_facts {rt : PyRuntime} (facts : list (FinancialFact.t float)) (db : t)
  : result t :=
  if existsb sends_nul facts then
    Raise (ValueError "A string literal cannot contain NUL (0x00) characters.")
  else
    match first_row_error facts with
    | Some e => Raise e
    | None =>
        if forallb (references db) facts then
          Ok (Db (dim_account db) (dim_account_seq db) (dim_date db) (dim_source db)
                 (dim_source_seq db) (fact_financials db ++ map FinancialFact.stored facts)
                 (pipeline_runs db))
        else Raise IntegrityError
    end.

End Store.

(** ** loaders/dimension_loader.py *)

Module DimensionLoader.

Record t : Type := Loader {
  _date_cache : gmap date Z;
  _account_cache : gmap string positive;
  _source_cache : gmap string positive
}.

(** [DimensionLoader(db)] starts with empty caches. *)
Definition __init__ : t := Loader ∅ ∅ ∅.

Definition month_names : list string :=
  [ "January"; "February"; "March"; "April"; "May"; "June"; "July";
    "August"; "September"; "October"; "November"; "December" ].

Definition two_digits (n : Z) : string :=
  if n <? 10 then "0" +:+ pretty n else pretty n.

(** [(month - 1) // 3 + 1] *)
Definition quarter_of (m : Z) : Z := (m - 1) / 3 + 1.

(** [f"{year}-Q{quarter}"] *)
Definition year_quarter_of (y q : Z) : string := pretty y +:+ "-Q" +:+ pretty q.

(** The row of a day.  [strftime("%Y-%m")] writes the year as the
    number it is, without leading zeros, and the month on two digits. *)
Definition date_row (d : date) : DimDate.t :=
  let q := quarter_of (month d) in
  DimDate.Row (PyDate.yyyymmdd d) d (year d) q (month d)
              (nth (Z.to_nat (month d - 1)) month_names "")
              (year_quarter_of (year d) q)
              (pretty (year d) +:+ "-" +:+ two_digits (month d)).

(** [d + timedelta(days=1)] *)
Definition next_day (d : date) : date :=
  if day d <? PyDate.days_in_month (year d) (month d) then Date (year d) (month d) (day d + 1)
  else if month d <? 12 then Date (year d) (month d + 1) 1
  else Date (year d + 1) 1 1.

(** [a <= b] on dates *)
Definition date_le (a b : date) : bool :=
  PyDate.yyyymmdd a <=? PyDate.yyyymmdd b.

(** [date.toordinal()]: days since the day before 0001-01-01. *)
Definition days_before_year (y : Z) : Z :=
  let p := y - 1 in p * 365 + p / 4 - p / 100 + p / 400.

Fixpoint days_before_month (y : Z) (m : nat) : Z :=
  match m with
  | O => 0
  | S m' => days_before_month y m' + PyDate.days_in_month y (Z.of_nat m)
  end.

Definition toordinal (d : date) : Z :=
  days_before_year (year d) + days_before_month (year d) (Z.to_nat (month d - 1)) + day d.

(** The body of [while current_date <= end_date], for at most [days] days. *)
Fixpoint dates_to_insert (days : nat) (current_date end_date : date) : list DimDate.t :=
  match days with
  | O => []
  | S days' =>
      if date_le current_date end_date then
        date_row current_date :: dates_to_insert days' (next_day current_date) end_date
      else []
  end.

Definition load_date_dimension (start_date end_date : date) (db : Store.t) : Store.t :=
  let days := Z.to_nat (toordinal end_date - toordinal start_date + 1) in
  match dates_to_insert days start_date end_date with
  | [] => db
  | rows => Store.insert_dates rows db
  end.

Definition get_date_key (self : t) (date_value : date) : Z * t :=
  match _date_cache self !! date_value with
  | Some date_key => (date_key, self)
  | None =>
      let date_key := PyDate.yyyymmdd date_value in
      (date_key,
       Loader (<[date_value := date_key]> (_date_cache self))
              (_account_cache self) (_source_cache self))
  end.

Definition upsert_account (self : t) (db : Store.t)
  (account_id account_name : string) (account_type : value)
  (account_category : option string) (parent_account_name : value)
  (is_parent : bool) (source_system source_account_id : value)
  : positive * t * Store.t :=
  match _account_cache self !! account_id with
  | Some account_key => (account_key, self, db)
  | None =>
      let '(account_key, db') :=
        Store.upsert_account
          (fun key => DimAccount.Row key account_id account_name account_type
                        account_category parent_account_name is_parent
                        source_system source_account_id) db in
      (account_key,
       Loader (_date_cache self) (<[account_id := account_key]> (_account_cache self))
              (_source_cache self),
       db')
  end.

Definition get_or_create_source (self : t) (db : Store.t) (source_name : string)
  (description : option string) : positive * t * Store.t :=
  let cached key :=
    Loader (_date_cache self) (_account_cache self)
           (<[source_name := key]> (_source_cache self)) in
  match _source_cache self !! source_name with
  | Some source_key => (source_key, self, db)
  | None =>
      match Store.select_source_key source_name db with
      | Some found => (found, cached found, db)
      | None =>
          let '(source_key, db') := Store.add_source source_name description db in
          (source_key, cached source_key, db')
      end
  end.

End DimensionLoader.

(** ** financial_pipeline.py *)

(** The extractor interface of extractors/base.py. *)
Class BaseExtractor (E : Type) : Type := {
  validate : E -> result bool * E;
  extract : E -> gen dict
}.

#[global] Instance rootfi_extractor {rt : PyRuntime} : BaseExtractor RootfiExtractor.t :=
  {| validate := RootfiExtractor.validate; extract := RootfiExtractor.extract |}.

#[global] Instance quickbooks_extractor : BaseExtractor QuickBooksExtractor.t :=
  {| validate := QuickBooksExtractor.validate; extract := QuickBooksExtractor.extract |}.

Module FinancialPipeline.

(** A row of the failed-records export; the columns [error_message] and
    [error_type] are [str(e)] and the class name of [error]. *)
Record FailedRecord : Type := {
  failed_source_system : string;
  failed_account_name : value;
  failed_account_type : value;
  failed_parent_account : value;
  failed_period_start : value;
  failed_period_end : value;
  failed_amount : value;
  failed_currency : value;
  error : exn
}.

Definition error_type (e : exn) : string :=
  match e with
  | FileNotFoundError _ => "FileNotFoundError"
  | JSONDecodeError => "JSONDecodeError"
  | ValueError _ => "ValueError"
  | AttributeError => "AttributeError"
  | TypeError => "TypeError"
  | KeyError => "KeyError"
  | IndexError => "IndexError"
  | OverflowError => "OverflowError"
  | IntegrityError => "IntegrityError"
  | DataError => "DataError"
  | PendingRollbackError => "PendingRollbackError"
  end.

(** The CSV file written for a run. *)
Record Export : Type := {
  csv_path : string;
  rows : list FailedRecord
}.

Record Stats : Type := {
  run_id : string;
  source : string;
  records_processed : Z;
  records_failed : Z;
  failed_records_csv : option string
}.

(** What a run leaves behind: what it returned or raised,
    [self.failed_records], the export it wrote, and the store. *)
Record Outcome : Type := {
  returned : result Stats;
  failed_records : list FailedRecord;
  exported : option Export;
  db : Store.t
}.

(** [db_session], the SQLAlchemy session of a run.  What the
    dimension loader writes is committed statement by statement.  When
    the bulk insert is refused, the session rolls its transaction back
    and then waits for [rollback()]: until that call, every statement
    and every commit raises PendingRollbackError.  The pipeline never
    makes that call, so a session that has failed stays failed to the
    end of the run. *)
Inductive session_state : Type := Active | PendingRollback.

Section Pipeline.
Context {rt : PyRuntime}.
(** [settings.chunk_size], the uuid of the run and the clock reading
    used in the export's name. *)
Context (chunk_size : Z) (run_uuid timestamp : string).

Definition _initialize_date_dimension (db : Store.t) : Store.t :=
  DimensionLoader.load_date_dimension (Date 2020 1 1) (Date 2026 12 31) db.

(** The body of the loop of [_load_facts_batch] for one fact: the
    fact row, or the exception that makes the loop skip it; what was
    written before the exception stays. *)
Definition build_fact (dim_loader : DimensionLoader.t) (db : Store.t) (fact_data : Transaction)
  : result (FinancialFact.t float) * DimensionLoader.t * Store.t :=
  let '(account_key, dim_loader, db) :=
    DimensionLoader.upsert_account dim_loader db
      (account_id fact_data) (account_name fact_data) (account_type fact_data)
      (Some (account_category fact_data)) (parent_account fact_data) false
      (source_system fact_data) (source_account_id fact_data) in
  let '(period_start_key, dim_loader) :=
    DimensionLoader.get_date_key dim_loader (period_start fact_data) in
  let '(period_end_key, dim_loader) :=
    DimensionLoader.get_date_key dim_loader (period_end fact_data) in
  match source_system fact_data with
  | VStr source_name =>
      let '(source_key, dim_loader, db) :=
        DimensionLoader.get_or_create_source dim_loader db source_name
          (Some (Str.title source_name +:+ " Data Source")) in
      let y := year (period_start fact_data) in
      let q := DimensionLoader.quarter_of (month (period_start fact_data)) in
      (Ok (FinancialFact.Row account_key period_start_key period_end_key source_key
             (amount fact_data) (currency fact_data)
             y q (month (period_start fact_data))
             (DimensionLoader.year_quarter_of y q)
             (source_record_id fact_data)),
       dim_loader, db)
  | _ => (Raise AttributeError, dim_loader, db)      (* no [title] *)
  end.

Fixpoint build_facts (dim_loader : DimensionLoader.t) (db : Store.t) (facts : list Transaction)
  : list (FinancialFact.t float) * DimensionLoader.t * Store.t :=
  match facts with
  | [] => ([], dim_loader, db)
  | fact_data :: rest =>
      let '(built, dim_loader, db) := build_fact dim_loader db fact_data in
      let '(fact_objects, dim_loader, db) := build_facts dim_loader db rest in
      (match built with
       | Ok fact => fact :: fact_objects
       | Raise _ => fact_objects
       end, dim_loader, db)
  end.

(** [_load_facts_batch] on an active session: the number of facts
    loaded, or the exception of a refused insert, which nothing in the
    function catches; the loader and the store after the call. *)
Definition _load_facts_batch (db : Store.t) (dim_loader : DimensionLoader.t)
  (facts : list Transaction) : result Z * DimensionLoader.t * Store.t :=
  let '(fact_objects, dim_loader, db) := build_facts dim_loader db facts in
  match fact_objects with
  | [] => (Ok 0, dim_loader, db)
  | _ =>
      match Store.bulk_save_facts fact_objects db with
      | Ok db' => (Ok (Z.of_nat (length fact_objects)), dim_loader, db')
      | Raise e => (Raise e, dim_loader, db)
      end
  end.

(** The body of the same loop on a session that waits for a rollback.
    A key the loader has cached is returned before any statement; a
    call that has to reach the store raises PendingRollbackError, and
    the loop skips the fact. *)
Definition build_fact_pending (dim_loader : DimensionLoader.t) (fact_data : Transaction)
  : result (FinancialFact.t float) * DimensionLoader.t :=
  match DimensionLoader._account_cache dim_loader !! account_id fact_data with
  | None => (Raise PendingRollbackError, dim_loader)
  | Some account_key =>
      let '(period_start_key, dim_loader) :=
        DimensionLoader.get_date_key dim_loader (period_start fact_data) in
      let '(period_end_key, dim_loader) :=
        DimensionLoader.get_date_key dim_loader (period_end fact_data) in
      match source_system fact_data with
      | VStr source_name =>
          match DimensionLoader._source_cache dim_loader !! source_name with
          | None => (Raise PendingRollbackError, dim_loader)
          | Some source_key =>
              let y := year (period_start fact_data) in
              let q := DimensionLoader.quarter_of (month (period_start fact_data)) in
              (Ok (FinancialFact.Row account_key period_start_key period_end_key source_key
                     (amount fact_data) (currency fact_data)
                     y q (month (period_start fact_data))
                     (DimensionLoader.year_quarter_of y q)
                     (source_record_id fact_data)),
               dim_loader)
          end
      | _ => (Raise AttributeError, dim_loader)      (* no [title] *)
      end
  end.

Fixpoint build_facts_pending (dim_loader : DimensionLoader.t) (facts : list Transaction)
  : list (FinancialFact.t float) * DimensionLoader.t :=
  match facts with
  | [] => ([], dim_loader)
  | fact_data :: rest =>
      let '(built, dim_loader) := build_fact_pending dim_loader fact_data in
      let '(fact_objects, dim_loader) := build_facts_pending dim_loader rest in
      (match built with
       | Ok fact => fact :: fact_objects
       | Raise _ => fact_objects
       end, dim_loader)
  end.

(** [_load_facts_batch] on such a session: the bulk insert raises as
    soon as there is a fact to insert. *)
Definition _load_facts_batch_pending (dim_loader : DimensionLoader.t)
  (facts : list Transaction) : result Z * DimensionLoader.t :=
  let '(fact_objects, dim_loader) := build_facts_pending dim_loader facts in
  match fact_objects with
  | [] => (Ok 0, dim_loader)
  | _ => (Raise PendingRollbackError, dim_loader)
  end.

(** [_save_failed_records]: nothing is written for an empty list. *)
Definition _save_failed_records (failed : list FailedRecord) (source_name run_id : string)
  : option Export :=
  match failed with
  | [] => None
  | _ =>
      Some {| csv_path := "output/failed_records/failed_" +:+ source_name +:+ "_"
                          +:+ timestamp +:+ "_" +:+ String.substring 0 8 run_id +:+ ".csv";
              rows := failed |}
  end.

Definition failed_record (source_name : string) (raw_record : dict) (e : exn) : FailedRecord :=
  {| failed_source_system := source_name;
     failed_account_name := Py.dict_get "account_name" raw_record (VStr "N/A");
     failed_account_type := Py.dict_get "account_type" raw_record (VStr "N/A");
     failed_parent_account := Py.dict_get "parent_account" raw_record (VStr "N/A");
     failed_period_start := Py.dict_get "period_start" raw_record (VStr "N/A");
     failed_period_end := Py.dict_get "period_end" raw_record (VStr "N/A");
     failed_amount := Py.dict_get "amount" raw_record (VInt 0);
     failed_currency := Py.dict_get "currency" raw_record (VStr "N/A");
     error := e |}.

(** The variables of the extract-and-load loop, and the state of the
    session. *)
Record Loop : Type := {
  batch : list Transaction;
  total_processed : Z;
  total_failed : Z;
  failed : list FailedRecord;
  dim_loader : DimensionLoader.t;
  store : Store.t;
  session : session_state
}.

(** [self._load_facts_batch(db_session, dim_loader, batch)] as the
    loop calls it: what the call returns or raises, and the loader, the
    store and the session after it. *)
Definition load (st : Loop) (facts : list Transaction) : result Z * Loop :=
  match session st with
  | Active =>
      let '(loaded, dim_loader, db) := _load_facts_batch (store st) (dim_loader st) facts in
      (loaded,
       {| batch := batch st;
          total_processed := total_processed st;
          total_failed := total_failed st;
          failed := failed st;
          dim_loader := dim_loader;
          store := db;
          session := match loaded with Ok _ => Active | Raise _ => PendingRollback end |})
  | PendingRollback =>
      let '(loaded, dim_loader) := _load_facts_batch_pending (dim_loader st) facts in
      (loaded,
       {| batch := batch st;
          total_processed := total_processed st;
          total_failed := total_failed st;
          failed := failed st;
          dim_loader := dim_loader;
          store := store st;
          session := PendingRollback |})
  end.

(** The two counters after a load of [facts] that returned [loaded]. *)
Definition count (st : Loop) (facts : list Transaction) (loaded : Z) (batch : list Transaction)
  : Loop :=
  {| batch := batch;
     total_processed := total_processed st + loaded;
     total_failed := total_failed st + (Z.of_nat (length facts) - loaded);
     failed := failed st;
     dim_loader := dim_loader st;
     store := store st;
     session := session st |}.

(** The [except] branch inside the loop: the record is kept for the
    export and counted as failed. *)
Definition record_failed (source_name : string) (st : Loop) (raw_record : dict) (e : exn)
  (batch : list Transaction) : Loop :=
  {| batch := batch;
     total_processed := total_processed st;
     total_failed := total_failed st + 1;
     failed := failed st ++ [failed_record source_name raw_record e];
     dim_loader := dim_loader st;
     store := store st;
     session := session st |}.

(** One turn of [for raw_record in extractor.extract()].  A load that
    raises is caught like a transformation that raises, with the batch
    left as it was when the load was tried. *)
Definition step (source_name : string) (st : Loop) (raw_record : dict) : Loop :=
  match FinancialTransformer.transform_transaction raw_record with
  | Ok transformed =>
      let batch := batch st ++ [transformed] in
      if chunk_size <=? Z.of_nat (length batch) then
        match load st batch with
        | (Ok loaded, st) => count st batch loaded []
        | (Raise e, st) => record_failed source_name st raw_record e batch
        end
      else {| batch := batch;
              total_processed := total_processed st;
              total_failed := total_failed st;
              failed := failed st;
              dim_loader := dim_loader st;
              store := store st;
              session := session st |}
  | Raise e => record_failed source_name st raw_record e (batch st)
  end.

(** The [except] branch around the whole run, on an active session:
    the run is stored as failed, the failed records are exported, and
    the exception is raised again. *)
Definition run_failed (source_name : string) (failed : list FailedRecord) (e : exn)
  (db : Store.t) : Outcome :=
  {| returned := Raise e;
     failed_records := failed;
     exported := _save_failed_records failed source_name run_uuid;
     db := Store.save_run (PipelineRun.Row run_uuid source_name Failed 0 0 (Some e)) db |}.

(** The same branch on a session that waits for a rollback: its
    [commit()] raises PendingRollbackError, which leaves the handler
    in place of the exception it was handling; nothing is stored and
    nothing is exported. *)
Definition run_aborted (failed : list FailedRecord) (db : Store.t) : Outcome :=
  {| returned := Raise PendingRollbackError;
     failed_records := failed;
     exported := None;
     db := db |}.

Definition handle (source_name : string) (st : Loop) (e : exn) : Outcome :=
  match session st with
  | Active => run_failed source_name (failed st) e (store st)
  | PendingRollback => run_aborted (failed st) (store st)
  end.

(** [if batch: ...] after the loop: the remaining records are loaded
    and counted.  A load that raises here is caught by nothing but the
    handler of the run: the exception is returned with the variables
    as the load left them. *)
Definition load_remaining (st : Loop) : option exn * Loop :=
  match batch st with
  | [] => (None, st)
  | remaining =>
      match load st remaining with
      | (Ok loaded, st) => (None, count st remaining loaded remaining)
      | (Raise e, st) => (Some e, st)
      end
  end.

Definition run_pipeline {E : Type} {base : BaseExtractor E} (extractor : E)
  (source_name : string)
  (db : Store.t) : Outcome :=
  let run_id := run_uuid in
  let db := Store.save_run (PipelineRun.Row run_id source_name Started 0 0 None) db in
  let db := _initialize_date_dimension db in
  let dim_loader := DimensionLoader.__init__ in
  let '(validated, extractor) := validate extractor in
  match validated with
  | Raise e => run_failed source_name [] e db
  | Ok _ =>
      let records := extract extractor in
      let st := fold_left (step source_name) (yielded records)
                  {| batch := []; total_processed := 0; total_failed := 0;
                     failed := []; dim_loader := dim_loader; store := db;
                     session := Active |} in
      match raised records with
      | Some e => handle source_name st e
      | None =>
          match load_remaining st with
          | (Some e, st) => handle source_name st e
          | (None, st) =>
              match session st with
              | PendingRollback =>
                  (* [db_session.commit()] raises, and so does the handler's *)
                  run_aborted (failed st) (store st)
              | Active =>
                  let db :=
                    Store.save_run
                      (PipelineRun.Row run_id source_name Completed
                         (total_processed st) (total_failed st) None) (store st) in
                  let export := _save_failed_records (failed st) source_name run_id in
                  {| returned := Ok {| run_id := run_id;
                                       source := source_name;
                                       records_processed := total_processed st;
                                       records_failed := total_failed st;
                                       failed_records_csv := csv_path <$> export |};
                     failed_records := failed st;
                     exported := export;
                     db := db |}
              end
          end
      end
  end.

End Pipeline.

(** [FinancialPipeline()]: the two extractors, on the paths of the
    settings. *)
Record t : Type := Pipeline {
  quickbooks_extractor : QuickBooksExtractor.t;
  rootfi_extractor : RootfiExtractor.t
}.

Definition __init__ (quickbooks_data_path rootfi_data_path : string)
  (quickbooks_file rootfi_file : source_file) : t :=
  Pipeline (QuickBooksExtractor.__init__ quickbooks_data_path quickbooks_file)
           (RootfiExtractor.__init__ rootfi_data_path rootfi_file).

(** The dict [run_full_pipeline] returns: for each source the
    statistics of its run, or the error that ended it. *)
Module Results.
Record t : Type := {
  quickbooks : result Stats;
  rootfi : result Stats;
  total_records : Z;
  total_failed : Z
}.
End Results.

Section FullPipeline.
Context {rt : PyRuntime}.
Context (chunk_size : Z).





End FullPipeline.

End FinancialPipeline.

(* ===================================================================== *)
(** * Specifications and sample inputs *)
(* ===================================================================== *)

(** ** CategoryMapper *)








(** ** FinancialTransformer: account identity *)
















(** ** DimensionLoader: account upsert *)

(** The attributes passed to [upsert_account] besides the id. *)
Record attributes : Type := Attributes {
  attr_name : string;
  attr_type : value;
  attr_category : option string;
  attr_parent : value;
  attr_is_parent : bool;
  attr_source : value;
  attr_source_account_id : value
}.

Definition upsert (self : DimensionLoader.t) (db : Store.t) (account_id : string) (a : attributes)
  : positive * DimensionLoader.t * Store.t :=
  DimensionLoader.upsert_account self db account_id (attr_name a) (attr_type a) (attr_category a)
    (attr_parent a) (attr_is_parent a) (attr_source a) (attr_source_account_id a).

Definition key_of (r : positive * DimensionLoader.t * Store.t) : positive := r.1.1.
Definition loader_of (r : positive * DimensionLoader.t * Store.t) : DimensionLoader.t := r.1.2.
Definition store_of (r : positive * DimensionLoader.t * Store.t) : Store.t := r.2.

(** The name stored for [account_id]. *)
Definition stored_name (db : Store.t) (account_id : string) : option string :=
  DimAccount.account_name <$> Store.dim_account db !! account_id.

Definition stored_key (db : Store.t) (account_id : string) : option positive :=
  DimAccount.account_key <$> Store.dim_account db !! account_id.

Definition office_rent : attributes :=
  Attributes "Office Rent" (VStr "expense") (Some "Facilities & Operations")
             VNone false (VStr "quickbooks") VNone.

Definition office_rent_renamed : attributes :=
  Attributes "Office Rent (HQ)" (VStr "expense") (Some "Facilities & Operations")
             VNone false (VStr "quickbooks") VNone.

Definition office_rent_row : DimAccount.t :=
  DimAccount.Row 1 "0f1e2d3c4b5a6978" "Office Rent" (VStr "expense")
                 (Some "Facilities & Operations") VNone false (VStr "quickbooks") VNone.

(** The store after a first loader has upserted the account. *)
Definition store_with_office_rent : Store.t :=
  store_of (upsert DimensionLoader.__init__ Store.empty "0f1e2d3c4b5a6978" office_rent).

(** ** Values *)

(** Induction over a value and the values nested in it. *)
Section ValueInduction.
Variable P : value -> Prop.
Hypothesis P_none : P VNone.
Hypothesis P_bool : forall b, P (VBool b).
Hypothesis P_int : forall n, P (VInt n).
Hypothesis P_float : forall f, P (VFloat f).
Hypothesis P_str : forall s, P (VStr s).
Hypothesis P_list : forall items, Forall P items -> P (VList items).
Hypothesis P_dict : forall entries, Forall (fun kv => P (snd kv)) entries -> P (VDict entries).

Fixpoint value_nested_ind (v : value) : P v :=
  match v with
  | VNone => P_none
  | VBool b => P_bool b
  | VInt n => P_int n
  | VFloat f => P_float f
  | VStr s => P_str s
  | VList items => P_list items (Forall_true P items value_nested_ind)
  | VDict entries =>
      P_dict entries
        (Forall_true (fun kv => P (snd kv)) entries (fun kv => value_nested_ind (snd kv)))
  end.
End ValueInduction.

(** ** RootfiExtractor: validation *)

(** An extractor not yet validated, for a file that parsed to [doc]. *)
Definition rootfi_on (path : string) (doc : value) : RootfiExtractor.t :=
  RootfiExtractor.__init__ path (Json doc).

(** The extractor once [records] have been accepted. *)
Definition rootfi_loaded (path : string) (doc : value) (records : list value)
  : RootfiExtractor.t :=
  RootfiExtractor.Extractor path (Json doc) (Some records).

Definition is_list (v : value) : bool :=
  match v with VList _ => true | _ => false end.

Definition is_dict (v : value) : bool :=
  match v with VDict _ => true | _ => false end.

(** Two periods, the second one without its dates. *)
Definition rootfi_last_undated : value :=
  VDict [ ("data",
           VList [ VDict [ ("period_start", VStr "2024-01-01");
                           ("period_end", VStr "2024-01-31") ];
                   VDict [ ("rootfi_id", VInt 2) ] ]) ].

(** ** RootfiExtractor: the walk over line items *)

(** The name of a line item as the walk reads it: stripped, and the
    empty text when the key is absent. *)
Definition item_name (item : dict) : option string :=
  match Py.dict_get "name" item (VStr "") with
  | VStr s => Some (Str.strip s)
  | _ => None
  end.

(** [bool(item.get("line_items"))] *)
Definition has_children (item : dict) : bool :=
  Py.truthy (Py.dict_get "line_items" item VNone).

(** [leaf_under line_items parent leaf p]: the item [leaf] has no
    children and is one of [line_items], which are listed under
    [parent], or lies below one of them through items that all have a
    name; [p] is the name of the item that encloses it most closely,
    [parent] itself when [leaf] is one of [line_items]. *)
Inductive leaf_under : value -> value -> dict -> value -> Prop :=
| leaf_here (items : list value) (parent : value) (leaf : dict) :
    In (VDict leaf) items ->
    has_children leaf = false ->
    leaf_under (VList items) parent leaf parent
| leaf_below (items : list value) (parent : value) (rollup : dict) (name : string)
    (leaf : dict) (p : value) :
    In (VDict rollup) items ->
    item_name rollup = Some name ->
    name <> "" ->
    has_children rollup = true ->
    leaf_under (Py.dict_get "line_items" rollup VNone) (VStr name) leaf p ->
    leaf_under (VList items) parent leaf p.

(** The amount of a leaf: [float(value)], 0.0 for [None] and the
    float of 0 when there is no value. *)
Definition amount_of (val : value) (amount : float) : Prop :=
  match val with
  | VNone => amount = Py.float_zero
  | _ => PyFloat.of_value val = Ok amount
  end.

Definition leaf_amount (leaf : dict) (amount : float) : Prop :=
  amount_of (Py.dict_get "value" leaf (VInt 0)) amount.

(** The dict yielded for a leaf. *)
Definition leaf_record (name account_type : string) (parent : value) (amount : float)
  (account_id : value) : dict :=
  [ ("account_name", VStr name);
    ("account_type", VStr account_type);
    ("parent_account", parent);
    ("amount", VFloat amount);
    ("source_account_id", account_id) ].

(** [item_data] is what the walk yields for [leaf] under [p]. *)
Definition emitted_for (leaf : dict) (account_type : string) (p : value) (item_data : dict)
  : Prop :=
  exists name amount,
    item_name leaf = Some name /\ name <> "" /\ leaf_amount leaf amount /\
    item_data = leaf_record name account_type p amount (Py.dict_get "account_id" leaf VNone).

(** Every dict the walk over [line_items] yields is the one of a leaf
    under them. *)
Definition walk_sound (line_items : value) : Prop :=
  forall account_type parent_name r,
    In r (yielded (RootfiExtractor._process_line_items line_items account_type parent_name)) ->
    exists leaf p, leaf_under line_items parent_name leaf p /\
                   emitted_for leaf account_type p r.

(** The section kinds of a period and the account type of each. *)
Definition section_kinds : list (string * string) :=
  [ ("revenue", "revenue"); ("cost_of_goods_sold", "cogs"); ("operating_expenses", "expense") ].

(** What [_extract_period] adds to the dict of a leaf. *)
Definition period_fields {rt : PyRuntime} (record : dict) : dict :=
  let currency_id := Py.dict_get "currency_id" record (VStr "USD") in
  [ ("period_start", Py.dict_get "period_start" record VNone);
    ("period_end", Py.dict_get "period_end" record VNone);
    ("currency", if Py.truthy currency_id then currency_id else VStr "USD");
    ("source_system", VStr "rootfi");
    ("source_record_id", VStr (str_of (Py.dict_get "rootfi_id" record (VStr "")))) ].

(** The body of the loop of [_process_line_items] for one item. *)
Definition walk_item (item : value) (account_type : string) (parent_name : value) : gen dict :=
  match item with
  | VDict d =>
      gen_try (Py.strip_attr (Py.dict_get "name" d (VStr "")))
        (fun name =>
           let val := Py.dict_get "value" d (VInt 0) in
           let account_id := Py.dict_get "account_id" d VNone in
           if Str.nonempty name then
             Py.dict_case "line_items"
               (RootfiExtractor.leaf name account_type parent_name val account_id)
               (fun children =>
                  if Py.truthy children then
                    RootfiExtractor._process_line_items children account_type (VStr name)
                  else RootfiExtractor.leaf name account_type parent_name val account_id)
               d
           else gen_done)
  | _ => gen_raise AttributeError
  end.

(** [line_items] and [section_name] are the line items and the name of
    one of the sections that [record] lists under [key]. *)
Definition section_of (record : dict) (key : string) (line_items section_name : value) : Prop :=
  exists sections listed section,
    Py.dict_find key record = Some sections /\
    Py.py_iter sections = Ok listed /\
    In section listed /\
    Py.subscript "line_items" section = Ok line_items /\
    Py.get_attr "name" section = Ok section_name.

(** A runtime for the sample inputs; none of them has a value that
    needs [str]. *)
Definition sample_runtime : PyRuntime :=
  {| py_str := fun _ => "";
     to_numeric := fun x =>
       match x with
       | S754_nan => NumericNaN
       | S754_finite s m e =>
           let n := if 0 <=? e then 100 * Zpos m * 2 ^ e
                    else (200 * Zpos m + 2 ^ (- e)) / (2 * 2 ^ (- e)) in
           Hundredths (if s then - n else n)
       | _ => Hundredths 0
       end |}.

(** [s] has white space only, or nothing. *)
Definition whitespace_only (s : string) : bool :=
  forallb Str.is_space (list_ascii_of_string s).



Definition rent_item : value :=
  VDict [ ("name", VStr "Rent"); ("value", VInt 250) ].

(** The operating expenses of the second scenario. *)
Definition opex_sections : value :=
  VList [ VDict [ ("name", VStr "Opex");
                  ("line_items",
                   VList [ VDict [ ("name", VStr "Payroll");
                                   ("value", VInt 500);
                                   ("line_items",
                                    VList [ VDict [ ("name", VStr "Salaries");
                                                    ("value", VInt 500) ] ]) ] ]) ] ].

Definition opex_period (period_start period_end : value) : dict :=
  [ ("period_start", period_start);
    ("period_end", period_end);
    ("operating_expenses", opex_sections) ].

(** 500.0 *)
Definition float_500 : float := S754_finite false 8796093022208000 (-44).

Definition salaries_record (period_start period_end : value) : dict :=
  [ ("account_name", VStr "Salaries");
    ("account_type", VStr "expense");
    ("parent_account", VStr "Payroll");
    ("amount", VFloat float_500);
    ("source_account_id", VNone);
    ("period_start", period_start);
    ("period_end", period_end);
    ("currency", VStr "USD");
    ("source_system", VStr "rootfi");
    ("source_record_id", VStr "") ].

(** ** QuickBooksExtractor *)

(** The number of constructors of a value, for induction on rows. *)
Fixpoint value_size (v : value) : nat :=
  match v with
  | VList items => S (list_sum (map value_size items))
  | VDict entries => S (list_sum (map (fun kv => value_size (snd kv)) entries))
  | _ => 1%nat
  end.

(** The children of a row: the rows under ["Rows"]["Row"], a single
    row standing for a list of one. *)
Definition child_rows_of (row : dict) : list value :=
  match Py.dict_find "Rows" row with
  | Some (VDict rows) =>
      match Py.dict_find "Row" rows with
      | Some (VList children) => children
      | Some single => [single]
      | None => []
      end
  | _ => []
  end.

(** The dict yielded for a cell. *)
Definition quickbooks_record (account_name account_type : string) (parent_account : value)
  (col_def : QuickBooksExtractor.column) (amount : float) (currency : value) : dict :=
  [ ("account_name", VStr account_name);
    ("account_type", VStr account_type);
    ("parent_account", parent_account);
    ("period_start", QuickBooksExtractor.start_date col_def);
    ("period_end", QuickBooksExtractor.end_date col_def);
    ("amount", VFloat amount);
    ("currency", currency);
    ("source_system", VStr "quickbooks") ].

(** A dict is one the QuickBooks extractor builds for a cell. *)
Definition cell_record (r : dict) : Prop :=
  exists name ty parent col_def amount currency,
    r = quickbooks_record name ty parent col_def amount currency /\
    Py.float_nonzero amount = true.

(** The dict [r] has an amount, and it is not zero. *)
Definition amount_nonzero (r : dict) : Prop :=
  exists amount, Py.dict_find "amount" r = Some (VFloat amount) /\
                 Py.float_nonzero amount = true.

(** The amount text as the extractor cleans it. *)
Definition cleaned (s : string) : string := Str.remove_char "$" (Str.remove_char "," s).


(** The rows of the first scenario. *)
Definition cell (text : string) : value := VDict [ ("value", VStr text) ].

Definition product_sales_row : value :=
  VDict [ ("type", VStr "Data");
          ("ColData", VList [ cell "Product Sales"; cell "1000"; cell "0"; cell "2000" ]) ].

Definition income_section (group : string) : value :=
  VDict [ ("type", VStr "Section");
          ("group", VStr group);
          ("Rows", VDict [ ("Row", VList [ product_sales_row ]) ]) ].

(** 1000.0 and 2000.0 *)
Definition float_1000 : float := S754_finite false 8796093022208000 (-43).
Definition float_2000 : float := S754_finite false 8796093022208000 (-42).

(** A monthly money column as the report declares it. *)
Definition money_column (col_title start_date end_date : string) : value :=
  VDict [ ("ColTitle", VStr col_title);
          ("ColType", VStr "Money");
          ("MetaData", VList [ VDict [ ("Name", VStr "StartDate"); ("Value", VStr start_date) ];
                               VDict [ ("Name", VStr "EndDate"); ("Value", VStr end_date) ] ]) ].

(** The report of the first scenario: the account column, three
    months, and the Income section. *)
Definition income_report : value :=
  VDict [ ("Header", VDict [ ("ReportName", VStr "ProfitAndLoss"); ("Currency", VStr "USD") ]);
          ("Columns",
           VDict [ ("Column",
                    VList [ VDict [ ("ColTitle", VStr ""); ("ColType", VStr "Account") ];
                            money_column "Jan 2024" "2024-01-01" "2024-01-31";
                            money_column "Feb 2024" "2024-02-01" "2024-02-29";
                            money_column "Mar 2024" "2024-03-01" "2024-03-31" ]) ]);
          ("Rows", VDict [ ("Row", VList [ income_section "Income" ]) ]) ].

Definition january : QuickBooksExtractor.column :=
  QuickBooksExtractor.Column (VStr "Jan 2024") (VStr "2024-01-01") (VStr "2024-01-31") VNone.
Definition february : QuickBooksExtractor.column :=
  QuickBooksExtractor.Column (VStr "Feb 2024") (VStr "2024-02-01") (VStr "2024-02-29") VNone.
Definition march : QuickBooksExtractor.column :=
  QuickBooksExtractor.Column (VStr "Mar 2024") (VStr "2024-03-01") (VStr "2024-03-31") VNone.

(** ** FinancialPipeline *)

(** A raw record as the two extractors build it: the account name and
    the source system are text, or absent, and the amount is a number
    that [float] accepts, or absent. *)
Definition raw_well_formed (raw : dict) : Prop :=
  (exists s, Py.dict_get "account_name" raw (VStr "") = VStr s) /\
  (exists s, Py.dict_get "source_system" raw (VStr "unknown") = VStr s) /\
  (exists f, PyFloat.of_value (Py.dict_get "amount" raw (VFloat Py.float_zero)) = Ok f).





(** A Data row with an amount in each month, and its section. *)
Definition monthly_sales_row : value :=
  VDict [ ("type", VStr "Data");
          ("ColData", VList [ cell "Product Sales"; cell "1000"; cell "500"; cell "2000" ]) ].

Definition monthly_sales_section : value :=
  VDict [ ("type", VStr "Section");
          ("group", VStr "Income");
          ("Rows", VDict [ ("Row", VList [ monthly_sales_row ]) ]) ].

(** A report whose second month declares a start date that is not a
    date. *)
Definition undated_month_report : value :=
  VDict [ ("Header", VDict [ ("ReportName", VStr "ProfitAndLoss"); ("Currency", VStr "USD") ]);
          ("Columns",
           VDict [ ("Column",
                    VList [ VDict [ ("ColTitle", VStr ""); ("ColType", VStr "Account") ];
                            money_column "Jan 2024" "2024-01-01" "2024-01-31";
                            money_column "Feb 2024" "not-a-date" "2024-02-29";
                            money_column "Mar 2024" "2024-03-01" "2024-03-31" ]) ]);
          ("Rows", VDict [ ("Row", VList [ monthly_sales_section ]) ]) ].

Definition undated_month_file : QuickBooksExtractor.t :=
  QuickBooksExtractor.__init__ "data/data_set_1.json"
    (Json (VDict [ ("data", undated_month_report) ])).


(** The three raw records the report gives. *)
Definition january_sales : dict :=
  quickbooks_record "Product Sales" "revenue" VNone january float_1000 (VStr "USD").
Definition march_sales : dict :=
  quickbooks_record "Product Sales" "revenue" VNone march float_2000 (VStr "USD").

(** ** Dates *)

(** [v] is a string. *)
Definition is_text (v : value) : bool :=
  match v with VStr _ => true | _ => false end.

(** A day of the calendar, as [datetime.date] accepts it. *)
Definition valid_date (d : date) : Prop :=
  1 <= year d <= 9999 /\ 1 <= month d <= 12 /\
  1 <= day d <= PyDate.days_in_month (year d) (month d).

(** A month and a day of that month, whatever the year. *)
Definition calendar_day (d : date) : Prop :=
  1 <= month d <= 12 /\ 1 <= day d <= PyDate.days_in_month (year d) (month d).

(** The extra day of a leap year. *)
Definition leap_day (y : Z) : Z := if PyDate.is_leap y then 1 else 0.

(** One row of [INSERT INTO dim_date ... ON CONFLICT (date) DO NOTHING]. *)
Definition insert_date (table : gmap date DimDate.t) (row : DimDate.t) : gmap date DimDate.t :=
  match table !! DimDate.date_ row with
  | Some _ => table
  | None => <[DimDate.date_ row := row]> table
  end.

(** ** DimensionLoader: caches and surrogate keys *)

(** Every cached date key is the YYYYMMDD number of its date. *)
Definition date_cache_sound (self : DimensionLoader.t) : Prop :=
  forall d key, DimensionLoader._date_cache self !! d = Some key -> key = PyDate.yyyymmdd d.

(** The account rows have keys the serial has passed, and no two
    account ids share a key. *)
Definition account_rows_sound (db : Store.t) : Prop :=
  (forall id row, Store.dim_account db !! id = Some row ->
      (DimAccount.account_key row < Store.dim_account_seq db)%positive) /\
  (forall id1 id2 row1 row2,
      Store.dim_account db !! id1 = Some row1 -> Store.dim_account db !! id2 = Some row2 ->
      DimAccount.account_key row1 = DimAccount.account_key row2 -> id1 = id2).

Definition source_rows_sound (db : Store.t) : Prop :=
  (forall name row, Store.dim_source db !! name = Some row ->
      (DimSource.source_key row < Store.dim_source_seq db)%positive) /\
  (forall name1 name2 row1 row2,
      Store.dim_source db !! name1 = Some row1 -> Store.dim_source db !! name2 = Some row2 ->
      DimSource.source_key row1 = DimSource.source_key row2 -> name1 = name2).

(** What the loader has cached is what the store holds. *)
Definition caches_sound (self : DimensionLoader.t) (db : Store.t) : Prop :=
  (forall id key, DimensionLoader._account_cache self !! id = Some key ->
      stored_key db id = Some key) /\
  (forall name key, DimensionLoader._source_cache self !! name = Some key ->
      Store.select_source_key name db = Some key).

Definition warehouse_sound (self : DimensionLoader.t) (db : Store.t) : Prop :=
  account_rows_sound db /\ source_rows_sound db /\ caches_sound self db.

(** The account and the source a fact row points to are stored. *)
Definition references_hold {A : Type} (db : Store.t) (fact : FinancialFact.t A) : Prop :=
  (exists id, stored_key db id = Some (FinancialFact.account_key fact)) /\
  (exists name, Store.select_source_key name db = Some (FinancialFact.source_key fact)).

(** The rows of [db] are still in [db'], under their keys. *)
Definition keys_kept (db db' : Store.t) : Prop :=
  (forall id key, stored_key db id = Some key -> stored_key db' id = Some key) /\
  (forall name key, Store.select_source_key name db = Some key ->
      Store.select_source_key name db' = Some key).

(** The transactions the transformer makes of raw records, those it
    rejects left out. *)
Definition transformed (raw_records : list dict) : list Transaction :=
  flat_map (fun raw =>
              match FinancialTransformer.transform_transaction (rt := sample_runtime) raw with
              | Ok t => [t]
              | Raise _ => []
              end) raw_records.

(** The source system of a transaction is text, decided. *)
Definition is_sourced (t : Transaction) : bool := is_text (source_system t).

(** [fact] is the fact object built for [t], its surrogate keys apart. *)
Definition fact_of (t : Transaction) (fact : FinancialFact.t float) : Prop :=
  FinancialFact.period_start_key fact = PyDate.yyyymmdd (period_start t) /\
  FinancialFact.period_end_key fact = PyDate.yyyymmdd (period_end t) /\
  FinancialFact.amount_ fact = amount t /\
  FinancialFact.currency_ fact = currency t /\
  FinancialFact.year_ fact = year (period_start t) /\
  FinancialFact.quarter fact = DimensionLoader.quarter_of (month (period_start t)) /\
  FinancialFact.month_ fact = month (period_start t) /\
  FinancialFact.year_quarter fact
  = DimensionLoader.year_quarter_of (year (period_start t))
      (DimensionLoader.quarter_of (month (period_start t))) /\
  FinancialFact.source_record_id_ fact = source_record_id t.

(** What a statement on the dimensions leaves alone. *)
Definition facts_and_runs_kept (db db' : Store.t) : Prop :=
  Store.fact_financials db' = Store.fact_financials db /\
  Store.pipeline_runs db' = Store.pipeline_runs db /\
  Store.dim_date db' = Store.dim_date db.

(** ** What the warehouse takes *)

(** A day of the calendar, decided. *)
Definition is_calendar_day (d : date) : bool :=
  (1 <=? month d) && (month d <=? 12) && (1 <=? day d)
  && (day d <=? PyDate.days_in_month (year d) (month d)).

(** A day of the date dimension that a run prepares, 2020-01-01 to
    2026-12-31. *)
Definition in_date_dimension (d : date) : bool :=
  (2020 <=? year d) && (year d <=? 2026) && is_calendar_day d.

(** A value that a text column takes as it is: a text of at most [n]
    characters without NUL, or [None] where the column is [nullable]. *)
Definition text_fits (nullable : bool) (n : nat) (v : value) : bool :=
  match v with
  | VStr s => Store.fits_text n s && negb (Store.has_nul s)
  | VNone => nullable
  | _ => false
  end.

(** The values of [t] fit the columns of [dim_account] and
    [dim_source] as models/financial.py declares them, so that the
    statements of the dimension loader succeed. *)
Definition dimensions_fit (t : Transaction) : bool :=
  text_fits false 255 (VStr (account_id t))
  && text_fits false 500 (VStr (account_name t))
  && text_fits false 100 (account_type t)
  && text_fits false 200 (VStr (account_category t))
  && text_fits true 500 (parent_account t)
  && text_fits false 50 (source_system t)
  && text_fits true 255 (source_account_id t).

(** The values of [t] fit the columns of [fact_financials]; the
    currency may be [None]. *)
Definition fact_fits (t : Transaction) : bool :=
  Store.fits_numeric (amount t)
  && text_fits true 10 (currency t)
  && text_fits true 255 (source_record_id t).

(** The currency and the record id of [t] are text or [None]. *)
Definition text_or_none (v : value) : bool :=
  match v with
  | VStr _ | VNone => true
  | _ => false
  end.

Definition fact_texts (t : Transaction) : bool :=
  text_or_none (currency t) && text_or_none (source_record_id t).

(** A transaction the warehouse takes: its values fit their columns
    and its two dates are days of the date dimension. *)
Definition storable (t : Transaction) : bool :=
  dimensions_fit t && fact_fits t
  && in_date_dimension (period_start t) && in_date_dimension (period_end t).

(** A raw record that transforms into a transaction the warehouse
    takes. *)
Definition loads {rt : PyRuntime} (raw : dict) : Prop :=
  exists t, FinancialTransformer.transform_transaction raw = Ok t /\ storable t = true.

(** A raw record that does so unless the transformer rejects it. *)
Definition loads_or_fails {rt : PyRuntime} (raw : dict) : Prop :=
  forall t, FinancialTransformer.transform_transaction raw = Ok t -> storable t = true.

(** Every stored date is a day of the calendar, and its row carries
    the YYYYMMDD number of the day as its key. *)
Definition date_rows_sound (db : Store.t) : Prop :=
  forall d row, Store.dim_date db !! d = Some row ->
    valid_date d /\ DimDate.date_key row = PyDate.yyyymmdd d.

(** A store as runs of the pipeline leave it: keys below the serials,
    no key shared, dates under their own keys. *)
Definition store_sound (db : Store.t) : Prop :=
  account_rows_sound db /\ source_rows_sound db /\ date_rows_sound db.

(** The date dimension of a run is in place. *)
Definition dates_loaded (db : Store.t) : Prop :=
  forall d, in_date_dimension d = true ->
    exists row, Store.dim_date db !! d = Some row /\ DimDate.date_key row = PyDate.yyyymmdd d.

(** ** FinancialPipeline: the loop of a run *)

(** The transactions the transformer makes of raw records, and the
    failed rows the loop keeps for those it rejects. *)
Definition transactions {rt : PyRuntime} (raw_records : list dict) : list Transaction :=
  flat_map (fun raw =>
              match FinancialTransformer.transform_transaction raw with
              | Ok t => [t]
              | Raise _ => []
              end) raw_records.

Definition rejected {rt : PyRuntime} (source_name : string) (raw_records : list dict)
  : list FinancialPipeline.FailedRecord :=
  flat_map (fun raw =>
              match FinancialTransformer.transform_transaction raw with
              | Ok _ => []
              | Raise e => [FinancialPipeline.failed_record source_name raw e]
              end) raw_records.

(** What the loop has taken in: loaded, or waiting in the batch. *)
Definition pending (st : FinancialPipeline.Loop) : Z :=
  FinancialPipeline.total_processed st + Z.of_nat (length (FinancialPipeline.batch st)).

(** What the loop keeps true on any records: the runs and the dates
    are as they were, the statistics count what is in the fact table,
    and nothing but fact rows is appended to it. *)
Definition loop_frame (db : Store.t) (st : FinancialPipeline.Loop) : Prop :=
  Store.pipeline_runs (FinancialPipeline.store st) = Store.pipeline_runs db /\
  Store.dim_date (FinancialPipeline.store st) = Store.dim_date db /\
  0 <= FinancialPipeline.total_processed st /\
  Z.of_nat (length (Store.fact_financials (FinancialPipeline.store st)))
  = Z.of_nat (length (Store.fact_financials db)) + FinancialPipeline.total_processed st.

(** What the loop keeps true while every record that transforms is
    storable: the session stays active, keys stay unique and the caches
    agree with the store, and what waits in the batch is storable. *)
Definition loop_sound (st : FinancialPipeline.Loop) : Prop :=
  FinancialPipeline.session st = FinancialPipeline.Active /\
  warehouse_sound (FinancialPipeline.dim_loader st) (FinancialPipeline.store st) /\
  date_cache_sound (FinancialPipeline.dim_loader st) /\
  dates_loaded (FinancialPipeline.store st) /\
  Forall (fun t => storable t = true) (FinancialPipeline.batch st).

(** When moreover the chunk size is positive, what was loaded came in
    whole chunks and the rest waits in the batch. *)
Definition loop_chunks (chunk_size : Z) (n : Z) (st : FinancialPipeline.Loop) : Prop :=
  Z.of_nat (length (FinancialPipeline.batch st)) < chunk_size /\
  exists q, FinancialPipeline.total_processed st = chunk_size * q /\
            chunk_size * q + Z.of_nat (length (FinancialPipeline.batch st)) = n.



(** The row of a run can be inserted: its id is new, and the id and
    the name of the source fit their columns. *)
Definition new_run (db : Store.t) (run_uuid source_name : string) : Prop :=
  Store.pipeline_runs db !! run_uuid = None /\
  text_fits false 100 (VStr run_uuid) = true /\
  text_fits false 50 (VStr source_name) = true.

(** The state the loop starts in. *)
Definition loop_start (db : Store.t) : FinancialPipeline.Loop :=
  {| FinancialPipeline.batch := [];
     FinancialPipeline.total_processed := 0;
     FinancialPipeline.total_failed := 0;
     FinancialPipeline.failed := [];
     FinancialPipeline.dim_loader := DimensionLoader.__init__;
     FinancialPipeline.store := db;
     FinancialPipeline.session := FinancialPipeline.Active |}.

(** The store when the loop starts: the run is recorded as started and
    the dates are loaded. *)
Definition run_started (run_uuid source_name : string) (db : Store.t) : Store.t :=
  FinancialPipeline._initialize_date_dimension
    (Store.save_run (PipelineRun.Row run_uuid source_name Started 0 0 None) db).







(** A period whose only line item is a number, and a file in which it
    follows the period of the second scenario. *)
Definition broken_period : dict :=
  [ ("period_start", VStr "2024-02-01");
    ("period_end", VStr "2024-02-29");
    ("operating_expenses",
     VList [ VDict [ ("name", VStr "Opex"); ("line_items", VList [ VInt 1 ]) ] ]) ].

Definition broken_rootfi_report : value :=
  VDict [ ("data",
           VList [ VDict (opex_period (VStr "2024-01-01") (VStr "2024-01-31"));
                   VDict broken_period ]) ].

Definition broken_rootfi_file : RootfiExtractor.t :=
  rootfi_on "data/data_set_2.json" broken_rootfi_report.

(** ** QuickBooksExtractor: validation and columns *)

(** An extractor not yet validated, for a file that parsed to [doc],
    and the extractor once [payload] has been accepted. *)
Definition quickbooks_on (path : string) (doc : value) : QuickBooksExtractor.t :=
  QuickBooksExtractor.__init__ path (Json doc).

Definition quickbooks_loaded (path : string) (doc payload : value) : QuickBooksExtractor.t :=
  QuickBooksExtractor.Extractor path (Json doc) (Some payload).

(** [col["ColType"] == "Money"], false when there is no such key. *)
Definition is_money (col : value) : bool :=
  match Py.subscript "ColType" col with
  | Ok col_type => Py.is_str "Money" col_type
  | Raise _ => false
  end.

(** The account types the QuickBooks extractor hands out. *)
Definition quickbooks_types : list string := [ "revenue"; "cogs"; "expense"; "other" ].

(** The account type a row inherits is one a section can set, or none. *)
Definition section_type (account_type : option string) : Prop :=
  account_type = None \/ account_type = Some "revenue" \/
  account_type = Some "cogs" \/ account_type = Some "expense".

(** [label in group], false where the test raises. *)
Definition names_label (label : string) (group : value) : bool :=
  match Py.py_in label group with
  | Ok found => found
  | Raise _ => false
  end.

(** The account type that the group of a Section row names, when it
    names one. *)
Definition named_type (row : dict) : option string :=
  if Py.is_str "Section" (Py.dict_get "type" row VNone) then
    let group := Py.dict_get "group" row (VStr "") in
    if names_label "Income" group || names_label "Revenue" group then Some "revenue"
    else if names_label "Cost of Goods Sold" group || names_label "COGS" group
         then Some "cogs"
    else if names_label "Expenses" group || names_label "Operating Expenses" group
         then Some "expense"
    else None
  else None.

(** A row with the rows above it, the row first and the row of the
    report last: the type of the nearest of them that names one. *)
Fixpoint nearest_type (path : list dict) : option string :=
  match path with
  | [] => None
  | row :: above =>
      match named_type row with
      | Some ty => Some ty
      | None => nearest_type above
      end
  end.

Definition inherited_type (path : list dict) : string :=
  match nearest_type path with
  | Some ty => ty
  | None => "other"
  end.

(** Each row of [path] is a child of the next one. *)
Fixpoint row_path (path : list dict) : Prop :=
  match path with
  | child :: (parent :: _) as above => In (VDict child) (child_rows_of parent) /\ row_path above
  | _ => True
  end.

(** The report [extract] reads, validated first when that was
    skipped, and the rows at its top. *)
Definition report_of (self : QuickBooksExtractor.t) : option value :=
  match QuickBooksExtractor.data self with
  | Some payload => Some payload
  | None => QuickBooksExtractor.data (QuickBooksExtractor.validate self).2
  end.

Definition report_rows (self_data : value) : list value :=
  match bind (Py.get_attr_default "Rows" (VDict []) self_data)
             (fun rows_obj => Py.get_attr_default "Row" (VList []) rows_obj) with
  | Ok (VList items) => items
  | Ok single => [single]
  | Raise _ => []
  end.

(** The type found, or else the one inherited. *)
Definition or_type (found inherited : option string) : option string :=
  match found with
  | Some ty => Some ty
  | None => inherited
  end.

(** The account types the Rootfi extractor hands out. *)
Definition rootfi_types : list string := [ "revenue"; "cogs"; "expense" ].

(** ** FinancialTransformer: accounts and names *)

(** The account of the unit tests, and the same account written in
    capitals between blanks. *)
Definition test_account : dict :=
  [ ("account_name", VStr "Test Account");
    ("account_type", VStr "revenue");
    ("source_system", VStr "test") ].

Definition test_account_shouted : dict :=
  [ ("account_name", VStr "  TEST ACCOUNT ");
    ("account_type", VStr "revenue");
    ("source_system", VStr "test") ].

(** [raw] with its account name replaced. *)
Definition with_name (name : string) (raw : dict) : dict :=
  Py.dict_set "account_name" (VStr name) raw.

(** ** FinancialPipeline: all sources *)



(* ===================================================================== *)
(** * Part II: properties *)
(* ===================================================================== *)

(** ** Strings *)



Lemma append_nil (t : string) : "" +:+ t = t.
Proof. reflexivity. Qed.

Lemma append_cons (c : ascii) (s t : string) : String c s +:+ t = String c (s +:+ t).
Proof. reflexivity. Qed.


Lemma prefix_spec (p s : string) :
  String.prefix p s = true <-> exists rest, s = p +:+ rest.
Proof.
  revert s. induction p as [|c p IH]; intros s.
  - split; [intros _; now exists s | intros _; destruct s; reflexivity].
  - destruct s as [|d s]; simpl.
    + split; [discriminate | intros [rest Hrest]; discriminate Hrest].
    + destruct (ascii_dec c d) as [->|Hne].
      * rewrite IH. split; intros [rest Hrest]; exists rest.
        -- rewrite append_cons. congruence.
        -- rewrite append_cons in Hrest. congruence.
      * split; [discriminate|].
        intros [rest Hrest]. rewrite append_cons in Hrest. congruence.
Qed.

(** [needle in hay] holds exactly when [hay] has [needle] somewhere in it. *)
Lemma contains_spec (needle hay : string) :
  Str.contains needle hay = true <-> exists pre post, hay = pre +:+ needle +:+ post.
Proof.
  induction hay as [|c hay IH].
  - cbn [Str.contains]. destruct (String.prefix needle "") eqn:Hp.
    + apply prefix_spec in Hp as [rest Hrest].
      split; [intros _; now exists "", rest | reflexivity].
    + split; [discriminate|]. intros (pre & post & Heq).
      destruct pre; [|discriminate Heq]. rewrite append_nil in Heq.
      assert (String.prefix needle "" = true) by (apply prefix_spec; eauto).
      congruence.
  - cbn [Str.contains]. destruct (String.prefix needle (String c hay)) eqn:Hp.
    + apply prefix_spec in Hp as [rest Hrest].
      split; [intros _; now exists "", rest | reflexivity].
    + rewrite IH. split.
      * intros (pre & post & ->). now exists (String c pre), post.
      * intros (pre & post & Heq). destruct pre as [|d pre].
        -- rewrite append_nil in Heq.
           assert (String.prefix needle (String c hay) = true)
             by (apply prefix_spec; eauto).
           congruence.
        -- rewrite append_cons in Heq. injection Heq as _ ->. now exists pre, post.
Qed.

(** ** CategoryMapper *)

Section CategoryMapperSpec.
Import CategoryMapper.



















End CategoryMapperSpec.






(** ** FinancialTransformer: account identity *)




























(** ** DimensionLoader: account upsert *)

Section UpsertAccount.
Import DimensionLoader.


Lemma upsert_caches self db account_id a :
  _account_cache (loader_of (upsert self db account_id a)) !! account_id =
  Some (key_of (upsert self db account_id a)).
Proof.
  unfold upsert, upsert_account, key_of, loader_of.
  destruct (_account_cache self !! account_id) as [cached|] eqn:Hcache; simpl.
  - exact Hcache.
  - apply lookup_insert_eq.
Qed.

Lemma upsert_cached self db account_id a cached :
  _account_cache self !! account_id = Some cached ->
  upsert self db account_id a = (cached, self, db).
Proof. intros Hcache. unfold upsert, upsert_account. now rewrite Hcache. Qed.

Lemma upsert_existing self db account_id a row :
  _account_cache self !! account_id = None ->
  Store.dim_account db !! account_id = Some row ->
  key_of (upsert self db account_id a) = DimAccount.account_key row /\
  stored_key (store_of (upsert self db account_id a)) account_id =
    Some (DimAccount.account_key row) /\
  stored_name (store_of (upsert self db account_id a)) account_id = Some (attr_name a).
Proof.
  intros Hcache Hrow.
  unfold upsert, upsert_account, key_of, store_of, stored_key, stored_name.
  rewrite Hcache. unfold Store.upsert_account. simpl. rewrite Hrow. simpl.
  rewrite lookup_insert_eq. auto.
Qed.

End UpsertAccount.

(** C7, as the code has it.  Two calls of [upsert_account] on one
    loader with the same account id return the same surrogate key,
    whether or not the attributes changed, and the second call writes
    nothing: the loader answers from its cache.  A call that misses the
    cache, as the first call of a new loader does, on an account the
    store already holds returns the surrogate key of the stored row,
    keeps it, and updates the stored name. *)
Theorem upsert_account_idempotent :
  (forall self db account_id a a',
      let first := upsert self db account_id a in
      let second := upsert (loader_of first) (store_of first) account_id a' in
      key_of second = key_of first /\
      store_of second = store_of first /\
      loader_of second = loader_of first) /\
  (forall self db account_id a row,
      DimensionLoader._account_cache self !! account_id = None ->
      Store.dim_account db !! account_id = Some row ->
      let again := upsert self db account_id a in
      key_of again = DimAccount.account_key row /\
      stored_key (store_of again) account_id = Some (DimAccount.account_key row) /\
      stored_name (store_of again) account_id = Some (attr_name a)).
Proof.
  split.
  - intros self db account_id a a' first second. subst second.
    rewrite (upsert_cached _ _ _ a' _ (upsert_caches self db account_id a)).
    auto.
  - intros self db account_id a row Hcache Hrow again. subst again.
    now apply upsert_existing.
Qed.


Lemma upsert_account_idempotent_witness :
  DimensionLoader._account_cache DimensionLoader.__init__ !! "0f1e2d3c4b5a6978" = None /\
  Store.dim_account store_with_office_rent !! "0f1e2d3c4b5a6978" = Some office_rent_row /\
  let again := upsert DimensionLoader.__init__ store_with_office_rent
                 "0f1e2d3c4b5a6978" office_rent_renamed in
  key_of again = 1%positive /\
  stored_key (store_of again) "0f1e2d3c4b5a6978" = Some 1%positive /\
  stored_name (store_of again) "0f1e2d3c4b5a6978" = Some "Office Rent (HQ)".
Proof.
  assert (Hcache : DimensionLoader._account_cache DimensionLoader.__init__
                     !! "0f1e2d3c4b5a6978" = None) by reflexivity.
  assert (Hrow : Store.dim_account store_with_office_rent !! "0f1e2d3c4b5a6978"
                 = Some office_rent_row) by (vm_compute; reflexivity).
  split; [exact Hcache|]. split; [exact Hrow|].
  exact (proj2 upsert_account_idempotent DimensionLoader.__init__ store_with_office_rent
           "0f1e2d3c4b5a6978" office_rent_renamed office_rent_row Hcache Hrow).
Defined.

(** C7 as stated does not hold: on one loader, a second call with a
    changed account name leaves the stored name as the first call wrote it. *)
Lemma upsert_account_same_loader_keeps_name :
  let first := upsert DimensionLoader.__init__ Store.empty "0f1e2d3c4b5a6978" office_rent in
  let second := upsert (loader_of first) (store_of first)
                  "0f1e2d3c4b5a6978" office_rent_renamed in
  key_of second = key_of first /\
  stored_name (store_of second) "0f1e2d3c4b5a6978" = Some "Office Rent" /\
  stored_name (store_of second) "0f1e2d3c4b5a6978" <> Some (attr_name office_rent_renamed).
Proof.
  vm_compute. split; [reflexivity|]. split; [reflexivity|]. discriminate.
Qed.

(** ** RootfiExtractor: validation *)

Lemma dict_case_find {A : Type} key (absent : A) present d :
  Py.dict_case key absent present d =
  match Py.dict_find key d with Some v => present v | None => absent end.
Proof.
  unfold Py.dict_find. induction d as [|[k v] d IH]; simpl; [reflexivity|].
  destruct (String.eqb k key); [reflexivity | exact IH].
Qed.

Lemma dict_has_find key d :
  Py.dict_has key d = match Py.dict_find key d with Some _ => true | None => false end.
Proof. unfold Py.dict_has. apply dict_case_find. Qed.

Lemma dict_get_find key d default :
  Py.dict_get key d default =
  match Py.dict_find key d with Some v => v | None => default end.
Proof. unfold Py.dict_get. apply dict_case_find. Qed.

Lemma rootfi_validate_data path top :
  RootfiExtractor.validate (rootfi_on path (VDict top)) =
  match Py.dict_find "data" top with
  | None => (Raise (ValueError "Missing 'data' key in Rootfi file"), rootfi_on path (VDict top))
  | Some (VList []) =>
      (Raise (ValueError "Empty data array in Rootfi file"), rootfi_on path (VDict top))
  | Some (VList (first_record :: others)) =>
      match RootfiExtractor.check_required ["period_start"; "period_end"] first_record with
      | Raise e => (Raise e, rootfi_on path (VDict top))
      | Ok _ =>
          (let* _ := Py.get_attr "period_start" first_record in
           let* _ := Py.get_attr "period_end" (List.last (first_record :: others) VNone) in
           Ok true,
           rootfi_loaded path (VDict top) (first_record :: others))
      end
  | Some _ =>
      (Raise (ValueError "'data' should be a list of period records"),
       rootfi_on path (VDict top))
  end.
Proof.
  unfold RootfiExtractor.validate, rootfi_on, rootfi_loaded, RootfiExtractor.__init__.
  cbn [RootfiExtractor.file RootfiExtractor.source_path Py.py_in Py.subscript].
  rewrite dict_has_find, dict_case_find.
  destruct (Py.dict_find "data" top) as [[| | | | |[|first_record others]|]|]; reflexivity.
Qed.

(** C8, as the code has it.  On a file whose top level is an object,
    [validate] raises a ValueError that names what is wrong when the
    "data" key is missing, when its value is not a list, when the list
    is empty, and when the first period record lacks "period_start" or
    "period_end"; otherwise, the first and the last record being
    objects, it returns true and keeps the records.  Of the last record
    nothing is required. *)
Theorem rootfi_validate_checks :
  (forall path top,
      Py.dict_has "data" top = false ->
      RootfiExtractor.validate (rootfi_on path (VDict top)) =
      (Raise (ValueError "Missing 'data' key in Rootfi file"), rootfi_on path (VDict top))) /\
  (forall path top payload,
      Py.dict_find "data" top = Some payload -> is_list payload = false ->
      RootfiExtractor.validate (rootfi_on path (VDict top)) =
      (Raise (ValueError "'data' should be a list of period records"),
       rootfi_on path (VDict top))) /\
  (forall path top,
      Py.dict_find "data" top = Some (VList []) ->
      RootfiExtractor.validate (rootfi_on path (VDict top)) =
      (Raise (ValueError "Empty data array in Rootfi file"), rootfi_on path (VDict top))) /\
  (forall path top first others,
      Py.dict_find "data" top = Some (VList (VDict first :: others)) ->
      Py.dict_has "period_start" first = false ->
      RootfiExtractor.validate (rootfi_on path (VDict top)) =
      (Raise (ValueError "Missing required field: period_start"),
       rootfi_on path (VDict top))) /\
  (forall path top first others,
      Py.dict_find "data" top = Some (VList (VDict first :: others)) ->
      Py.dict_has "period_start" first = true ->
      Py.dict_has "period_end" first = false ->
      RootfiExtractor.validate (rootfi_on path (VDict top)) =
      (Raise (ValueError "Missing required field: period_end"),
       rootfi_on path (VDict top))) /\
  (forall path top first others,
      Py.dict_find "data" top = Some (VList (VDict first :: others)) ->
      Py.dict_has "period_start" first = true ->
      Py.dict_has "period_end" first = true ->
      is_dict (List.last (VDict first :: others) VNone) = true ->
      RootfiExtractor.validate (rootfi_on path (VDict top)) =
      (Ok true, rootfi_loaded path (VDict top) (VDict first :: others))).
Proof.
  repeat split.
  - intros path top Hdata. rewrite rootfi_validate_data.
    rewrite dict_has_find in Hdata.
    destruct (Py.dict_find "data" top); [discriminate | reflexivity].
  - intros path top payload Hdata Hlist. rewrite rootfi_validate_data, Hdata.
    destruct payload; try reflexivity. discriminate.
  - intros path top Hdata. now rewrite rootfi_validate_data, Hdata.
  - intros path top first others Hdata Hstart. rewrite rootfi_validate_data, Hdata.
    cbn [RootfiExtractor.check_required Py.py_in bind]. now rewrite Hstart.
  - intros path top first others Hdata Hstart Hend. rewrite rootfi_validate_data, Hdata.
    cbn [RootfiExtractor.check_required Py.py_in bind]. now rewrite Hstart, Hend.
  - intros path top first others Hdata Hstart Hend Hlast. rewrite rootfi_validate_data, Hdata.
    cbn [RootfiExtractor.check_required Py.py_in bind]. rewrite Hstart, Hend.
    cbn [negb Py.get_attr bind].
    destruct (List.last (VDict first :: others) VNone); try discriminate. reflexivity.
Qed.

Lemma rootfi_validate_checks_witness :
  RootfiExtractor.validate (rootfi_on "data/data_set_2.json" (VDict [("meta", VNone)])) =
  (Raise (ValueError "Missing 'data' key in Rootfi file"),
   rootfi_on "data/data_set_2.json" (VDict [("meta", VNone)])) /\
  RootfiExtractor.validate (rootfi_on "data/data_set_2.json" (VDict [("data", VDict [])])) =
  (Raise (ValueError "'data' should be a list of period records"),
   rootfi_on "data/data_set_2.json" (VDict [("data", VDict [])])) /\
  RootfiExtractor.validate
    (rootfi_on "data/data_set_2.json"
       (VDict [("data", VList [VDict [("period_start", VStr "2024-01-01")]])])) =
  (Raise (ValueError "Missing required field: period_end"),
   rootfi_on "data/data_set_2.json"
     (VDict [("data", VList [VDict [("period_start", VStr "2024-01-01")]])])) /\
  RootfiExtractor.validate (rootfi_on "data/data_set_2.json" rootfi_last_undated) =
  (Ok true,
   rootfi_loaded "data/data_set_2.json" rootfi_last_undated
     [ VDict [ ("period_start", VStr "2024-01-01"); ("period_end", VStr "2024-01-31") ];
       VDict [ ("rootfi_id", VInt 2) ] ]).
Proof.
  destruct rootfi_validate_checks as (Hmissing & Hnot_list & _ & _ & Hend & Hok).
  split; [|split; [|split]].
  - apply Hmissing. reflexivity.
  - apply (Hnot_list _ _ (VDict [])); reflexivity.
  - apply (Hend _ _ [("period_start", VStr "2024-01-01")] []); reflexivity.
  - apply (Hok _ _ [ ("period_start", VStr "2024-01-01"); ("period_end", VStr "2024-01-31") ]
                   [ VDict [ ("rootfi_id", VInt 2) ] ]); reflexivity.
Defined.

(** C8 as stated does not hold: the last record below has neither
    "period_start" nor "period_end", and [validate] returns true. *)
Lemma rootfi_validate_ignores_last_record :
  exists first last,
    rootfi_last_undated = VDict [("data", VList [first; VDict last])] /\
    Py.dict_has "period_start" last = false /\
    Py.dict_has "period_end" last = false /\
    fst (RootfiExtractor.validate (rootfi_on "data/data_set_2.json" rootfi_last_undated))
    = Ok true.
Proof.
  eexists _, _. split; [reflexivity|]. repeat split; reflexivity.
Qed.

(** ** Values and generators *)

Lemma dict_find_in key d v : Py.dict_find key d = Some v -> In (key, v) d.
Proof.
  unfold Py.dict_find. induction d as [|[k w] d IH]; simpl; [discriminate|].
  destruct (String.eqb_spec k key) as [->|Hne].
  - intros [= ->]. now left.
  - intros Hfind. right. now apply IH.
Qed.

Lemma yielded_seq {A : Type} (g1 g2 : gen A) (x : A) :
  In x (yielded (gen_seq g1 g2)) -> In x (yielded g1) \/ In x (yielded g2).
Proof.
  unfold gen_seq. destruct (raised g1); simpl; [now left|]. apply in_app_or.
Qed.

Lemma yielded_for {A B : Type} (body : B -> gen A) (xs : list B) (x : A) :
  In x (yielded (gen_for body xs)) -> exists b, In b xs /\ In x (yielded (body b)).
Proof.
  induction xs as [|b xs IH]; simpl; [contradiction|].
  intros Hin. apply yielded_seq in Hin as [Hin|Hin].
  - exists b. auto.
  - destruct (IH Hin) as (b' & Hb' & Hx). exists b'. auto.
Qed.

Lemma yielded_try {A B : Type} (r : result B) (k : B -> gen A) (x : A) :
  In x (yielded (gen_try r k)) -> exists b, r = Ok b /\ In x (yielded (k b)).
Proof. destruct r as [b|e]; simpl; [eauto | contradiction]. Qed.

(** ** RootfiExtractor: the walk over line items *)

Lemma process_line_items_cons item rest account_type parent_name :
  RootfiExtractor._process_line_items (VList (item :: rest)) account_type parent_name =
  gen_seq (walk_item item account_type parent_name)
          (RootfiExtractor._process_line_items (VList rest) account_type parent_name).
Proof. reflexivity. Qed.

Lemma process_line_items_nil account_type parent_name :
  RootfiExtractor._process_line_items (VList []) account_type parent_name = gen_done.
Proof. reflexivity. Qed.

Lemma nonempty_ne (s : string) : Str.nonempty s = true -> s <> "".
Proof. destruct s; [discriminate | discriminate]. Qed.

Lemma yielded_leaf name account_type parent_name val account_id r :
  In r (yielded (RootfiExtractor.leaf name account_type parent_name val account_id)) ->
  exists amount,
    amount_of val amount /\
    r = leaf_record name account_type parent_name amount account_id.
Proof.
  unfold RootfiExtractor.leaf. intros Hin.
  apply yielded_try in Hin as (amount & Hamount & Hin).
  simpl in Hin. destruct Hin as [<-|[]].
  exists amount. split; [|reflexivity].
  destruct val; first [now injection Hamount | exact Hamount].
Qed.

Lemma walk_item_sound item items account_type parent_name r :
  In item items ->
  (forall d key child, item = VDict d -> Py.dict_find key d = Some child -> walk_sound child) ->
  In r (yielded (walk_item item account_type parent_name)) ->
  exists leaf p, leaf_under (VList items) parent_name leaf p /\
                 emitted_for leaf account_type p r.
Proof.
  intros Hitem Hchildren Hin.
  destruct item as [| | | | | |d]; try contradiction.
  unfold walk_item in Hin.
  apply yielded_try in Hin as (name & Hname & Hin).
  assert (Hitem_name : item_name d = Some name).
  { unfold item_name. destruct (Py.dict_get "name" d (VStr "")); try discriminate.
    now injection Hname as <-. }
  destruct (Str.nonempty name) eqn:Hnonempty; [|contradiction].
  apply nonempty_ne in Hnonempty.
  rewrite dict_case_find in Hin.
  assert (Hleaf : has_children d = false ->
                  In r (yielded (RootfiExtractor.leaf name account_type parent_name
                                   (Py.dict_get "value" d (VInt 0))
                                   (Py.dict_get "account_id" d VNone))) ->
                  exists leaf p, leaf_under (VList items) parent_name leaf p /\
                                 emitted_for leaf account_type p r).
  { intros Hnone Hyield. apply yielded_leaf in Hyield as (amount & Hamount & ->).
    exists d, parent_name. split; [now apply leaf_here|].
    exists name, amount. split; [exact Hitem_name|]. split; [exact Hnonempty|].
    split; [exact Hamount | reflexivity]. }
  destruct (Py.dict_find "line_items" d) as [children|] eqn:Hfind.
  - destruct (Py.truthy children) eqn:Htruthy.
    + destruct (Hchildren d "line_items" children eq_refl Hfind _ _ _ Hin)
        as (leaf & p & Hunder & Hemitted).
      exists leaf, p. split; [|exact Hemitted].
      apply (leaf_below items parent_name d name); trivial.
      * unfold has_children. now rewrite dict_get_find, Hfind.
      * now rewrite dict_get_find, Hfind.
    + apply Hleaf; [|exact Hin]. unfold has_children. now rewrite dict_get_find, Hfind.
  - apply Hleaf; [|exact Hin]. unfold has_children. now rewrite dict_get_find, Hfind.
Qed.

Lemma leaf_under_tail item items parent leaf p :
  leaf_under (VList items) parent leaf p -> leaf_under (VList (item :: items)) parent leaf p.
Proof.
  inversion 1; subst.
  - apply leaf_here; [now right | assumption].
  - eapply leaf_below; eauto. now right.
Qed.

Lemma walk_sound_all (line_items : value) :
  walk_sound line_items /\
  (forall d key child, line_items = VDict d -> Py.dict_find key d = Some child ->
                       walk_sound child).
Proof.
  induction line_items as [| | | | |items IH|entries IH] using value_nested_ind.
  1-5: split; [|discriminate]; intros account_type parent_name r Hin;
       try (destruct s); contradiction.
  - split; [|discriminate].
    induction items as [|item items IHitems]; intros account_type parent_name r Hin.
    + contradiction.
    + rewrite process_line_items_cons in Hin. apply yielded_seq in Hin as [Hin|Hin].
      * apply (walk_item_sound item (item :: items)); [now left| |exact Hin].
        intros d key child -> Hfind.
        apply Forall_inv in IH. destruct IH as [_ IH]. now apply (IH d key child).
      * apply Forall_inv_tail in IH.
        destruct (IHitems IH _ _ _ Hin) as (leaf & p & Hunder & Hemitted).
        exists leaf, p. split; [now apply leaf_under_tail | exact Hemitted].
  - split.
    + intros account_type parent_name r Hin. destruct entries; contradiction.
    + intros d key child [= <-] Hfind. apply dict_find_in in Hfind.
      rewrite List.Forall_forall in IH. apply (IH _ Hfind).
Qed.

Lemma yielded_map {A B : Type} (f : A -> B) (g : gen A) (y : B) :
  In y (yielded (gen_map f g)) -> exists x, In x (yielded g) /\ y = f x.
Proof.
  unfold gen_map. simpl. rewrite in_map_iff. intros (x & <- & Hx). eauto.
Qed.

Lemma extract_sections_sound {rt : PyRuntime} record key account_type r :
  In r (yielded (RootfiExtractor.extract_sections record key account_type
                   (Py.dict_get "period_start" record VNone)
                   (Py.dict_get "period_end" record VNone)
                   (Py.dict_get "currency_id" record (VStr "USD")))) ->
  exists line_items section_name leaf p item_data,
    section_of record key line_items section_name /\
    leaf_under line_items section_name leaf p /\
    emitted_for leaf account_type p item_data /\
    r = Py.dict_update item_data (period_fields record).
Proof.
  unfold RootfiExtractor.extract_sections. intros Hin.
  destruct (Py.dict_has key record && Py.truthy (Py.dict_get key record VNone)) eqn:Hguard;
    [|contradiction].
  apply andb_prop in Hguard as [Hhas _].
  rewrite dict_has_find in Hhas. rewrite dict_get_find in Hin.
  destruct (Py.dict_find key record) as [sections|] eqn:Hfind; [|discriminate].
  apply yielded_try in Hin as (listed & Hlisted & Hin).
  apply yielded_for in Hin as (section & Hsection & Hin).
  apply yielded_try in Hin as (has_items & _ & Hin).
  destruct has_items; [|contradiction].
  apply yielded_try in Hin as (line_items & Hitems & Hin).
  apply yielded_try in Hin as (section_name & Hname & Hin).
  apply yielded_map in Hin as (item_data & Hdata & ->).
  destruct (proj1 (walk_sound_all line_items) _ _ _ Hdata) as (leaf & p & Hunder & Hemitted).
  exists line_items, section_name, leaf, p, item_data.
  split; [|auto]. exists sections, listed, section. auto.
Qed.

Lemma extract_period_sound {rt : PyRuntime} record r :
  In r (yielded (RootfiExtractor._extract_period (VDict record))) ->
  exists key account_type line_items section_name leaf p item_data,
    In (key, account_type) section_kinds /\
    section_of record key line_items section_name /\
    leaf_under line_items section_name leaf p /\
    emitted_for leaf account_type p item_data /\
    r = Py.dict_update item_data (period_fields record).
Proof.
  intros Hin. unfold RootfiExtractor._extract_period in Hin.
  destruct (negb (Py.truthy (Py.dict_get "period_start" record VNone))
            || negb (Py.truthy (Py.dict_get "period_end" record VNone)));
    [contradiction|].
  apply yielded_seq in Hin as [Hin|Hin]; [|apply yielded_seq in Hin as [Hin|Hin]];
    apply extract_sections_sound in Hin
      as (line_items & section_name & leaf & p & item_data & Hsec & Hunder & Hem & ->).
  - exists "revenue", "revenue", line_items, section_name, leaf, p, item_data.
    split; [now left | auto].
  - exists "cost_of_goods_sold", "cogs", line_items, section_name, leaf, p, item_data.
    split; [right; now left | auto].
  - exists "operating_expenses", "expense", line_items, section_name, leaf, p, item_data.
    split; [right; right; now left | auto].
Qed.

Lemma yielded_filter {A : Type} (keep : A -> bool) (g : gen A) (x : A) :
  In x (yielded (gen_filter keep g)) -> In x (yielded g) /\ keep x = true.
Proof. unfold gen_filter. simpl. rewrite filter_In. auto. Qed.

(** The Rootfi extractor yields raw records of the expected shape. *)
Lemma rootfi_extract_well_formed {rt : PyRuntime} self r :
  In r (yielded (RootfiExtractor.extract self)) -> raw_well_formed r.
Proof.
  unfold RootfiExtractor.extract. intros Hin.
  apply yielded_try in Hin as (records & _ & Hin).
  apply yielded_for in Hin as (period_record & _ & Hin).
  apply yielded_filter in Hin as [Hin _].
  destruct period_record as [| | | | | |record]; try contradiction.
  apply extract_period_sound in Hin
    as (key & ty & line_items & section_name & leaf & p & item_data
        & _ & _ & _ & (name & amount & _ & _ & _ & ->) & ->).
  repeat split; eexists; reflexivity.
Qed.



(** ** RootfiExtractor: items without a name *)

Lemma lstrip_whitespace_only s : whitespace_only s = true -> Str.lstrip s = "".
Proof.
  unfold whitespace_only. induction s as [|c s IH]; simpl; [reflexivity|].
  intros Hall. apply andb_prop in Hall as [Hc Hs]. rewrite Hc. auto.
Qed.


Lemma gen_seq_done_l {A : Type} (g : gen A) : gen_seq gen_done g = g.
Proof. destruct g. reflexivity. Qed.




(** ** QuickBooksExtractor *)

Lemma enumerate_from_nth {A : Type} (xs : list A) start idx x :
  In (idx, x) (Py.enumerate_from start xs) ->
  (start <= idx)%nat /\ nth_error xs (idx - start) = Some x.
Proof.
  revert start. induction xs as [|y xs IH]; intros start; simpl; [contradiction|].
  intros [[= <- <-]|Hin].
  - split; [lia|]. now rewrite Nat.sub_diag.
  - destruct (IH _ Hin) as [Hle Hnth]. split; [lia|].
    replace (idx - start)%nat with (S (idx - S start)) by lia. exact Hnth.
Qed.

Lemma yielded_cell_records self_data cells account_name parent_account account_type
      idx col_def r :
  In r (yielded (QuickBooksExtractor.cell_records self_data cells account_name
                   parent_account account_type idx col_def)) ->
  exists cell amount_str currency,
    nth_error cells (idx + 1) = Some cell /\
    Py.get_attr_default "value" (VStr "0") cell = Ok amount_str /\
    Py.float_nonzero (QuickBooksExtractor.parse_amount amount_str) = true /\
    r = quickbooks_record account_name (QuickBooksExtractor.type_or_other account_type)
          parent_account col_def (QuickBooksExtractor.parse_amount amount_str) currency.
Proof.
  unfold QuickBooksExtractor.cell_records. intros Hin.
  destruct (nth_error cells (idx + 1)) as [cell|]; [|contradiction].
  apply yielded_try in Hin as (amount_str & Hstr & Hin).
  destruct (Py.float_nonzero (QuickBooksExtractor.parse_amount amount_str)) eqn:Hnz;
    [|contradiction].
  apply yielded_try in Hin as (currency & _ & Hin).
  destruct Hin as [<-|[]]. exists cell, amount_str, currency. auto.
Qed.

(** The records of a Data row: the column at [idx] with the cell at
    [idx + 1], for the cells whose amount is not zero. *)
Lemma yielded_data_cells self_data columns cells account_name parent_account account_type r :
  In r (yielded (QuickBooksExtractor.data_cells self_data columns cells account_name
                   parent_account account_type)) ->
  exists idx col_def cell amount_str currency,
    nth_error columns idx = Some col_def /\
    nth_error cells (idx + 1) = Some cell /\
    Py.get_attr_default "value" (VStr "0") cell = Ok amount_str /\
    Py.float_nonzero (QuickBooksExtractor.parse_amount amount_str) = true /\
    r = quickbooks_record account_name (QuickBooksExtractor.type_or_other account_type)
          parent_account col_def (QuickBooksExtractor.parse_amount amount_str) currency.
Proof.
  unfold QuickBooksExtractor.data_cells. intros Hin.
  apply yielded_for in Hin as ([idx col_def] & Henum & Hin).
  apply enumerate_from_nth in Henum as [_ Hnth]. rewrite Nat.sub_0_r in Hnth.
  apply yielded_cell_records in Hin as (cell & amount_str & currency & Hcell & Hstr & Hnz & ->).
  exists idx, col_def, cell, amount_str, currency. auto.
Qed.

Lemma quickbooks_record_nonzero name ty parent col_def amount currency :
  Py.float_nonzero amount = true ->
  amount_nonzero (quickbooks_record name ty parent col_def amount currency).
Proof. intros Hnz. exists amount. split; [reflexivity | exact Hnz]. Qed.

Lemma yielded_data_row self_data columns row parent_account account_type r :
  In r (yielded (QuickBooksExtractor.data_row self_data columns row parent_account
                   account_type)) ->
  exists name cells,
    Py.dict_get "ColData" row (VList []) = VList cells /\
    QuickBooksExtractor.first_cell_name (VList cells) = Ok (Some name) /\
    In r (yielded (QuickBooksExtractor.data_cells self_data columns cells name
                     parent_account account_type)).
Proof.
  unfold QuickBooksExtractor.data_row. intros Hin.
  apply yielded_try in Hin as (account_name & Hname & Hin).
  destruct account_name as [name|]; [|contradiction].
  destruct (Py.dict_get "ColData" row (VList [])) as [| | | | |cells|]; try contradiction.
  destruct (Str.nonempty name); [|contradiction].
  exists name, cells. auto.
Qed.

Lemma value_size_in (x : value) (items : list value) :
  In x items -> (value_size x < value_size (VList items))%nat.
Proof.
  cbn [value_size]. induction items as [|y items IH]; simpl; [contradiction|].
  intros [->|Hin]; [lia|]. specialize (IH Hin). lia.
Qed.

Lemma value_size_find key (d : dict) v :
  Py.dict_find key d = Some v -> (value_size v < value_size (VDict d))%nat.
Proof.
  intros Hfind. apply dict_find_in in Hfind. cbn [value_size].
  induction d as [|[k w] d IH]; simpl in *; [contradiction|].
  destruct Hfind as [[= -> ->]|Hin]; [lia|]. specialize (IH Hin). lia.
Qed.

Lemma child_rows_smaller row child :
  In child (child_rows_of row) -> (value_size child < value_size (VDict row))%nat.
Proof.
  unfold child_rows_of.
  destruct (Py.dict_find "Rows" row) as [rows|] eqn:Hrows; [|contradiction].
  apply value_size_find in Hrows.
  destruct rows as [| | | | | |rows]; try contradiction.
  destruct (Py.dict_find "Row" rows) as [listed|] eqn:Hrow; [|contradiction].
  apply value_size_find in Hrow.
  destruct listed as [| | | | |children|];
    try (intros [<-|[]]; lia).
  intros Hin. apply value_size_in in Hin. lia.
Qed.

Lemma process_row_dict self_data columns row parent_account account_type :
  QuickBooksExtractor._process_row self_data columns (VDict row) parent_account account_type =
  let row_type := Py.dict_get "type" row VNone in
  gen_try (if Py.is_str "Section" row_type
           then QuickBooksExtractor.section_account_type
                  (Py.dict_get "group" row (VStr "")) account_type
           else Ok account_type)
    (fun account_type =>
       gen_seq
         (if Py.is_str "Data" row_type
          then QuickBooksExtractor.data_row self_data columns row parent_account account_type
          else gen_done)
         (gen_for
            (fun child_row =>
               gen_try (QuickBooksExtractor.child_parent_of row_type row parent_account)
                 (fun parent =>
                    QuickBooksExtractor._process_row self_data columns child_row parent
                      account_type))
            (child_rows_of row))).
Proof.
  cbn [QuickBooksExtractor._process_row]. cbv zeta.
  destruct (if Py.is_str "Section" (Py.dict_get "type" row VNone)
            then QuickBooksExtractor.section_account_type
                   (Py.dict_get "group" row (VStr "")) account_type
            else Ok account_type) as [ty|e]; [|reflexivity].
  cbn [gen_try]. f_equal. unfold child_rows_of. rewrite dict_case_find.
  destruct (Py.dict_find "Rows" row) as [[| | | | | |rows]|]; try reflexivity.
  rewrite dict_case_find.
  destruct (Py.dict_find "Row" rows) as [[| | | | |children|]|]; reflexivity.
Qed.

Lemma process_row_records self_data columns (n : nat) :
  forall row parent_account account_type r,
    (value_size row < n)%nat ->
    In r (yielded (QuickBooksExtractor._process_row self_data columns row parent_account
                     account_type)) ->
    cell_record r.
Proof.
  induction n as [|n IH]; intros row parent_account account_type r Hsize Hin; [lia|].
  destruct row as [| | | | | |row]; try contradiction.
  rewrite process_row_dict in Hin. cbv zeta in Hin.
  apply yielded_try in Hin as (ty & _ & Hin).
  apply yielded_seq in Hin as [Hin|Hin].
  - destruct (Py.is_str "Data" (Py.dict_get "type" row VNone)); [|contradiction].
    apply yielded_data_row in Hin as (name & cells & _ & _ & Hin).
    apply yielded_data_cells in Hin
      as (idx & col_def & cell & amount_str & currency & _ & _ & _ & Hnz & ->).
    unfold cell_record. eauto 10.
  - apply yielded_for in Hin as (child & Hchild & Hin).
    apply yielded_try in Hin as (parent & _ & Hin).
    apply child_rows_smaller in Hchild.
    apply (IH child parent ty r); [lia | exact Hin].
Qed.

Lemma quickbooks_extract_records self r :
  In r (yielded (QuickBooksExtractor.extract self)) -> cell_record r.
Proof.
  unfold QuickBooksExtractor.extract. intros Hin.
  apply yielded_try in Hin as (self_data & _ & Hin).
  apply yielded_try in Hin as (columns & _ & Hin).
  apply yielded_try in Hin as (rows & _ & Hin).
  apply yielded_for in Hin as (row & _ & Hin).
  apply (process_row_records self_data columns (S (value_size row)) row VNone None r);
    [lia | exact Hin].
Qed.

(** Every dict the QuickBooks extractor yields has a non-zero amount. *)
Lemma quickbooks_extract_nonzero self r :
  In r (yielded (QuickBooksExtractor.extract self)) -> amount_nonzero r.
Proof.
  intros Hin. apply quickbooks_extract_records in Hin
    as (name & ty & parent & col_def & amount & currency & -> & Hnz).
  now apply quickbooks_record_nonzero.
Qed.

(** The QuickBooks extractor yields raw records of the expected shape. *)
Lemma quickbooks_extract_well_formed self r :
  In r (yielded (QuickBooksExtractor.extract self)) -> raw_well_formed r.
Proof.
  intros Hin. apply quickbooks_extract_records in Hin
    as (name & ty & parent & col_def & amount & currency & -> & _).
  repeat split; eexists; reflexivity.
Qed.

Lemma section_income group account_type :
  Str.contains "Income" group = true ->
  QuickBooksExtractor.section_account_type (VStr group) account_type = Ok (Some "revenue").
Proof.
  intros Hincome. unfold QuickBooksExtractor.section_account_type.
  cbn [Py.py_in bind]. now rewrite Hincome.
Qed.

(** C5. Under a Section row whose group contains "Income", the Data row
    with the cells "Product Sales", "1000", "0", "2000" read against
    three parsed money columns yields exactly two dicts, both of type
    "revenue": 1000.0 with the period of the first column and 2000.0
    with the period of the third; the second column's cell "0" yields
    nothing.  So does the whole report of the scenario, whose column
    list starts with the account column.  In any Data row without
    children, a yielded dict pairs the column at [idx] with the cell at
    [idx + 1]. *)
Theorem quickbooks_income_scenario :
  (forall header others group c1 c2 c3 parent_account inherited,
      Str.contains "Income" group = true ->
      QuickBooksExtractor._process_row (VDict (("Header", VDict header) :: others))
        [c1; c2; c3] (income_section group) parent_account inherited
      = Gen [ quickbooks_record "Product Sales" "revenue" parent_account c1 float_1000
                (Py.dict_get "Currency" header (VStr "USD"));
              quickbooks_record "Product Sales" "revenue" parent_account c3 float_2000
                (Py.dict_get "Currency" header (VStr "USD")) ]
            None) /\
  (forall path,
      QuickBooksExtractor._parse_columns income_report = Ok [january; february; march] /\
      QuickBooksExtractor.extract
        (QuickBooksExtractor.__init__ path (Json (VDict [("data", income_report)])))
      = Gen [ quickbooks_record "Product Sales" "revenue" VNone january float_1000 (VStr "USD");
              quickbooks_record "Product Sales" "revenue" VNone march float_2000 (VStr "USD") ]
            None) /\
  (forall self_data columns row parent_account account_type r,
      Py.is_str "Data" (Py.dict_get "type" row VNone) = true ->
      child_rows_of row = [] ->
      In r (yielded (QuickBooksExtractor._process_row self_data columns (VDict row)
                       parent_account account_type)) ->
      exists name cells idx col_def cell amount_str currency,
        Py.dict_get "ColData" row (VList []) = VList cells /\
        QuickBooksExtractor.first_cell_name (VList cells) = Ok (Some name) /\
        nth_error columns idx = Some col_def /\
        nth_error cells (idx + 1) = Some cell /\
        Py.get_attr_default "value" (VStr "0") cell = Ok amount_str /\
        r = quickbooks_record name (QuickBooksExtractor.type_or_other account_type)
              parent_account col_def (QuickBooksExtractor.parse_amount amount_str) currency).
Proof.
  split; [|split].
  - intros header others group c1 c2 c3 parent_account inherited Hincome.
    unfold income_section. rewrite process_row_dict.
    change (Py.dict_get "type" _ VNone) with (VStr "Section").
    cbv zeta. cbn [Py.is_str String.eqb Ascii.eqb Bool.eqb].
    change (Py.dict_get "group" _ (VStr "")) with (VStr group).
    rewrite (section_income group inherited Hincome).
    reflexivity.
  - intros path. split; reflexivity.
  - intros self_data columns row parent_account account_type r Hdata Hleaf Hin.
    rewrite process_row_dict in Hin. cbv zeta in Hin.
    assert (Htype : Py.is_str "Section" (Py.dict_get "type" row VNone) = false).
    { destruct (Py.dict_get "type" row VNone) as [| | | |s| |]; try reflexivity.
      cbn [Py.is_str] in *. apply String.eqb_eq in Hdata as <-. reflexivity. }
    rewrite Htype, Hdata, Hleaf in Hin. cbn [gen_try gen_for] in Hin.
    apply yielded_seq in Hin as [Hin|[]].
    apply yielded_data_row in Hin as (name & cells & Hcells & Hname & Hin).
    apply yielded_data_cells in Hin
      as (idx & col_def & cell & amount_str & currency & Hcol & Hcell & Hstr & _ & ->).
    exists name, cells, idx, col_def, cell, amount_str, currency. auto 10.
Qed.

Lemma quickbooks_income_scenario_witness :
  Str.contains "Income" "Total Income" = true /\
  QuickBooksExtractor._process_row (VDict [("Header", VDict [("Currency", VStr "EUR")])])
    [january; february; march] (income_section "Total Income") VNone None
  = Gen [ quickbooks_record "Product Sales" "revenue" VNone january float_1000 (VStr "EUR");
          quickbooks_record "Product Sales" "revenue" VNone march float_2000 (VStr "EUR") ]
        None /\
  exists name cells idx col_def c amount_str currency,
    VList [ cell "Product Sales"; cell "1000"; cell "0"; cell "2000" ] = VList cells /\
    QuickBooksExtractor.first_cell_name (VList cells) = Ok (Some name) /\
    nth_error [january; february; march] idx = Some col_def /\
    nth_error cells (idx + 1) = Some c /\
    Py.get_attr_default "value" (VStr "0") c = Ok amount_str /\
    quickbooks_record "Product Sales" "revenue" VNone march float_2000 (VStr "EUR")
    = quickbooks_record name (QuickBooksExtractor.type_or_other (Some "revenue"))
        VNone col_def (QuickBooksExtractor.parse_amount amount_str) currency.
Proof.
  destruct quickbooks_income_scenario as (Hscenario & _ & Haligned).
  assert (Hincome : Str.contains "Income" "Total Income" = true) by reflexivity.
  split; [exact Hincome|]. split.
  - exact (Hscenario [("Currency", VStr "EUR")] [] "Total Income" january february march
             VNone None Hincome).
  - apply (Haligned (VDict [("Header", VDict [("Currency", VStr "EUR")])])
             [january; february; march]
             [ ("type", VStr "Data");
               ("ColData", VList [ cell "Product Sales"; cell "1000"; cell "0"; cell "2000" ]) ]
             VNone (Some "revenue")); [reflexivity | reflexivity |].
    right. left. reflexivity.
Defined.








(** ** FinancialTransformer: records as the extractors build them *)

Section TransformRecords.
Context {rt : PyRuntime}.



End TransformRecords.

(** ** Checks of the runtime model against known values *)

(** The SHA-256 test vectors of FIPS 180-4. *)
Example sha256_abc :
  Sha256.hexdigest "abc"
  = "ba7816bf8f01cfea414140de5dae2223b00361a396177a9cb410ff61f20015ad".
Proof. vm_compute. reflexivity. Qed.

Example sha256_two_blocks :
  Sha256.hexdigest "abcdbcdecdefdefgefghfghighijhijkijkljklmklmnlmnomnopnopq"
  = "248d6a61d20638b8e5c026930c3e6039a33ce45964ff2167f6ecedd419db06c1".
Proof. vm_compute. reflexivity. Qed.

(** tests/unit/test_transformer.py: two accounts, two ids. *)
Example generate_account_id_uniqueness :
  FinancialTransformer._generate_account_id "Revenue" "revenue" "quickbooks"
  <> FinancialTransformer._generate_account_id "Expenses" "expense" "quickbooks".
Proof. vm_compute. discriminate. Qed.

(** tests/unit/test_transformer.py: dates. *)
Example parse_date_valid :
  FinancialTransformer._parse_date (VStr "2024-01-15") = Some (Date 2024 1 15).
Proof. reflexivity. Qed.

Example parse_date_with_time :
  FinancialTransformer._parse_date (VStr "2024-01-15T10:30:00") = Some (Date 2024 1 15).
Proof. reflexivity. Qed.

Example parse_date_invalid :
  FinancialTransformer._parse_date (VStr "invalid-date") = None.
Proof. reflexivity. Qed.

(** [float] on amounts as the reports write them. *)
Example float_of_amount_text :
  PyFloat.of_string (cleaned "$1,000.00") = Some float_1000 /\
  PyFloat.of_string (cleaned "-0") = Some (S754_zero true) /\
  PyFloat.of_string (cleaned "1e5x") = None /\
  PyFloat.of_string (cleaned "") = None.
Proof. vm_compute. repeat split; reflexivity. Qed.

(** The date dimension of a run: every day from 2020-01-01 to
    2026-12-31 and no other, so the day count given to the loop is
    enough. *)
Example date_dimension_range :
  let db := FinancialPipeline._initialize_date_dimension Store.empty in
  size (Store.dim_date db) = 2557%nat /\
  DimDate.date_key <$> Store.dim_date db !! Date 2020 1 1 = Some 20200101 /\
  DimDate.year_month <$> Store.dim_date db !! Date 2024 2 29 = Some "2024-02" /\
  DimDate.date_key <$> Store.dim_date db !! Date 2026 12 31 = Some 20261231 /\
  Store.dim_date db !! Date 2027 1 1 = None.
Proof. vm_compute. repeat split; reflexivity. Qed.

(** The year of a row is written as the number it is: three digits
    for a year before 1000, as [strftime("%Y")] writes it. *)
Example date_row_early_year :
  DimDate.year_month (DimensionLoader.date_row (Date 999 12 31)) = "999-12" /\
  DimDate.year_quarter (DimensionLoader.date_row (Date 999 12 31)) = "999-Q4" /\
  DimDate.year_month (DimensionLoader.date_row (Date 2024 2 29)) = "2024-02".
Proof. vm_compute. repeat split; reflexivity. Qed.

(* ===================================================================== *)
(** * Part III: further properties *)
(* ===================================================================== *)

(** ** Dates: [_parse_date] and the date keys *)

Lemma digit_bounds c n : PyDate.digit c = Some n -> 0 <= n <= 9.
Proof.
  unfold PyDate.digit, PyFloat.is_digit, PyFloat.digit_value.
  destruct ((48 <=? N_of_ascii c)%N && (N_of_ascii c <=? 57)%N) eqn:Hdigit; [|discriminate].
  intros [= <-]. apply andb_prop in Hdigit as [Hlo Hhi].
  apply N.leb_le in Hlo, Hhi. lia.
Qed.

Lemma digit_in_bounds lo hi c n : PyDate.digit_in lo hi c = Some n -> lo <= n <= hi.
Proof.
  unfold PyDate.digit_in. destruct (PyDate.digit c) as [k|]; [|discriminate].
  destruct ((lo <=? k) && (k <=? hi)) eqn:Hin; [|discriminate].
  intros [= <-]. apply andb_prop in Hin as [Hlo Hhi]. lia.
Qed.

Lemma parse_year_bounds s y : PyDate.parse_year s = Some y -> 0 <= y <= 9999.
Proof.
  unfold PyDate.parse_year.
  destruct s as [|c1 [|c2 [|c3 [|c4 [|]]]]]; try discriminate.
  destruct (PyDate.digit c1) as [d1|] eqn:H1; [|discriminate].
  destruct (PyDate.digit c2) as [d2|] eqn:H2; [|discriminate].
  destruct (PyDate.digit c3) as [d3|] eqn:H3; [|discriminate].
  destruct (PyDate.digit c4) as [d4|] eqn:H4; [|discriminate].
  apply digit_bounds in H1, H2, H3, H4. intros [= <-]. lia.
Qed.

Lemma parse_month_bounds s m : PyDate.parse_month s = Some m -> 1 <= m <= 12.
Proof.
  unfold PyDate.parse_month.
  destruct s as [|c1 [|c2 [|]]]; try discriminate.
  - intros Hm. apply digit_in_bounds in Hm. lia.
  - destruct (PyDate.digit c1) as [[|[]|]|]; try discriminate.
    + intros Hm. apply digit_in_bounds in Hm. lia.
    + destruct (PyDate.digit_in 0 2 c2) as [k|] eqn:Hk; [|discriminate].
      apply digit_in_bounds in Hk. intros [= <-]. lia.
Qed.

Lemma parse_day_bounds s d : PyDate.parse_day s = Some d -> 1 <= d.
Proof.
  unfold PyDate.parse_day.
  destruct s as [|c1 [|c2 [|]]]; try discriminate.
  - intros Hd. apply digit_in_bounds in Hd. lia.
  - destruct (Ascii.eqb c1 " ").
    + intros Hd. apply digit_in_bounds in Hd. lia.
    + destruct (PyDate.digit c1) as [[|[[]|[]|]|]|]; try discriminate.
      * intros Hd. apply digit_in_bounds in Hd. lia.
      * destruct (PyDate.digit_in 0 1 c2) as [k|] eqn:Hk; [|discriminate].
        apply digit_in_bounds in Hk. intros [= <-]. lia.
      * destruct (PyDate.digit c2) as [k|] eqn:Hk; [|discriminate].
        apply digit_bounds in Hk. intros [= <-]. lia.
      * destruct (PyDate.digit c2) as [k|] eqn:Hk; [|discriminate].
        apply digit_bounds in Hk. intros [= <-]. lia.
Qed.

Lemma strptime_ymd_valid s d : PyDate.strptime_ymd s = Some d -> valid_date d.
Proof.
  unfold PyDate.strptime_ymd.
  destruct (PyDate.split_once "-" s) as [[year_text rest]|]; [|discriminate].
  destruct (PyDate.split_once "-" rest) as [[month_text day_text]|]; [|discriminate].
  destruct (PyDate.parse_year year_text) as [y|] eqn:Hy; [|discriminate].
  destruct (PyDate.parse_month month_text) as [m|] eqn:Hm; [|discriminate].
  destruct (PyDate.parse_day day_text) as [dd|] eqn:Hd; [|discriminate].
  destruct ((1 <=? y) && (dd <=? PyDate.days_in_month y m)) eqn:Hok; [|discriminate].
  intros [= <-]. apply andb_prop in Hok as [Hy1 Hdm].
  apply parse_year_bounds in Hy. apply parse_month_bounds in Hm.
  apply parse_day_bounds in Hd. unfold valid_date. simpl. lia.
Qed.

(** What [_parse_date] does with text: the part before the first "T"
    is read as year-month-day, whichever format the loop is at. *)
Lemma parse_date_text s :
  FinancialTransformer._parse_date (VStr s) =
  if Str.nonempty s then PyDate.strptime_ymd (Str.before_char "T" s) else None.
Proof.
  unfold FinancialTransformer._parse_date. cbn [Py.truthy].
  destruct (Str.nonempty s); [|reflexivity].
  cbn [negb FinancialTransformer.formats FinancialTransformer.try_formats
       FinancialTransformer.try_format].
  now destruct (PyDate.strptime_ymd (Str.before_char "T" s)).
Qed.

Lemma parse_date_is_text v d :
  FinancialTransformer._parse_date v = Some d -> exists s, v = VStr s.
Proof.
  unfold FinancialTransformer._parse_date.
  destruct (negb (Py.truthy v)); [discriminate|].
  destruct v; try discriminate. eauto.
Qed.

Lemma parse_date_valid_day v d : FinancialTransformer._parse_date v = Some d -> valid_date d.
Proof.
  intros Hparse. destruct (parse_date_is_text v d Hparse) as (s & ->).
  rewrite parse_date_text in Hparse.
  destruct (Str.nonempty s); [|discriminate]. now apply strptime_ymd_valid in Hparse.
Qed.

(** X1. A value that is not text has no date: [_parse_date] gives
    [None] for it and raises nothing, and so it does for the empty
    text. *)
Theorem parse_date_not_text :
  forall v, is_text v = false -> FinancialTransformer._parse_date v = None.
Proof.
  intros v Htext. unfold FinancialTransformer._parse_date.
  destruct (negb (Py.truthy v)); [reflexivity|].
  destruct v; try discriminate; reflexivity.
Qed.

Lemma parse_date_not_text_witness :
  is_text (VInt 20240115) = false /\
  FinancialTransformer._parse_date (VInt 20240115) = None.
Proof.
  split; [reflexivity|]. apply (parse_date_not_text (VInt 20240115)). reflexivity.
Defined.

Lemma before_char_app c (d rest : string) :
  Str.before_char c (d +:+ String c rest) = Str.before_char c d.
Proof.
  induction d as [|x d IH].
  - rewrite append_nil. cbn [Str.before_char]. now rewrite Ascii.eqb_refl.
  - rewrite append_cons. cbn [Str.before_char]. destruct (Ascii.eqb c x); [reflexivity|].
    now rewrite IH.
Qed.

(** X2. Whatever follows the first "T" of a date text is ignored: the
    text with a "T" and anything appended parses as the text itself. *)
Theorem parse_date_ignores_time :
  forall d rest,
    FinancialTransformer._parse_date (VStr (d +:+ "T" +:+ rest))
    = FinancialTransformer._parse_date (VStr d).
Proof.
  intros d rest. rewrite !parse_date_text.
  change ("T" +:+ rest) with (String "T" rest). rewrite before_char_app.
  destruct d as [|x d]; [reflexivity|]. now rewrite append_cons.
Qed.

(** X3. A date that [_parse_date] returns is a day of the calendar:
    the year from 1 to 9999, the month from 1 to 12, the day from 1 to
    the length of that month. *)
Theorem parse_date_returns_calendar_day :
  forall v d, FinancialTransformer._parse_date v = Some d -> valid_date d.
Proof. exact parse_date_valid_day. Qed.

Lemma parse_date_returns_calendar_day_witness :
  FinancialTransformer._parse_date (VStr "2024-02-29T00:00:00") = Some (Date 2024 2 29) /\
  valid_date (Date 2024 2 29).
Proof.
  split; [reflexivity|].
  apply (parse_date_returns_calendar_day (VStr "2024-02-29T00:00:00")). reflexivity.
Defined.

Lemma days_in_month_bounds y m : 28 <= PyDate.days_in_month y m <= 31.
Proof.
  unfold PyDate.days_in_month.
  destruct (m =? 2); [destruct (PyDate.is_leap y); lia|].
  destruct ((m =? 4) || (m =? 6) || (m =? 9) || (m =? 11)); lia.
Qed.

Lemma yyyymmdd_injective d1 d2 :
  valid_date d1 -> valid_date d2 -> PyDate.yyyymmdd d1 = PyDate.yyyymmdd d2 -> d1 = d2.
Proof.
  destruct d1 as [y1 m1 dd1], d2 as [y2 m2 dd2]. unfold valid_date, PyDate.yyyymmdd. simpl.
  intros (Hy1 & Hm1 & Hd1) (Hy2 & Hm2 & Hd2) Hkey.
  pose proof (days_in_month_bounds y1 m1). pose proof (days_in_month_bounds y2 m2).
  assert (y1 = y2) by lia. assert (m1 = m2) by lia. assert (dd1 = dd2) by lia.
  now subst.
Qed.

Lemma get_date_key_fresh d :
  DimensionLoader.get_date_key DimensionLoader.__init__ d
  = (PyDate.yyyymmdd d,
     DimensionLoader.Loader {[ d := PyDate.yyyymmdd d ]} ∅ ∅).
Proof.
  unfold DimensionLoader.get_date_key, DimensionLoader.__init__.
  cbn [DimensionLoader._date_cache DimensionLoader._account_cache
       DimensionLoader._source_cache].
  now rewrite lookup_empty, insert_empty.
Qed.

(** X4. The date key tells parsed dates apart: two dates that
    [_parse_date] returned and to which a new loader gives the same
    key are the same date. *)
Theorem date_key_determines_date :
  forall v1 v2 d1 d2,
    FinancialTransformer._parse_date v1 = Some d1 ->
    FinancialTransformer._parse_date v2 = Some d2 ->
    fst (DimensionLoader.get_date_key DimensionLoader.__init__ d1)
    = fst (DimensionLoader.get_date_key DimensionLoader.__init__ d2) ->
    d1 = d2.
Proof.
  intros v1 v2 d1 d2 H1 H2. rewrite !get_date_key_fresh. cbn [fst].
  apply yyyymmdd_injective; eapply parse_date_valid_day; eassumption.
Qed.

Lemma date_key_determines_date_witness :
  FinancialTransformer._parse_date (VStr "2024-01-15") = Some (Date 2024 1 15) /\
  FinancialTransformer._parse_date (VStr "2024-01-15T10:30:00") = Some (Date 2024 1 15) /\
  Date 2024 1 15 = Date 2024 1 15.
Proof.
  split; [reflexivity|]. split; [reflexivity|].
  apply (date_key_determines_date (VStr "2024-01-15") (VStr "2024-01-15T10:30:00"));
    reflexivity.
Defined.

(** ** DimensionLoader: the date dimension *)

Lemma insert_dates_fold rows db :
  Store.dim_date (Store.insert_dates rows db) = fold_left insert_date rows (Store.dim_date db).
Proof. reflexivity. Qed.

Lemma insert_date_keeps table x d row :
  table !! d = Some row -> insert_date table x !! d = Some row.
Proof.
  intros Hrow. unfold insert_date.
  destruct (table !! DimDate.date_ x) eqn:Hx; [exact Hrow|].
  rewrite lookup_insert_ne; [exact Hrow|]. intros Heq. rewrite Heq in Hx. congruence.
Qed.

Lemma fold_insert_date_keeps rows table d row :
  table !! d = Some row -> fold_left insert_date rows table !! d = Some row.
Proof.
  revert table. induction rows as [|x rows IH]; intros table Hrow; [exact Hrow|].
  cbn [fold_left]. apply IH. now apply insert_date_keeps.
Qed.

Lemma fold_insert_date_other rows table d :
  (forall x, In x rows -> DimDate.date_ x <> d) ->
  fold_left insert_date rows table !! d = table !! d.
Proof.
  revert table. induction rows as [|x rows IH]; intros table Hother; [reflexivity|].
  cbn [fold_left]. rewrite IH by (intros y Hy; apply Hother; now right).
  unfold insert_date. destruct (table !! DimDate.date_ x); [reflexivity|].
  apply lookup_insert_ne. apply Hother. now left.
Qed.

Lemma fold_insert_date_new rows table d row :
  table !! d = None -> In row rows -> DimDate.date_ row = d ->
  (forall x, In x rows -> DimDate.date_ x = d -> x = row) ->
  fold_left insert_date rows table !! d = Some row.
Proof.
  revert table. induction rows as [|x rows IH]; intros table Hnone Hin Hdate Hone;
    [contradiction|].
  cbn [fold_left]. destruct (decide (DimDate.date_ x = d)) as [Hx|Hx].
  - assert (x = row) by (apply Hone; [now left | exact Hx]). subst x.
    apply fold_insert_date_keeps. unfold insert_date. rewrite Hdate, Hnone.
    apply lookup_insert_eq.
  - destruct Hin as [->|Hin]; [contradiction|].
    apply IH; [|exact Hin|exact Hdate|intros y Hy; apply Hone; now right].
    unfold insert_date. destruct (table !! DimDate.date_ x); [exact Hnone|].
    rewrite lookup_insert_ne; [exact Hnone | exact Hx].
Qed.

Lemma fold_insert_date_present rows table x :
  In x rows -> is_Some (fold_left insert_date rows table !! DimDate.date_ x).
Proof.
  revert table. induction rows as [|y rows IH]; intros table Hin; [contradiction|].
  cbn [fold_left]. destruct Hin as [->|Hin]; [|now apply IH].
  assert (Hnow : is_Some (insert_date table x !! DimDate.date_ x)).
  { unfold insert_date. destruct (table !! DimDate.date_ x) eqn:Hx.
    - eauto.
    - rewrite lookup_insert_eq. eauto. }
  destruct Hnow as [row Hrow]. exists row. now apply fold_insert_date_keeps.
Qed.

Lemma fold_insert_date_all_present rows table :
  (forall x, In x rows -> is_Some (table !! DimDate.date_ x)) ->
  fold_left insert_date rows table = table.
Proof.
  induction rows as [|x rows IH]; intros Hall; [reflexivity|].
  cbn [fold_left]. assert (Hx : insert_date table x = table).
  { unfold insert_date. destruct (Hall x) as [row ->]; [now left | reflexivity]. }
  rewrite Hx. apply IH. intros y Hy. apply Hall. now right.
Qed.

Lemma insert_dates_twice rows db :
  Store.insert_dates rows (Store.insert_dates rows db) = Store.insert_dates rows db.
Proof.
  unfold Store.insert_dates at 1.
  rewrite insert_dates_fold. fold insert_date.
  rewrite fold_insert_date_all_present; [reflexivity|].
  intros x Hx. now apply fold_insert_date_present.
Qed.

(** X5. Loading a range of dates twice is loading it once: the second
    statement finds every date in place and changes nothing. *)
Theorem load_date_dimension_idempotent :
  forall start_date end_date db,
    DimensionLoader.load_date_dimension start_date end_date
      (DimensionLoader.load_date_dimension start_date end_date db)
    = DimensionLoader.load_date_dimension start_date end_date db.
Proof.
  intros start_date end_date db. unfold DimensionLoader.load_date_dimension.
  destruct (DimensionLoader.dates_to_insert _ start_date end_date) as [|row rows];
    [reflexivity|].
  apply insert_dates_twice.
Qed.

Lemma load_date_dimension_frame start_date end_date db :
  let db' := DimensionLoader.load_date_dimension start_date end_date db in
  (forall d row, Store.dim_date db !! d = Some row -> Store.dim_date db' !! d = Some row) /\
  Store.dim_account db' = Store.dim_account db /\
  Store.dim_account_seq db' = Store.dim_account_seq db /\
  Store.dim_source db' = Store.dim_source db /\
  Store.dim_source_seq db' = Store.dim_source_seq db /\
  Store.fact_financials db' = Store.fact_financials db /\
  Store.pipeline_runs db' = Store.pipeline_runs db.
Proof.
  unfold DimensionLoader.load_date_dimension.
  destruct (DimensionLoader.dates_to_insert _ start_date end_date) as [|x rows]; cbv zeta.
  - repeat split; auto.
  - split; [|repeat split; reflexivity].
    intros d row Hrow. rewrite insert_dates_fold. now apply fold_insert_date_keeps.
Qed.

(** X6. [load_date_dimension] never replaces a date row that is
    already stored, and writes to no other table. *)
Theorem load_date_dimension_keeps_rows :
  forall start_date end_date db,
    let db' := DimensionLoader.load_date_dimension start_date end_date db in
    (forall d row, Store.dim_date db !! d = Some row -> Store.dim_date db' !! d = Some row) /\
    Store.dim_account db' = Store.dim_account db /\
    Store.dim_account_seq db' = Store.dim_account_seq db /\
    Store.dim_source db' = Store.dim_source db /\
    Store.dim_source_seq db' = Store.dim_source_seq db /\
    Store.fact_financials db' = Store.fact_financials db /\
    Store.pipeline_runs db' = Store.pipeline_runs db.
Proof. exact load_date_dimension_frame. Qed.

(** X7. A range whose end lies before its start is empty: nothing is
    written. *)
Theorem load_date_dimension_empty_range :
  forall start_date end_date db,
    DimensionLoader.date_le start_date end_date = false ->
    DimensionLoader.load_date_dimension start_date end_date db = db.
Proof.
  intros start_date end_date db Hafter. unfold DimensionLoader.load_date_dimension.
  destruct (Z.to_nat _) as [|days]; [reflexivity|].
  cbn [DimensionLoader.dates_to_insert]. now rewrite Hafter.
Qed.

Lemma load_date_dimension_empty_range_witness :
  DimensionLoader.date_le (Date 2024 3 1) (Date 2024 2 29) = false /\
  DimensionLoader.load_date_dimension (Date 2024 3 1) (Date 2024 2 29) Store.empty
  = Store.empty.
Proof.
  split; [reflexivity|].
  apply (load_date_dimension_empty_range (Date 2024 3 1) (Date 2024 2 29)). reflexivity.
Defined.

(** *** The calendar: ordinals and the next day *)

Lemma valid_calendar_day d : valid_date d -> calendar_day d.
Proof. unfold valid_date, calendar_day. tauto. Qed.

Lemma days_before_month_succ y m :
  1 <= m ->
  DimensionLoader.days_before_month y (Z.to_nat m)
  = DimensionLoader.days_before_month y (Z.to_nat (m - 1)) + PyDate.days_in_month y m.
Proof.
  intros Hm. replace (Z.to_nat m) with (S (Z.to_nat (m - 1))) by lia.
  cbn [DimensionLoader.days_before_month].
  now replace (Z.of_nat (S (Z.to_nat (m - 1)))) with m by lia.
Qed.

Lemma days_before_month_mono y (k1 k2 : nat) :
  (k1 <= k2)%nat ->
  DimensionLoader.days_before_month y k1 <= DimensionLoader.days_before_month y k2.
Proof.
  induction 1 as [|k2 Hle IH]; [lia|].
  cbn [DimensionLoader.days_before_month].
  pose proof (days_in_month_bounds y (Z.of_nat (S k2))). lia.
Qed.

Lemma days_before_month_12 y :
  DimensionLoader.days_before_month y 12 = 365 + leap_day y.
Proof.
  unfold leap_day. cbn. unfold PyDate.days_in_month. cbn.
  destruct (PyDate.is_leap y); reflexivity.
Qed.

Lemma year_length y :
  DimensionLoader.days_before_year (y + 1)
  = DimensionLoader.days_before_year y + 365 + leap_day y.
Proof.
  unfold DimensionLoader.days_before_year, leap_day, PyDate.is_leap.
  replace (y + 1 - 1) with y by lia.
  destruct (Z.eqb_spec (y mod 4) 0), (Z.eqb_spec (y mod 100) 0),
           (Z.eqb_spec (y mod 400) 0); cbn [andb orb negb];
    Z.div_mod_to_equations; lia.
Qed.

Lemma days_before_year_mono y1 y2 :
  y1 <= y2 -> DimensionLoader.days_before_year y1 <= DimensionLoader.days_before_year y2.
Proof.
  intros Hle. unfold DimensionLoader.days_before_year.
  Z.div_mod_to_equations. lia.
Qed.

(** The number of a day within its year is at most the length of the year. *)
Lemma day_of_year_bound d :
  calendar_day d ->
  1 <= DimensionLoader.days_before_month (year d) (Z.to_nat (month d - 1)) + day d
    <= 365 + leap_day (year d).
Proof.
  intros (Hm & Hd). rewrite <- days_before_month_12.
  pose proof (days_before_month_mono (year d) 0 (Z.to_nat (month d - 1)) ltac:(lia)) as H0.
  pose proof (days_before_month_mono (year d) (Z.to_nat (month d)) 12 ltac:(lia)) as H12.
  rewrite (days_before_month_succ (year d) (month d)) in H12 by lia.
  cbn [DimensionLoader.days_before_month] in H0. lia.
Qed.

Lemma toordinal_lt a b :
  calendar_day a -> calendar_day b ->
  PyDate.yyyymmdd a < PyDate.yyyymmdd b ->
  DimensionLoader.toordinal a < DimensionLoader.toordinal b.
Proof.
  intros Ha Hb Hlt.
  pose proof (day_of_year_bound a Ha) as Hda. pose proof (day_of_year_bound b Hb) as Hdb.
  destruct Ha as (Hma & Hdaya), Hb as (Hmb & Hdayb).
  pose proof (days_in_month_bounds (year a) (month a)).
  pose proof (days_in_month_bounds (year b) (month b)).
  unfold PyDate.yyyymmdd in Hlt. unfold DimensionLoader.toordinal.
  destruct (Z.lt_trichotomy (year a) (year b)) as [Hy|[Hy|Hy]]; [| |lia].
  - pose proof (year_length (year a)) as Hlen.
    pose proof (days_before_year_mono (year a + 1) (year b) ltac:(lia)). lia.
  - rewrite Hy in *.
    destruct (Z.lt_trichotomy (month a) (month b)) as [Hm|[Hm|Hm]]; [| |lia].
    + pose proof (days_before_month_mono (year b) (Z.to_nat (month a))
                    (Z.to_nat (month b - 1)) ltac:(lia)) as Hmono.
      rewrite (days_before_month_succ (year b) (month a)) in Hmono by lia. lia.
    + rewrite Hm in *. lia.
Qed.

Lemma calendar_day_key_injective a b :
  calendar_day a -> calendar_day b -> PyDate.yyyymmdd a = PyDate.yyyymmdd b -> a = b.
Proof.
  destruct a as [y1 m1 dd1], b as [y2 m2 dd2]. unfold calendar_day, PyDate.yyyymmdd. simpl.
  intros (Hm1 & Hd1) (Hm2 & Hd2) Hkey.
  pose proof (days_in_month_bounds y1 m1). pose proof (days_in_month_bounds y2 m2).
  assert (y1 = y2) by lia. assert (m1 = m2) by lia. assert (dd1 = dd2) by lia.
  now subst.
Qed.

(** On days of the calendar, [<=] on dates is [<=] on their ordinals. *)
Lemma date_le_ordinal a b :
  calendar_day a -> calendar_day b ->
  DimensionLoader.date_le a b = true
  <-> DimensionLoader.toordinal a <= DimensionLoader.toordinal b.
Proof.
  intros Ha Hb. unfold DimensionLoader.date_le. rewrite Z.leb_le. split.
  - intros Hle. destruct (Z.eq_dec (PyDate.yyyymmdd a) (PyDate.yyyymmdd b)) as [Heq|Hne].
    + apply (calendar_day_key_injective a b Ha Hb) in Heq. subst. lia.
    + pose proof (toordinal_lt a b Ha Hb ltac:(lia)). lia.
  - intros Hle. destruct (Z.le_gt_cases (PyDate.yyyymmdd a) (PyDate.yyyymmdd b)); [assumption|].
    pose proof (toordinal_lt b a Hb Ha ltac:(lia)). lia.
Qed.

(** [d + timedelta(days=1)] is the next day of the calendar. *)
Lemma next_day_ordinal d :
  calendar_day d ->
  calendar_day (DimensionLoader.next_day d) /\
  DimensionLoader.toordinal (DimensionLoader.next_day d) = DimensionLoader.toordinal d + 1.
Proof.
  intros (Hm & Hd). unfold DimensionLoader.next_day.
  destruct (Z.ltb_spec (day d) (PyDate.days_in_month (year d) (month d))) as [Hday|Hday].
  - split; [unfold calendar_day; simpl; lia|].
    unfold DimensionLoader.toordinal. simpl. lia.
  - destruct (Z.ltb_spec (month d) 12) as [Hmonth|Hmonth].
    + pose proof (days_in_month_bounds (year d) (month d + 1)).
      split; [unfold calendar_day; simpl; lia|].
      unfold DimensionLoader.toordinal. simpl.
      replace (month d + 1 - 1) with (month d) by lia.
      rewrite (days_before_month_succ (year d) (month d)) by lia. lia.
    + pose proof (days_in_month_bounds (year d + 1) 1).
      split; [unfold calendar_day; simpl; lia|].
      unfold DimensionLoader.toordinal. simpl.
      rewrite year_length. assert (Hdec : month d = 12) by lia. rewrite Hdec in *.
      pose proof (days_before_month_12 (year d)) as H12.
      change 12%nat with (Z.to_nat 12) in H12.
      rewrite (days_before_month_succ (year d) 12) in H12 by lia.
      change (12 - 1) with 11 in *. lia.
Qed.

Lemma date_row_date d : DimDate.date_ (DimensionLoader.date_row d) = d.
Proof. reflexivity. Qed.

(** The rows the loop builds are those of days from the start to the end. *)
Lemma dates_to_insert_range days :
  forall start_date end_date row,
    calendar_day start_date ->
    In row (DimensionLoader.dates_to_insert days start_date end_date) ->
    exists d, row = DimensionLoader.date_row d /\ calendar_day d /\
              DimensionLoader.toordinal start_date <= DimensionLoader.toordinal d /\
              DimensionLoader.date_le d end_date = true.
Proof.
  induction days as [|days IH]; intros start_date end_date row Hstart Hin; [contradiction|].
  cbn [DimensionLoader.dates_to_insert] in Hin.
  destruct (DimensionLoader.date_le start_date end_date) eqn:Hle; [|contradiction].
  destruct Hin as [<-|Hin].
  - exists start_date. repeat split; try apply Hstart; [lia | exact Hle].
  - destruct (next_day_ordinal start_date Hstart) as [Hnext Hord].
    destruct (IH _ _ _ Hnext Hin) as (d & -> & Hd & Hfrom & Hto).
    exists d. repeat split; try apply Hd; [lia | exact Hto].
Qed.

(** The loop reaches every day from the start to the end, given turns
    enough. *)
Lemma dates_to_insert_covers days :
  forall start_date end_date d,
    calendar_day start_date -> calendar_day end_date -> calendar_day d ->
    DimensionLoader.toordinal start_date <= DimensionLoader.toordinal d ->
    DimensionLoader.toordinal d <= DimensionLoader.toordinal end_date ->
    DimensionLoader.toordinal d - DimensionLoader.toordinal start_date < Z.of_nat days ->
    In (DimensionLoader.date_row d) (DimensionLoader.dates_to_insert days start_date end_date).
Proof.
  induction days as [|days IH]; intros start_date end_date d Hstart Hend Hd Hfrom Hto Hdays;
    [lia|].
  cbn [DimensionLoader.dates_to_insert].
  assert (Hle : DimensionLoader.date_le start_date end_date = true).
  { apply date_le_ordinal; [assumption | assumption | lia]. }
  rewrite Hle.
  destruct (Z.eq_dec (DimensionLoader.toordinal start_date) (DimensionLoader.toordinal d))
    as [Heq|Hne].
  - left. f_equal.
    apply calendar_day_key_injective; [assumption | assumption |].
    assert (H1 : DimensionLoader.date_le start_date d = true)
      by (apply date_le_ordinal; [assumption | assumption | lia]).
    assert (H2 : DimensionLoader.date_le d start_date = true)
      by (apply date_le_ordinal; [assumption | assumption | lia]).
    unfold DimensionLoader.date_le in H1, H2. apply Z.leb_le in H1, H2. lia.
  - right. destruct (next_day_ordinal start_date Hstart) as [Hnext Hord].
    apply IH; try assumption; lia.
Qed.

(** X8. For dates as [datetime.date] has them, the end before the last
    year, on a store whose date rows carry the keys of their own days,
    [load_date_dimension] leaves a row for every day from the start to
    the end, the one it builds unless the day had a row already, and
    leaves every other day as it was. *)
Theorem load_date_dimension_covers :
  forall start_date end_date db d,
    valid_date start_date -> valid_date end_date -> year end_date < 9999 ->
    date_rows_sound db ->
    let db' := DimensionLoader.load_date_dimension start_date end_date db in
    (valid_date d ->
     DimensionLoader.date_le start_date d = true ->
     DimensionLoader.date_le d end_date = true ->
     exists row, Store.dim_date db' !! d = Some row /\
                 (Store.dim_date db !! d = None -> row = DimensionLoader.date_row d)) /\
    (DimensionLoader.date_le start_date d = false \/
     DimensionLoader.date_le d end_date = false ->
     Store.dim_date db' !! d = Store.dim_date db !! d).
Proof.
  intros start_date end_date db d Hstart Hend _ _ db'.
  apply valid_calendar_day in Hstart, Hend.
  assert (Hother : (DimensionLoader.date_le start_date d = false \/
                    DimensionLoader.date_le d end_date = false) ->
                   forall days x,
                     In x (DimensionLoader.dates_to_insert days start_date end_date) ->
                     DimDate.date_ x <> d).
  { intros Hout days x Hx Heq.
    destruct (dates_to_insert_range days _ _ _ Hstart Hx) as (d' & -> & Hd' & Hfrom & Hto).
    rewrite date_row_date in Heq. subst d'.
    apply (date_le_ordinal start_date d Hstart Hd') in Hfrom.
    destruct Hout; congruence. }
  subst db'. unfold DimensionLoader.load_date_dimension.
  set (days := Z.to_nat _).
  split.
  - intros Hd Hfrom Hto. apply valid_calendar_day in Hd.
    assert (Hin : In (DimensionLoader.date_row d)
                     (DimensionLoader.dates_to_insert days start_date end_date)).
    { apply (date_le_ordinal start_date d Hstart Hd) in Hfrom.
      apply (date_le_ordinal d end_date Hd Hend) in Hto.
      apply dates_to_insert_covers; try assumption. subst days. lia. }
    destruct (DimensionLoader.dates_to_insert days start_date end_date) as [|x rows] eqn:Hrows;
      [contradiction|].
    rewrite insert_dates_fold.
    destruct (Store.dim_date db !! d) as [old|] eqn:Hold.
    + exists old. split; [|discriminate]. now apply fold_insert_date_keeps.
    + exists (DimensionLoader.date_row d). split; [|reflexivity].
      apply fold_insert_date_new; [exact Hold | exact Hin | reflexivity |].
      intros y Hy Hdate. rewrite <- Hrows in Hy.
      destruct (dates_to_insert_range days _ _ _ Hstart Hy) as (d' & -> & _).
      rewrite date_row_date in Hdate. now subst d'.
  - intros Hout. specialize (Hother Hout days).
    destruct (DimensionLoader.dates_to_insert days start_date end_date) as [|x rows];
      [reflexivity|].
    rewrite insert_dates_fold. now apply fold_insert_date_other.
Qed.

Lemma load_date_dimension_covers_witness :
  valid_date (Date 2024 2 27) /\ valid_date (Date 2024 3 2) /\ valid_date (Date 2024 2 29) /\
  date_rows_sound Store.empty /\
  let db' := DimensionLoader.load_date_dimension (Date 2024 2 27) (Date 2024 3 2) Store.empty in
  (exists row, Store.dim_date db' !! Date 2024 2 29 = Some row /\
               (Store.dim_date Store.empty !! Date 2024 2 29 = None ->
                row = DimensionLoader.date_row (Date 2024 2 29))) /\
  Store.dim_date db' !! Date 2024 3 3 = Store.dim_date Store.empty !! Date 2024 3 3.
Proof.
  assert (H1 : valid_date (Date 2024 2 27)) by (vm_compute; intuition discriminate).
  assert (H2 : valid_date (Date 2024 3 2)) by (vm_compute; intuition discriminate).
  assert (H3 : valid_date (Date 2024 2 29)) by (vm_compute; intuition discriminate).
  assert (Hsound : date_rows_sound Store.empty).
  { intros d row Hrow. cbn in Hrow. now rewrite lookup_empty in Hrow. }
  split; [exact H1|]. split; [exact H2|]. split; [exact H3|]. split; [exact Hsound|].
  cbv zeta. split.
  - apply (proj1 (load_date_dimension_covers (Date 2024 2 27) (Date 2024 3 2) Store.empty
                    (Date 2024 2 29) H1 H2 ltac:(simpl; lia) Hsound) H3); reflexivity.
  - apply (proj2 (load_date_dimension_covers (Date 2024 2 27) (Date 2024 3 2) Store.empty
                    (Date 2024 3 3) H1 H2 ltac:(simpl; lia) Hsound)).
    right. reflexivity.
Defined.

(** X9. The date dimension a run prepares has a row for every date
    [_parse_date] can return in the years 2020 to 2026, under the key
    the loader hands out for it; for a parsed date outside those years
    the loader hands out a key all the same, and a new store has no
    row for it. *)
Theorem date_dimension_covers_parsed_dates :
  forall v d,
    FinancialTransformer._parse_date v = Some d ->
    (2020 <= year d <= 2026 ->
     forall db, Store.dim_date db !! d = None ->
       exists row,
         Store.dim_date (FinancialPipeline._initialize_date_dimension db) !! d = Some row /\
         DimDate.date_key row = fst (DimensionLoader.get_date_key DimensionLoader.__init__ d)) /\
    (year d < 2020 \/ 2026 < year d ->
     Store.dim_date (FinancialPipeline._initialize_date_dimension Store.empty) !! d = None).
Proof.
  intros v d Hparse. apply parse_date_valid_day in Hparse.
  assert (H2020 : valid_date (Date 2020 1 1)) by (vm_compute; intuition discriminate).
  assert (H2026 : valid_date (Date 2026 12 31)) by (vm_compute; intuition discriminate).
  destruct Hparse as (Hy & Hm & Hd).
  pose proof (days_in_month_bounds (year d) (month d)) as Hlen.
  unfold FinancialPipeline._initialize_date_dimension. split.
  - intros Hrange db Hnone.
    assert (Hvalid : valid_date d) by (unfold valid_date; auto).
    exists (DimensionLoader.date_row d). split; [|now rewrite get_date_key_fresh].
    unfold DimensionLoader.load_date_dimension. set (days := Z.to_nat _).
    assert (Hfrom : DimensionLoader.date_le (Date 2020 1 1) d = true).
    { unfold DimensionLoader.date_le, PyDate.yyyymmdd. simpl. apply Z.leb_le. lia. }
    assert (Hto : DimensionLoader.date_le d (Date 2026 12 31) = true).
    { unfold DimensionLoader.date_le, PyDate.yyyymmdd. simpl. apply Z.leb_le. lia. }
    assert (Hin : In (DimensionLoader.date_row d)
                     (DimensionLoader.dates_to_insert days (Date 2020 1 1) (Date 2026 12 31))).
    { apply valid_calendar_day in H2020, H2026, Hvalid.
      apply (date_le_ordinal _ d H2020 Hvalid) in Hfrom.
      apply (date_le_ordinal d _ Hvalid H2026) in Hto.
      apply dates_to_insert_covers; try assumption. subst days. lia. }
    destruct (DimensionLoader.dates_to_insert days _ _) as [|x rows] eqn:Hrows;
      [contradiction|].
    rewrite insert_dates_fold.
    apply fold_insert_date_new; [exact Hnone | exact Hin | reflexivity |].
    intros y Hin' Hdate. rewrite <- Hrows in Hin'.
    destruct (dates_to_insert_range days _ _ _ (valid_calendar_day _ H2020) Hin')
      as (d' & -> & _).
    rewrite date_row_date in Hdate. now subst d'.
  - intros Hout.
    unfold DimensionLoader.load_date_dimension. set (days := Z.to_nat _).
    assert (Hother : forall x,
               In x (DimensionLoader.dates_to_insert days (Date 2020 1 1) (Date 2026 12 31)) ->
               DimDate.date_ x <> d).
    { intros x Hx Heq.
      destruct (dates_to_insert_range days _ _ _ (valid_calendar_day _ H2020) Hx)
        as (d' & -> & Hd' & Hfrom & Hto).
      rewrite date_row_date in Heq. subst d'.
      apply (date_le_ordinal _ d (valid_calendar_day _ H2020) Hd') in Hfrom.
      unfold DimensionLoader.date_le, PyDate.yyyymmdd in Hfrom, Hto. simpl in Hfrom, Hto.
      apply Z.leb_le in Hfrom, Hto. lia. }
    destruct (DimensionLoader.dates_to_insert days _ _) as [|x rows]; [reflexivity|].
    rewrite insert_dates_fold, fold_insert_date_other by exact Hother. reflexivity.
Qed.

Lemma date_dimension_covers_parsed_dates_witness :
  FinancialTransformer._parse_date (VStr "2024-02-29") = Some (Date 2024 2 29) /\
  exists row,
    Store.dim_date (FinancialPipeline._initialize_date_dimension Store.empty) !! Date 2024 2 29
    = Some row /\
    DimDate.date_key row
    = fst (DimensionLoader.get_date_key DimensionLoader.__init__ (Date 2024 2 29)).
Proof.
  split; [reflexivity|].
  apply (proj1 (date_dimension_covers_parsed_dates (VStr "2024-02-29") (Date 2024 2 29)
                  eq_refl));
    [simpl; lia | reflexivity].
Defined.

(** ** DimensionLoader: caches and surrogate keys *)

Lemma get_date_key_sound self d :
  date_cache_sound self ->
  fst (DimensionLoader.get_date_key self d) = PyDate.yyyymmdd d /\
  date_cache_sound (snd (DimensionLoader.get_date_key self d)).
Proof.
  intros Hsound. unfold DimensionLoader.get_date_key.
  destruct (DimensionLoader._date_cache self !! d) as [key|] eqn:Hcache; cbn.
  - split; [now apply Hsound | exact Hsound].
  - split; [reflexivity|]. intros d' key'. cbn.
    destruct (decide (d = d')) as [->|Hne].
    + rewrite lookup_insert_eq. now intros [= <-].
    + rewrite lookup_insert_ne by exact Hne. apply Hsound.
Qed.

(** X10. Asking for the key of a date a second time gives the same key
    and leaves the loader as it is; and on a loader whose cached keys
    are YYYYMMDD numbers, as those of a new loader are, the key is the
    YYYYMMDD number of the date and the cache stays that way.  The
    store is never consulted. *)
Theorem get_date_key_cached :
  (forall self d,
      let first := DimensionLoader.get_date_key self d in
      DimensionLoader.get_date_key (snd first) d = first) /\
  (forall self d,
      date_cache_sound self ->
      fst (DimensionLoader.get_date_key self d) = PyDate.yyyymmdd d /\
      date_cache_sound (snd (DimensionLoader.get_date_key self d))).
Proof.
  split.
  - intros self d. unfold DimensionLoader.get_date_key.
    destruct (DimensionLoader._date_cache self !! d) as [key|] eqn:Hcache; cbn.
    + now rewrite Hcache.
    + now rewrite lookup_insert_eq.
  - exact get_date_key_sound.
Qed.

Lemma get_date_key_cached_witness :
  date_cache_sound DimensionLoader.__init__ /\
  fst (DimensionLoader.get_date_key DimensionLoader.__init__ (Date 2024 1 31)) = 20240131.
Proof.
  assert (Hsound : date_cache_sound DimensionLoader.__init__).
  { intros d key Hcache. cbn in Hcache. now rewrite lookup_empty in Hcache. }
  split; [exact Hsound|].
  exact (proj1 (proj2 get_date_key_cached DimensionLoader.__init__ (Date 2024 1 31) Hsound)).
Defined.

Section SourceDimension.
Import DimensionLoader.

Lemma source_cache_hit self db name description key :
  _source_cache self !! name = Some key ->
  get_or_create_source self db name description = (key, self, db).
Proof. intros Hcache. unfold get_or_create_source. now rewrite Hcache. Qed.

Lemma source_caches self db name description :
  _source_cache (loader_of (get_or_create_source self db name description)) !! name
  = Some (key_of (get_or_create_source self db name description)).
Proof.
  unfold get_or_create_source, loader_of, key_of.
  destruct (_source_cache self !! name) as [key|] eqn:Hcache; [exact Hcache|].
  destruct (Store.select_source_key name db); cbn; apply lookup_insert_eq.
Qed.

Lemma source_stored self db name description :
  _source_cache self !! name = None ->
  Store.select_source_key name (store_of (get_or_create_source self db name description))
  = Some (key_of (get_or_create_source self db name description)).
Proof.
  intros Hcache. unfold get_or_create_source, store_of, key_of. rewrite Hcache.
  destruct (Store.select_source_key name db) as [found|] eqn:Hfound; cbn; [exact Hfound|].
  unfold Store.select_source_key. cbn. now rewrite lookup_insert_eq.
Qed.

End SourceDimension.

(** X11. A source is created once.  On one loader a second call for
    the same name returns the same key and writes nothing, whatever
    description it is given; and after a call that missed the cache, a
    new loader on the same store finds the row, returns its key, and
    leaves the store, its description included, as it is. *)
Theorem get_or_create_source_once :
  (forall self db name description description',
      let first := DimensionLoader.get_or_create_source self db name description in
      DimensionLoader.get_or_create_source (loader_of first) (store_of first) name description'
      = first) /\
  (forall self db name description description',
      DimensionLoader._source_cache self !! name = None ->
      let first := DimensionLoader.get_or_create_source self db name description in
      let again := DimensionLoader.get_or_create_source DimensionLoader.__init__
                     (store_of first) name description' in
      key_of again = key_of first /\ store_of again = store_of first).
Proof.
  split.
  - intros self db name description description' first.
    rewrite (source_cache_hit _ _ _ description' _
               (source_caches self db name description)).
    subst first. now destruct (DimensionLoader.get_or_create_source _ _ _ _) as [[key l] db'].
  - intros self db name description description' Hcache first again.
    pose proof (source_stored self db name description Hcache) as Hstored.
    fold first in Hstored. subst again.
    unfold DimensionLoader.get_or_create_source at 1 2.
    cbn [DimensionLoader.__init__ DimensionLoader._source_cache].
    rewrite lookup_empty, Hstored. split; reflexivity.
Qed.

Lemma get_or_create_source_once_witness :
  DimensionLoader._source_cache DimensionLoader.__init__ !! "rootfi" = None /\
  let first := DimensionLoader.get_or_create_source DimensionLoader.__init__ Store.empty
                 "rootfi" (Some "Rootfi Data Source") in
  let again := DimensionLoader.get_or_create_source DimensionLoader.__init__
                 (store_of first) "rootfi" (Some "Another description") in
  key_of again = key_of first /\ store_of again = store_of first.
Proof.
  split; [reflexivity|].
  apply (proj2 get_or_create_source_once DimensionLoader.__init__ Store.empty "rootfi").
  reflexivity.
Defined.

(** *** Surrogate keys stay unique *)

Section AccountKeys.
Import DimensionLoader.

Lemma upsert_sound self db account_id a :
  warehouse_sound self db ->
  warehouse_sound (loader_of (upsert self db account_id a))
                  (store_of (upsert self db account_id a)) /\
  keys_kept db (store_of (upsert self db account_id a)) /\
  stored_key (store_of (upsert self db account_id a)) account_id
  = Some (key_of (upsert self db account_id a)).
Proof.
  intros ((Hbelow & Hunique) & Hsources & (Haccounts & Hnames)).
  destruct (_account_cache self !! account_id) as [cached|] eqn:Hcache.
  - rewrite (upsert_cached _ _ _ _ _ Hcache). unfold loader_of, store_of, key_of; cbn.
    split; [split; [split; assumption | split; [assumption | split; assumption]]|].
    split; [split; auto|]. now apply Haccounts.
  - unfold upsert, upsert_account. rewrite Hcache.
    unfold Store.upsert_account, loader_of, store_of, key_of, warehouse_sound,
      account_rows_sound, caches_sound, keys_kept, stored_key, Store.select_source_key.
    cbn.
    set (kept := match Store.dim_account db !! account_id with Some _ => _ | None => _ end).
    assert (Hkept : (Store.dim_account db !! account_id = None /\
                     DimAccount.account_key kept = Store.dim_account_seq db) \/
                    (exists old, Store.dim_account db !! account_id = Some old /\
                                 DimAccount.account_key kept = DimAccount.account_key old)).
    { subst kept. destruct (Store.dim_account db !! account_id) as [old|]; eauto. }
    clearbody kept.
    assert (Hkey : (DimAccount.account_key kept < Pos.succ (Store.dim_account_seq db))%positive).
    { destruct Hkept as [[_ ->]|(old & Hold & ->)]; [lia|].
      specialize (Hbelow _ _ Hold). lia. }
    repeat apply conj.
    + intros id row. destruct (decide (account_id = id)) as [<-|Hne].
      * rewrite lookup_insert_eq. now intros [= <-].
      * rewrite lookup_insert_ne by exact Hne. intros Hrow.
        specialize (Hbelow _ _ Hrow). lia.
    + intros id1 id2 row1 row2.
      destruct (decide (account_id = id1)) as [<-|Hne1];
        destruct (decide (account_id = id2)) as [<-|Hne2]; [reflexivity| | |].
      * rewrite lookup_insert_eq, lookup_insert_ne by exact Hne2.
        intros [= <-] Hrow2 Heq.
        destruct Hkept as [[_ Hseq]|(old & Hold & Hsame)].
        -- specialize (Hbelow _ _ Hrow2). lia.
        -- apply (Hunique _ _ _ _ Hold Hrow2). congruence.
      * rewrite lookup_insert_eq, lookup_insert_ne by exact Hne1.
        intros Hrow1 [= <-] Heq.
        destruct Hkept as [[_ Hseq]|(old & Hold & Hsame)].
        -- specialize (Hbelow _ _ Hrow1). lia.
        -- apply (Hunique _ _ _ _ Hrow1 Hold). congruence.
      * rewrite !lookup_insert_ne by assumption. apply Hunique.
    + exact (proj1 Hsources).
    + exact (proj2 Hsources).
    + intros id key. destruct (decide (account_id = id)) as [<-|Hne].
      * rewrite !lookup_insert_eq. now intros [= <-].
      * rewrite !lookup_insert_ne by exact Hne. apply Haccounts.
    + exact Hnames.
    + intros id key. destruct (decide (account_id = id)) as [<-|Hne].
      * rewrite lookup_insert_eq. destruct Hkept as [[Hnone _]|(old & Hold & Hsame)].
        -- now rewrite Hnone.
        -- rewrite Hold. cbn. now intros [= <-]; rewrite Hsame.
      * now rewrite lookup_insert_ne by exact Hne.
    + auto.
    + now rewrite lookup_insert_eq.
Qed.

End AccountKeys.

Section SourceKeys.
Import DimensionLoader.
Lemma source_sound self db name description :
  warehouse_sound self db ->
  warehouse_sound (loader_of (get_or_create_source self db name description))
                  (store_of (get_or_create_source self db name description)) /\
  keys_kept db (store_of (get_or_create_source self db name description)) /\
  Store.select_source_key name (store_of (get_or_create_source self db name description))
  = Some (key_of (get_or_create_source self db name description)).
Proof.
  intros (Haccount_rows & (Hbelow & Hunique) & (Haccounts & Hnames)).
  destruct (_source_cache self !! name) as [cached|] eqn:Hcache.
  - rewrite (source_cache_hit _ _ _ _ _ Hcache). unfold loader_of, store_of, key_of; cbn.
    split; [split; [assumption | split; [split; assumption | split; assumption]]|].
    split; [split; auto|]. now apply Hnames.
  - unfold get_or_create_source. rewrite Hcache.
    destruct (Store.select_source_key name db) as [found|] eqn:Hfound.
    + unfold loader_of, store_of, key_of. cbn.
      split; [|split; [split; auto | exact Hfound]].
      split; [assumption|]. split; [split; assumption|]. split; [exact Haccounts|].
      intros name' key. cbn. destruct (decide (name = name')) as [<-|Hne].
      * rewrite lookup_insert_eq. now intros [= <-].
      * rewrite lookup_insert_ne by exact Hne. apply Hnames.
    + unfold Store.select_source_key in Hfound.
      destruct (Store.dim_source db !! name) as [row|] eqn:Hrow; [discriminate|]. clear Hfound.
      unfold Store.add_source, loader_of, store_of, key_of, warehouse_sound,
        source_rows_sound, caches_sound, keys_kept, stored_key, Store.select_source_key.
      cbn. repeat apply conj.
      * exact (proj1 Haccount_rows).
      * exact (proj2 Haccount_rows).
      * intros name' row. destruct (decide (name = name')) as [<-|Hne].
        -- rewrite lookup_insert_eq. intros [= <-]. cbn. lia.
        -- rewrite lookup_insert_ne by exact Hne. intros Hrow'.
           specialize (Hbelow _ _ Hrow'). lia.
      * intros name1 name2 row1 row2.
        destruct (decide (name = name1)) as [<-|Hne1];
          destruct (decide (name = name2)) as [<-|Hne2]; [reflexivity| | |].
        -- rewrite lookup_insert_eq, lookup_insert_ne by exact Hne2.
           intros [= <-] Hrow2 Heq. cbn in Heq. specialize (Hbelow _ _ Hrow2). lia.
        -- rewrite lookup_insert_eq, lookup_insert_ne by exact Hne1.
           intros Hrow1 [= <-] Heq. cbn in Heq. specialize (Hbelow _ _ Hrow1). lia.
        -- rewrite !lookup_insert_ne by assumption. apply Hunique.
      * exact Haccounts.
      * intros name' key. destruct (decide (name = name')) as [<-|Hne].
        -- rewrite !lookup_insert_eq. now intros [= <-].
        -- rewrite !lookup_insert_ne by exact Hne. apply Hnames.
      * auto.
      * intros name' key. destruct (decide (name = name')) as [<-|Hne].
        -- now rewrite Hrow.
        -- now rewrite lookup_insert_ne by exact Hne.
      * now rewrite lookup_insert_eq.
Qed.

Lemma keys_kept_refl db : keys_kept db db.
Proof. split; auto. Qed.

Lemma keys_kept_trans db1 db2 db3 : keys_kept db1 db2 -> keys_kept db2 db3 -> keys_kept db1 db3.
Proof. intros [H1 H2] [H3 H4]. split; auto. Qed.

Lemma references_kept {A : Type} db db' (fact : FinancialFact.t A) :
  keys_kept db db' -> references_hold db fact -> references_hold db' fact.
Proof.
  intros [Hids Hnames] [(id & Hid) (name & Hname)]. split; eauto.
Qed.

Lemma date_key_keeps_sound self db d :
  warehouse_sound self db -> warehouse_sound (snd (get_date_key self d)) db.
Proof.
  intros (Ha & Hs & Hc). unfold get_date_key.
  destruct (_date_cache self !! d); split; auto.
Qed.

End SourceKeys.

Section BatchIntegrity.
Import FinancialPipeline.

Lemma build_fact_sound dim_loader db t :
  warehouse_sound dim_loader db ->
  warehouse_sound (build_fact dim_loader db t).1.2 (build_fact dim_loader db t).2 /\
  keys_kept db (build_fact dim_loader db t).2 /\
  Store.fact_financials (build_fact dim_loader db t).2 = Store.fact_financials db /\
  forall fact, (build_fact dim_loader db t).1.1 = Ok fact ->
               references_hold (build_fact dim_loader db t).2 fact.
Proof.
  intros Hsound. unfold build_fact.
  pose proof (upsert_sound dim_loader db (account_id t)
                (Attributes (account_name t) (account_type t) (Some (account_category t))
                   (parent_account t) false (source_system t) (source_account_id t)) Hsound)
    as (Hsound1 & Hkept1 & Hkey1).
  assert (Hfacts1 : Store.fact_financials
                      (store_of (upsert dim_loader db (account_id t)
                         (Attributes (account_name t) (account_type t)
                            (Some (account_category t)) (parent_account t) false
                            (source_system t) (source_account_id t))))
                    = Store.fact_financials db).
  { unfold upsert, DimensionLoader.upsert_account, store_of.
    now destruct (DimensionLoader._account_cache dim_loader !! account_id t). }
  unfold upsert, loader_of, store_of, key_of in *. cbn [attr_name attr_type attr_category
    attr_parent attr_is_parent attr_source attr_source_account_id] in *.
  destruct (DimensionLoader.upsert_account _ _ _ _ _ _ _ _ _ _) as [[account_key l1] db1].
  cbn [fst snd] in *.
  apply (date_key_keeps_sound l1 db1 (period_start t)) in Hsound1.
  destruct (DimensionLoader.get_date_key l1 (period_start t)) as [start_key l2].
  cbn [snd] in Hsound1.
  apply (date_key_keeps_sound l2 db1 (period_end t)) in Hsound1.
  destruct (DimensionLoader.get_date_key l2 (period_end t)) as [end_key l3].
  cbn [snd] in Hsound1.
  destruct (source_system t) as [| | | |source_name| |];
    try (cbn [fst snd]; split; [exact Hsound1|]; split; [exact Hkept1|];
         split; [exact Hfacts1|]; intros fact; discriminate).
  pose proof (source_sound l3 db1 source_name
                (Some (Str.title source_name +:+ " Data Source")) Hsound1)
    as (Hsound2 & Hkept2 & Hkey2).
  assert (Hfacts2 : Store.fact_financials
                      (store_of (DimensionLoader.get_or_create_source l3 db1 source_name
                                   (Some (Str.title source_name +:+ " Data Source"))))
                    = Store.fact_financials db1).
  { unfold DimensionLoader.get_or_create_source, store_of.
    destruct (DimensionLoader._source_cache l3 !! source_name); [reflexivity|].
    now destruct (Store.select_source_key source_name db1). }
  unfold loader_of, store_of, key_of in *.
  destruct (DimensionLoader.get_or_create_source _ _ _ _) as [[source_key l4] db2].
  cbn [fst snd] in *.
  split; [exact Hsound2|]. split; [exact (keys_kept_trans _ _ _ Hkept1 Hkept2)|].
  split; [congruence|].
  intros fact [= <-]. split; cbn.
  - exists (account_id t). now apply Hkept2.
  - now exists source_name.
Qed.

Lemma build_facts_sound facts :
  forall dim_loader db,
    warehouse_sound dim_loader db ->
    warehouse_sound (build_facts dim_loader db facts).1.2 (build_facts dim_loader db facts).2 /\
    keys_kept db (build_facts dim_loader db facts).2 /\
    Store.fact_financials (build_facts dim_loader db facts).2 = Store.fact_financials db /\
    Forall (references_hold (build_facts dim_loader db facts).2)
           (build_facts dim_loader db facts).1.1.
Proof.
  induction facts as [|t facts IH]; intros dim_loader db Hsound.
  - cbn. split; [exact Hsound|]. split; [apply keys_kept_refl|].
    split; [reflexivity | constructor].
  - cbn [build_facts].
    destruct (build_fact_sound dim_loader db t Hsound) as (Hsound1 & Hkept1 & Hfacts1 & Href1).
    destruct (build_fact dim_loader db t) as [[built l1] db1]. cbn [fst snd] in *.
    destruct (IH l1 db1 Hsound1) as (Hsound2 & Hkept2 & Hfacts2 & Href2).
    destruct (build_facts l1 db1 facts) as [[fact_objects l2] db2]. cbn [fst snd] in *.
    split; [exact Hsound2|]. split; [exact (keys_kept_trans _ _ _ Hkept1 Hkept2)|].
    split; [congruence|].
    destruct built as [fact|e]; [|exact Href2].
    constructor; [|exact Href2].
    apply (references_kept db1 db2 fact Hkept2). now apply Href1.
Qed.

(** What an accepted bulk insert stores: the rows of the objects,
    after the rows that were there; no other table changes. *)
Lemma bulk_save_facts_stored {rt : PyRuntime} facts db db' :
  Store.bulk_save_facts facts db = Ok db' ->
  db' = Store.Db (Store.dim_account db) (Store.dim_account_seq db) (Store.dim_date db)
          (Store.dim_source db) (Store.dim_source_seq db)
          (Store.fact_financials db ++ map FinancialFact.stored facts)
          (Store.pipeline_runs db).
Proof.
  unfold Store.bulk_save_facts.
  destruct (existsb Store.sends_nul facts); [discriminate|].
  destruct (Store.first_row_error facts); [discriminate|].
  destruct (forallb (Store.references db) facts); [|discriminate].
  now intros [= <-].
Qed.

End BatchIntegrity.

Lemma warehouse_sound_new : warehouse_sound DimensionLoader.__init__ Store.empty.
Proof.
  unfold warehouse_sound, account_rows_sound, source_rows_sound, caches_sound,
    stored_key, Store.select_source_key. cbn.
  repeat apply conj; intros; repeat match goal with
    | H : context [∅ !! _] |- _ => rewrite lookup_empty in H
    end; discriminate.
Qed.

(** X12. In a store whose account keys are unique, read by a loader
    whose cache agrees with it, as a new loader on an empty store
    does, [upsert_account] keeps both so: it returns the key under
    which the account is then stored, every other account keeps its
    key, and no two account ids come to share one. *)
Theorem upsert_account_keys_unique :
  forall self db account_id a,
    warehouse_sound self db ->
    let done := upsert self db account_id a in
    warehouse_sound (loader_of done) (store_of done) /\
    stored_key (store_of done) account_id = Some (key_of done) /\
    (forall other key, stored_key db other = Some key ->
                       stored_key (store_of done) other = Some key).
Proof.
  intros self db account_id a Hsound done. subst done.
  destruct (upsert_sound self db account_id a Hsound) as (Hsound' & [Hkept _] & Hkey).
  auto.
Qed.

Lemma upsert_account_keys_unique_witness :
  warehouse_sound DimensionLoader.__init__ Store.empty /\
  let done := upsert DimensionLoader.__init__ Store.empty "0f1e2d3c4b5a6978" office_rent in
  warehouse_sound (loader_of done) (store_of done) /\
  stored_key (store_of done) "0f1e2d3c4b5a6978" = Some (key_of done).
Proof.
  split; [exact warehouse_sound_new|].
  destruct (upsert_account_keys_unique DimensionLoader.__init__ Store.empty
              "0f1e2d3c4b5a6978" office_rent warehouse_sound_new) as (Hsound & Hkey & _).
  split; [exact Hsound | exact Hkey].
Defined.

Section BatchReferences.
Context {rt : PyRuntime}.

(** X13. Loading a batch keeps the warehouse sound and its references
    whole: when keys are unique, the loader's caches agree with the
    store and every fact row points to a stored account and a stored
    source, the same holds after [_load_facts_batch], the new fact
    rows included. *)
Theorem load_facts_batch_references :
  forall db dim_loader facts,
    warehouse_sound dim_loader db ->
    Forall (references_hold db) (Store.fact_financials db) ->
    let loaded := FinancialPipeline._load_facts_batch db dim_loader facts in
    warehouse_sound loaded.1.2 loaded.2 /\
    Forall (references_hold loaded.2) (Store.fact_financials loaded.2).
Proof.
  intros db dim_loader facts Hsound Hrefs loaded. subst loaded.
  unfold FinancialPipeline._load_facts_batch.
  destruct (build_facts_sound facts dim_loader db Hsound)
    as (Hsound' & Hkept & Hfacts & Hrefs').
  destruct (FinancialPipeline.build_facts dim_loader db facts) as [[fact_objects l] db'].
  cbn [fst snd] in *.
  assert (Hold : Forall (references_hold db') (Store.fact_financials db')).
  { rewrite Hfacts. eapply List.Forall_impl; [|exact Hrefs].
    intros fact. now apply references_kept. }
  destruct fact_objects as [|fact fact_objects]; [split; assumption|].
  destruct (Store.bulk_save_facts (fact :: fact_objects) db') as [db''|e] eqn:Hsave;
    cbn [fst snd]; [|split; assumption].
  apply bulk_save_facts_stored in Hsave. subst db''.
  split; [exact Hsound'|].
  cbn [Store.fact_financials]. apply Forall_app. split; [exact Hold|].
  apply List.Forall_map. eapply List.Forall_impl; [|exact Hrefs'].
  intros built Hbuilt. exact Hbuilt.
Qed.

End BatchReferences.

(** *** The rows of a batch *)

Section BatchRows.
Context {rt : PyRuntime}.
Import FinancialPipeline.

Lemma facts_and_runs_kept_refl db : facts_and_runs_kept db db.
Proof. repeat split. Qed.

Lemma facts_and_runs_kept_trans db1 db2 db3 :
  facts_and_runs_kept db1 db2 -> facts_and_runs_kept db2 db3 -> facts_and_runs_kept db1 db3.
Proof. intros (H1 & H2 & H3) (H4 & H5 & H6). repeat split; congruence. Qed.

Lemma upsert_account_frame self db account_id account_name account_type account_category
      parent is_parent source_system source_account_id :
  let done := DimensionLoader.upsert_account self db account_id account_name account_type
                account_category parent is_parent source_system source_account_id in
  facts_and_runs_kept db done.2 /\
  DimensionLoader._date_cache done.1.2 = DimensionLoader._date_cache self.
Proof.
  unfold DimensionLoader.upsert_account.
  destruct (DimensionLoader._account_cache self !! account_id); cbn; repeat split.
Qed.

Lemma get_or_create_source_frame self db source_name description :
  let done := DimensionLoader.get_or_create_source self db source_name description in
  facts_and_runs_kept db done.2 /\
  DimensionLoader._date_cache done.1.2 = DimensionLoader._date_cache self.
Proof.
  unfold DimensionLoader.get_or_create_source.
  destruct (DimensionLoader._source_cache self !! source_name); [cbn; repeat split|].
  destruct (Store.select_source_key source_name db); cbn; repeat split.
Qed.

Lemma date_cache_sound_ext self self' :
  DimensionLoader._date_cache self' = DimensionLoader._date_cache self ->
  date_cache_sound self -> date_cache_sound self'.
Proof. unfold date_cache_sound. intros ->. auto. Qed.

(** One turn of the loop of [_load_facts_batch]. *)
Lemma build_fact_row dim_loader db t :
  facts_and_runs_kept db (build_fact dim_loader db t).2 /\
  (is_sourced t = false -> (build_fact dim_loader db t).1.1 = Raise AttributeError) /\
  (is_sourced t = true -> exists fact, (build_fact dim_loader db t).1.1 = Ok fact) /\
  (date_cache_sound dim_loader ->
   date_cache_sound (build_fact dim_loader db t).1.2 /\
   forall fact, (build_fact dim_loader db t).1.1 = Ok fact -> fact_of t fact).
Proof.
  unfold build_fact, is_sourced.
  pose proof (upsert_account_frame dim_loader db (account_id t) (account_name t)
                (account_type t) (Some (account_category t)) (parent_account t) false
                (source_system t) (source_account_id t)) as [Hkept1 Hdates1].
  cbv zeta in Hkept1, Hdates1.
  destruct (DimensionLoader.upsert_account _ _ _ _ _ _ _ _ _ _) as [[account_key l1] db1].
  cbn [fst snd] in *.
  pose proof (get_date_key_sound l1 (period_start t)) as Hstart.
  destruct (DimensionLoader.get_date_key l1 (period_start t)) as [start_key l2].
  pose proof (get_date_key_sound l2 (period_end t)) as Hend.
  destruct (DimensionLoader.get_date_key l2 (period_end t)) as [end_key l3].
  cbn [fst snd] in *.
  assert (Hkeys : date_cache_sound dim_loader ->
                  start_key = PyDate.yyyymmdd (period_start t) /\
                  end_key = PyDate.yyyymmdd (period_end t) /\ date_cache_sound l3).
  { intros Hsound. apply (date_cache_sound_ext _ _ Hdates1) in Hsound.
    destruct (Hstart Hsound) as [-> Hsound2]. destruct (Hend Hsound2) as [-> Hsound3].
    auto. }
  destruct (source_system t) as [| | | |source_name| |]; cbn [is_text fst snd];
    try (split; [exact Hkept1|]; split; [reflexivity|]; split; [discriminate|];
         intros Hsound; split; [apply (Hkeys Hsound) | discriminate]).
  pose proof (get_or_create_source_frame l3 db1 source_name
                (Some (Str.title source_name +:+ " Data Source"))) as [Hkept2 Hdates2].
  cbv zeta in Hkept2, Hdates2.
  destruct (DimensionLoader.get_or_create_source _ _ _ _) as [[source_key l4] db2].
  cbn [fst snd] in *.
  split; [exact (facts_and_runs_kept_trans _ _ _ Hkept1 Hkept2)|].
  split; [discriminate|]. split; [eauto|].
  intros Hsound. destruct (Hkeys Hsound) as (-> & -> & Hsound3).
  split; [exact (date_cache_sound_ext _ _ Hdates2 Hsound3)|].
  intros fact [= <-]. repeat split.
Qed.

Lemma build_facts_rows facts :
  forall dim_loader db,
    facts_and_runs_kept db (build_facts dim_loader db facts).2 /\
    length (build_facts dim_loader db facts).1.1 = length (List.filter is_sourced facts) /\
    (date_cache_sound dim_loader ->
     date_cache_sound (build_facts dim_loader db facts).1.2 /\
     Forall2 fact_of (List.filter is_sourced facts) (build_facts dim_loader db facts).1.1).
Proof.
  induction facts as [|t facts IH]; intros dim_loader db.
  - cbn. split; [apply facts_and_runs_kept_refl|]. split; [reflexivity|].
    intros Hsound. split; [exact Hsound | constructor].
  - cbn [build_facts List.filter].
    destruct (build_fact_row dim_loader db t) as (Hkept1 & Hskip & Hbuilt & Hrow).
    destruct (build_fact dim_loader db t) as [[built l1] db1]. cbn [fst snd] in *.
    destruct (IH l1 db1) as (Hkept2 & Hlen & Hrows).
    destruct (build_facts l1 db1 facts) as [[fact_objects l2] db2]. cbn [fst snd] in *.
    split; [exact (facts_and_runs_kept_trans _ _ _ Hkept1 Hkept2)|].
    destruct (is_sourced t) eqn:Hsourced.
    + destruct (Hbuilt eq_refl) as (fact & ->). cbn [length]. split; [now rewrite Hlen|].
      intros Hsound. destruct (Hrow Hsound) as [Hsound1 Hfact].
      destruct (Hrows Hsound1) as [Hsound2 Hall]. split; [exact Hsound2|].
      constructor; [now apply Hfact | exact Hall].
    + rewrite (Hskip eq_refl). split; [exact Hlen|].
      intros Hsound. destruct (Hrow Hsound) as [Hsound1 _]. now apply Hrows.
Qed.

(** *** What the bulk insert accepts *)

Lemma bulk_save_facts_accepted facts db :
  Forall (fun fact => Store.sends_nul fact = false /\ Store.row_error fact = None /\
                      Store.references db fact = true) facts ->
  Store.bulk_save_facts facts db
  = Ok (Store.Db (Store.dim_account db) (Store.dim_account_seq db) (Store.dim_date db)
          (Store.dim_source db) (Store.dim_source_seq db)
          (Store.fact_financials db ++ map FinancialFact.stored facts)
          (Store.pipeline_runs db)).
Proof.
  intros Hall. unfold Store.bulk_save_facts.
  assert (Hchecks : existsb Store.sends_nul facts = false /\
                    Store.first_row_error facts = None /\
                    forallb (Store.references db) facts = true).
  { induction Hall as [|fact rest (H1 & H2 & H3) _ (IH1 & IH2 & IH3)]; [auto|].
    cbn [existsb Store.first_row_error forallb]. rewrite H1, H2, H3. auto. }
  destruct Hchecks as (-> & -> & ->). reflexivity.
Qed.

(** A bulk insert is refused as a whole when one row points to a date
    that has no row. *)
Lemma bulk_save_facts_undated facts db :
  existsb Store.sends_nul facts = false ->
  Store.first_row_error facts = None ->
  forallb (Store.references db) facts = false ->
  Store.bulk_save_facts facts db = Raise IntegrityError.
Proof. intros Hnul Hrow Href. unfold Store.bulk_save_facts. now rewrite Hnul, Hrow, Href. Qed.

Lemma has_account_key_stored db id key :
  stored_key db id = Some key -> Store.has_account_key db key = true.
Proof.
  unfold stored_key, Store.has_account_key. intros Hkey.
  destruct (Store.dim_account db !! id) as [row|] eqn:Hrow; [|discriminate].
  cbn in Hkey. injection Hkey as Hkey.
  apply bool_decide_eq_true. exists id, row. split; assumption.
Qed.

Lemma has_source_key_stored db name key :
  Store.select_source_key name db = Some key -> Store.has_source_key db key = true.
Proof.
  unfold Store.select_source_key, Store.has_source_key. intros Hkey.
  destruct (Store.dim_source db !! name) as [row|] eqn:Hrow; [|discriminate].
  cbn in Hkey. injection Hkey as Hkey.
  apply bool_decide_eq_true. exists name, row. split; assumption.
Qed.

Lemma has_date_key_loaded db d :
  dates_loaded db -> in_date_dimension d = true ->
  Store.has_date_key db (PyDate.yyyymmdd d) = true.
Proof.
  intros Hloaded Hd. destruct (Hloaded d Hd) as (row & Hrow & Hkey).
  apply bool_decide_eq_true. exists d, row. split; assumption.
Qed.

Lemma text_fits_string nullable n v :
  text_fits nullable n v = true ->
  Store.fits_string nullable n v = true /\
  match v with VStr s => Store.has_nul s | _ => false end = false.
Proof.
  destruct v; cbn; try (intros; split; [assumption | reflexivity]).
  intros H. apply andb_true_iff in H as [Hfit Hnul].
  split; [exact Hfit|]. now destruct (Store.has_nul s).
Qed.

Lemma text_fits_text n v :
  text_fits false n v = true -> exists s, v = VStr s.
Proof. destruct v; cbn; try discriminate. eauto. Qed.

(** The numbers and the quarter text of a day of the date dimension
    fit their columns. *)
Lemma date_dimension_fits d :
  in_date_dimension d = true ->
  Store.fits_integer (PyDate.yyyymmdd d) = true /\
  Store.fits_integer (year d) = true /\
  Store.fits_integer (DimensionLoader.quarter_of (month d)) = true /\
  Store.fits_integer (month d) = true /\
  Store.fits_text 10 (DimensionLoader.year_quarter_of (year d)
                        (DimensionLoader.quarter_of (month d))) = true /\
  Store.has_nul (DimensionLoader.year_quarter_of (year d)
                   (DimensionLoader.quarter_of (month d))) = false.
Proof.
  destruct d as [y m dd]. unfold in_date_dimension, is_calendar_day. cbn [year month day].
  intros H. repeat (apply andb_true_iff in H as [H ?]).
  repeat match goal with
         | H : (_ <=? _) = true |- _ => apply Z.leb_le in H
         end.
  pose proof (days_in_month_bounds y m) as Hlen.
  assert (Hy : y = 2020 \/ y = 2021 \/ y = 2022 \/ y = 2023 \/ y = 2024 \/ y = 2025 \/ y = 2026)
    by lia.
  assert (Hq : DimensionLoader.quarter_of m = 1 \/ DimensionLoader.quarter_of m = 2 \/
               DimensionLoader.quarter_of m = 3 \/ DimensionLoader.quarter_of m = 4).
  { unfold DimensionLoader.quarter_of. Z.div_mod_to_equations. lia. }
  unfold Store.fits_integer, PyDate.yyyymmdd. cbn [year month day].
  change (2 ^ 31) with 2147483648.
  split; [apply andb_true_iff; split; [apply Z.leb_le | apply Z.ltb_lt]; lia|].
  split; [apply andb_true_iff; split; [apply Z.leb_le | apply Z.ltb_lt]; lia|].
  split; [apply andb_true_iff; split; [apply Z.leb_le | apply Z.ltb_lt]; lia|].
  split; [apply andb_true_iff; split; [apply Z.leb_le | apply Z.ltb_lt]; lia|].
  destruct Hy as [-> | [-> | [-> | [-> | [-> | [-> | ->]]]]]];
    destruct Hq as [-> | [-> | [-> | ->]]]; split; vm_compute; reflexivity.
Qed.

Lemma storable_sourced t : storable t = true -> is_sourced t = true.
Proof.
  unfold storable, dimensions_fit, is_sourced. intros H.
  repeat (apply andb_true_iff in H as [H ?]).
  match goal with
  | Hs : text_fits false 50 (source_system t) = true |- _ =>
      destruct (text_fits_text _ _ Hs) as (s & ->)
  end.
  reflexivity.
Qed.

(** The fact object of a storable transaction is a row the insert
    accepts, once its account, its source and the dates are stored. *)
Lemma storable_fact_accepted db t fact :
  storable t = true -> fact_of t fact -> references_hold db fact -> dates_loaded db ->
  Store.sends_nul fact = false /\ Store.row_error fact = None /\
  Store.references db fact = true.
Proof.
  unfold storable, fact_fits. intros H.
  apply andb_true_iff in H as [H Hend]. apply andb_true_iff in H as [H Hstart].
  apply andb_true_iff in H as [_ H].
  apply andb_true_iff in H as [H Hid]. apply andb_true_iff in H as [Hamount Hcurrency].
  intros (Hk1 & Hk2 & Ha & Hc & Hy & Hq & Hm & Hyq & Hr) [(id & Hacc) (name & Hsrc)] Hloaded.
  destruct (date_dimension_fits _ Hstart) as (Fk1 & Fy & Fq & Fm & Fyq & Nyq).
  destruct (date_dimension_fits _ Hend) as (Fk2 & _).
  destruct (text_fits_string _ _ _ Hcurrency) as [Fc Nc].
  destruct (text_fits_string _ _ _ Hid) as [Fr Nr].
  assert (Fcur : Store.is_null (currency t) || Store.fits_string false 10 (currency t) = true).
  { destruct (currency t); try discriminate Fc; [reflexivity | exact Fc]. }
  split; [|split].
  - unfold Store.sends_nul. rewrite Hc, Hyq, Hr, Nc, Nyq, Nr. reflexivity.
  - unfold Store.row_error, Store.fits_columns.
    rewrite Hk1, Hk2, Ha, Hc, Hy, Hq, Hm, Hyq, Hr, Fk1, Fk2, Hamount, Fcur, Fy, Fq, Fm, Fyq, Fr.
    reflexivity.
  - unfold Store.references.
    rewrite (has_account_key_stored _ _ _ Hacc), (has_source_key_stored _ _ _ Hsrc).
    rewrite Hk1, Hk2.
    rewrite (has_date_key_loaded _ _ Hloaded Hstart), (has_date_key_loaded _ _ Hloaded Hend).
    reflexivity.
Qed.

Lemma filter_all {A : Type} (f : A -> bool) (l : list A) :
  Forall (fun x => f x = true) l -> List.filter f l = l.
Proof.
  induction 1 as [|x l Hx _ IH]; [reflexivity|]. cbn. now rewrite Hx, IH.
Qed.

(** A batch of storable transactions is loaded whole. *)
Lemma load_facts_batch_storable db dim_loader facts :
  warehouse_sound dim_loader db -> date_cache_sound dim_loader -> dates_loaded db ->
  Forall (fun t => storable t = true) facts ->
  exists dim_loader' db' objects,
    _load_facts_batch db dim_loader facts = (Ok (Z.of_nat (length facts)), dim_loader', db') /\
    warehouse_sound dim_loader' db' /\ date_cache_sound dim_loader' /\ dates_loaded db' /\
    Forall2 fact_of facts objects /\
    Store.fact_financials db' = Store.fact_financials db ++ map FinancialFact.stored objects.
Proof.
  intros Hsound Hcache Hloaded Hall. unfold _load_facts_batch.
  destruct (build_facts_sound facts dim_loader db Hsound) as (Hsound' & _ & _ & Hrefs).
  destruct (build_facts_rows facts dim_loader db) as ((Hfacts & _ & Hdates) & _ & Hrows).
  destruct (Hrows Hcache) as [Hcache' Hof].
  rewrite (filter_all is_sourced facts) in Hof
    by (eapply List.Forall_impl; [|exact Hall]; exact storable_sourced).
  destruct (build_facts dim_loader db facts) as [[objects l] db1]. cbn [fst snd] in *.
  assert (Hloaded' : dates_loaded db1) by (unfold dates_loaded; now rewrite Hdates).
  assert (Haccepted : Forall (fun fact => Store.sends_nul fact = false /\
                                          Store.row_error fact = None /\
                                          Store.references db1 fact = true) objects).
  { clear Hrows Hfacts. revert Hall Hrefs.
    induction Hof as [|t fact ts objs Hfact _ IH]; intros Hall Hrefs; [constructor|].
    inversion Hall as [|? ? Ht Hts]; subst. inversion Hrefs as [|? ? Href Hrest]; subst.
    constructor; [|now apply IH].
    now apply (storable_fact_accepted db1 t fact). }
  assert (Hlen : length facts = length objects) by (eapply Forall2_length; exact Hof).
  destruct objects as [|fact objects].
  - exists l, db1, []. destruct facts; [|discriminate Hlen].
    split; [reflexivity|]. split; [exact Hsound'|]. split; [exact Hcache'|].
    split; [exact Hloaded'|]. split; [constructor|].
    cbn [map]. now rewrite app_nil_r.
  - rewrite (bulk_save_facts_accepted _ _ Haccepted). rewrite <- Hlen.
    eexists l, _, (fact :: objects). split; [reflexivity|].
    split; [exact Hsound'|]. split; [exact Hcache'|]. split; [exact Hloaded'|].
    split; [exact Hof|]. cbn [Store.fact_financials]. now rewrite Hfacts.
Qed.

(** What [_load_facts_batch] leaves alone, whatever the batch: the
    runs and the dates; and the fact table grows by the number it
    returns, or not at all when the insert is refused. *)
Lemma load_facts_batch_frame db dim_loader facts :
  let loaded := _load_facts_batch db dim_loader facts in
  Store.pipeline_runs loaded.2 = Store.pipeline_runs db /\
  Store.dim_date loaded.2 = Store.dim_date db /\
  match loaded.1.1 with
  | Ok n =>
      0 <= n <= Z.of_nat (length facts) /\
      Z.of_nat (length (Store.fact_financials loaded.2))
      = Z.of_nat (length (Store.fact_financials db)) + n
  | Raise _ => Store.fact_financials loaded.2 = Store.fact_financials db
  end.
Proof.
  unfold _load_facts_batch.
  destruct (build_facts_rows facts dim_loader db) as ((Hfacts & Hruns & Hdates) & Hlen & _).
  destruct (build_facts dim_loader db facts) as [[objects l] db1]. cbn [fst snd] in *.
  pose proof (filter_length_le is_sourced facts) as Hle.
  destruct objects as [|fact objects].
  - cbn [fst snd]. rewrite Hfacts. repeat split; try assumption; lia.
  - destruct (Store.bulk_save_facts (fact :: objects) db1) as [db2|e] eqn:Hsave;
      cbn [fst snd]; [|repeat split; assumption].
    apply bulk_save_facts_stored in Hsave. subst db2.
    cbn [Store.pipeline_runs Store.dim_date Store.fact_financials].
    rewrite length_app, length_map, Hfacts.
    repeat split; try assumption; lia.
Qed.

End BatchRows.

(** The date dimension of a run has the row of every one of its days:
    the row that was there, or the one the run builds. *)
Lemma in_date_dimension_valid d :
  in_date_dimension d = true -> valid_date d /\ 2020 <= year d <= 2026.
Proof.
  unfold in_date_dimension, is_calendar_day, valid_date. intros H.
  repeat (apply andb_true_iff in H as [H ?]).
  repeat match goal with
         | H : (_ <=? _) = true |- _ => apply Z.leb_le in H
         end.
  lia.
Qed.

Lemma initialize_date_dimension_new db d :
  valid_date d -> 2020 <= year d <= 2026 -> Store.dim_date db !! d = None ->
  Store.dim_date (FinancialPipeline._initialize_date_dimension db) !! d
  = Some (DimensionLoader.date_row d).
Proof.
  intros Hvalid Hrange Hnone.
  assert (H2020 : calendar_day (Date 2020 1 1)) by (vm_compute; intuition discriminate).
  assert (H2026 : calendar_day (Date 2026 12 31)) by (vm_compute; intuition discriminate).
  pose proof (valid_calendar_day d Hvalid) as Hday.
  destruct Hvalid as (Hy & Hm & Hd).
  pose proof (days_in_month_bounds (year d) (month d)) as Hlen.
  unfold FinancialPipeline._initialize_date_dimension, DimensionLoader.load_date_dimension.
  set (days := Z.to_nat _).
  assert (Hfrom : DimensionLoader.date_le (Date 2020 1 1) d = true).
  { unfold DimensionLoader.date_le, PyDate.yyyymmdd. simpl. apply Z.leb_le. lia. }
  assert (Hto : DimensionLoader.date_le d (Date 2026 12 31) = true).
  { unfold DimensionLoader.date_le, PyDate.yyyymmdd. simpl. apply Z.leb_le. lia. }
  assert (Hin : In (DimensionLoader.date_row d)
                   (DimensionLoader.dates_to_insert days (Date 2020 1 1) (Date 2026 12 31))).
  { apply (date_le_ordinal _ d H2020 Hday) in Hfrom.
    apply (date_le_ordinal d _ Hday H2026) in Hto.
    apply dates_to_insert_covers; try assumption. subst days. lia. }
  destruct (DimensionLoader.dates_to_insert days _ _) as [|x rows] eqn:Hrows;
    [contradiction|].
  rewrite insert_dates_fold.
  apply fold_insert_date_new; [exact Hnone | exact Hin | reflexivity |].
  intros y Hin' Hdate. rewrite <- Hrows in Hin'.
  destruct (dates_to_insert_range days _ _ _ H2020 Hin') as (d' & -> & _).
  rewrite date_row_date in Hdate. now subst d'.
Qed.

Lemma initialize_date_dimension_loaded db :
  date_rows_sound db -> dates_loaded (FinancialPipeline._initialize_date_dimension db).
Proof.
  intros Hsound d Hd. destruct (in_date_dimension_valid d Hd) as [Hvalid Hrange].
  destruct (Store.dim_date db !! d) as [old|] eqn:Hold.
  - exists old. split; [|exact (proj2 (Hsound d old Hold))].
    now apply (proj1 (load_date_dimension_frame (Date 2020 1 1) (Date 2026 12 31) db)).
  - exists (DimensionLoader.date_row d). split; [|reflexivity].
    now apply initialize_date_dimension_new.
Qed.

Lemma initialize_date_dimension_sound self db :
  warehouse_sound self db ->
  warehouse_sound self (FinancialPipeline._initialize_date_dimension db).
Proof.
  unfold FinancialPipeline._initialize_date_dimension.
  destruct (load_date_dimension_frame (Date 2020 1 1) (Date 2026 12 31) db)
    as (_ & Ha & Haseq & Hs & Hsseq & _).
  cbv zeta in Ha, Haseq, Hs, Hsseq.
  unfold warehouse_sound, account_rows_sound, source_rows_sound, caches_sound,
    stored_key, Store.select_source_key.
  rewrite Ha, Haseq, Hs, Hsseq. auto.
Qed.

Lemma initialize_date_dimension_facts db :
  Store.fact_financials (FinancialPipeline._initialize_date_dimension db)
  = Store.fact_financials db.
Proof.
  exact (proj1 (proj2 (proj2 (proj2 (proj2 (proj2
           (load_date_dimension_frame (Date 2020 1 1) (Date 2026 12 31) db))))))).
Qed.

Lemma date_cache_sound_new : date_cache_sound DimensionLoader.__init__.
Proof. intros d key Hcache. cbn in Hcache. now rewrite lookup_empty in Hcache. Qed.

Lemma store_sound_empty : store_sound Store.empty.
Proof.
  destruct warehouse_sound_new as (Ha & Hs & _).
  split; [exact Ha|]. split; [exact Hs|].
  intros d row Hrow. cbn in Hrow. now rewrite lookup_empty in Hrow.
Qed.

Lemma store_sound_warehouse db :
  store_sound db -> warehouse_sound DimensionLoader.__init__ db.
Proof.
  intros (Ha & Hs & _). split; [exact Ha|]. split; [exact Hs|].
  split; intros k key Hcache; cbn in Hcache; now rewrite lookup_empty in Hcache.
Qed.

(** X14. On an active session, with a store whose keys are sound and
    transactions whose values fit the dimension tables and whose
    currency and record id are text or [None], [_load_facts_batch]
    either stores one fact row for every transaction of the batch, in
    the order of the batch, and returns their number, or, when the
    bulk insert is refused, stores no fact row at all and raises.
    Each row stored carries the record id of its transaction, its
    currency, or "USD" when it has none, the year, quarter and month
    of its period start, the YYYYMMDD keys of its two dates, and its
    amount as the Numeric(20, 2) column holds it.  The insert is
    accepted when the date dimension is loaded and every transaction
    is storable. *)
Theorem load_facts_batch_rows :
  forall (rt : PyRuntime) db dim_loader facts,
    warehouse_sound dim_loader db -> date_cache_sound dim_loader ->
    Forall (fun t => dimensions_fit t = true) facts ->
    Forall (fun t => fact_texts t = true) facts ->
    let loaded := FinancialPipeline._load_facts_batch db dim_loader facts in
    let stored_whole :=
      exists objects,
        loaded.1.1 = Ok (Z.of_nat (length facts)) /\
        Forall2 fact_of facts objects /\
        Store.fact_financials loaded.2
        = Store.fact_financials db ++ map FinancialFact.stored objects in
    (stored_whole \/
     exists e, loaded.1.1 = Raise e /\
               Store.fact_financials loaded.2 = Store.fact_financials db) /\
    (dates_loaded db -> Forall (fun t => storable t = true) facts -> stored_whole).
Proof.
  intros rt db dim_loader facts Hsound Hcache Hfit _ loaded stored_whole.
  subst stored_whole loaded. split.
  - unfold FinancialPipeline._load_facts_batch.
    destruct (build_facts_rows facts dim_loader db) as ((Hfacts & _) & _ & Hrows).
    destruct (Hrows Hcache) as [_ Hof].
    rewrite (filter_all is_sourced facts) in Hof.
    2:{ eapply List.Forall_impl; [|exact Hfit]. intros t Ht. unfold dimensions_fit in Ht.
        repeat (apply andb_true_iff in Ht as [Ht ?]).
        match goal with
        | Hs : text_fits false 50 (source_system t) = true |- _ =>
            destruct (text_fits_text _ _ Hs) as (s & Hsrc)
        end.
        unfold is_sourced. now rewrite Hsrc. }
    destruct (FinancialPipeline.build_facts dim_loader db facts) as [[objects l] db1].
    cbn [fst snd] in *.
    assert (Hlen : length facts = length objects) by (eapply Forall2_length; exact Hof).
    destruct objects as [|fact objects].
    + left. exists []. destruct facts; [|discriminate Hlen].
      split; [reflexivity|]. split; [constructor|]. cbn [fst snd map].
      now rewrite app_nil_r.
    + destruct (Store.bulk_save_facts (fact :: objects) db1) as [db2|e] eqn:Hsave.
      * left. exists (fact :: objects). apply bulk_save_facts_stored in Hsave. subst db2.
        cbn [fst snd Store.fact_financials]. rewrite Hlen, Hfacts. auto.
      * right. exists e. cbn [fst snd]. auto.
  - intros Hloaded Hall.
    destruct (load_facts_batch_storable db dim_loader facts Hsound Hcache Hloaded Hall)
      as (l & db' & objects & -> & _ & _ & _ & Hof & Hrows).
    exists objects. cbn [fst snd]. auto.
Qed.

Lemma load_facts_batch_rows_witness :
  let db := FinancialPipeline._initialize_date_dimension Store.empty in
  let facts := transformed [january_sales; march_sales] in
  warehouse_sound DimensionLoader.__init__ db /\
  date_cache_sound DimensionLoader.__init__ /\
  Forall (fun t => dimensions_fit t = true) facts /\
  Forall (fun t => fact_texts t = true) facts /\
  dates_loaded db /\
  Forall (fun t => storable t = true) facts /\
  let loaded := FinancialPipeline._load_facts_batch (rt := sample_runtime)
                  db DimensionLoader.__init__ facts in
  exists objects,
    loaded.1.1 = Ok 2 /\
    Forall2 fact_of facts objects /\
    Store.fact_financials loaded.2 = map (FinancialFact.stored (rt := sample_runtime)) objects.
Proof.
  intros db facts.
  assert (Hsound : warehouse_sound DimensionLoader.__init__ db)
    by exact (initialize_date_dimension_sound _ _ warehouse_sound_new).
  assert (Hfit : Forall (fun t => dimensions_fit t = true) facts)
    by (repeat constructor).
  assert (Htexts : Forall (fun t => fact_texts t = true) facts)
    by (repeat constructor).
  assert (Hloaded : dates_loaded db)
    by exact (initialize_date_dimension_loaded _ (proj2 (proj2 store_sound_empty))).
  assert (Hall : Forall (fun t => storable t = true) facts)
    by (repeat constructor).
  split; [exact Hsound|]. split; [exact date_cache_sound_new|]. split; [exact Hfit|].
  split; [exact Htexts|]. split; [exact Hloaded|]. split; [exact Hall|].
  destruct (proj2 (load_facts_batch_rows sample_runtime db DimensionLoader.__init__ facts
                     Hsound date_cache_sound_new Hfit Htexts) Hloaded Hall)
    as (objects & Hreturned & Hof & Hrows).
  exists objects. split; [exact Hreturned|]. split; [exact Hof|].
  rewrite Hrows. unfold db. now rewrite initialize_date_dimension_facts.
Defined.

Lemma load_facts_batch_references_witness :
  let db := FinancialPipeline._initialize_date_dimension Store.empty in
  warehouse_sound DimensionLoader.__init__ db /\
  Forall (references_hold db) (Store.fact_financials db) /\
  let loaded := FinancialPipeline._load_facts_batch (rt := sample_runtime)
                  db DimensionLoader.__init__
                  (transformed [january_sales; march_sales]) in
  length (Store.fact_financials loaded.2) = 2%nat /\
  warehouse_sound loaded.1.2 loaded.2 /\
  Forall (references_hold loaded.2) (Store.fact_financials loaded.2).
Proof.
  intros db.
  assert (Hsound : warehouse_sound DimensionLoader.__init__ db)
    by exact (initialize_date_dimension_sound _ _ warehouse_sound_new).
  assert (Hrefs : Forall (references_hold db) (Store.fact_financials db)).
  { unfold db. rewrite initialize_date_dimension_facts. constructor. }
  split; [exact Hsound|]. split; [exact Hrefs|].
  split; [vm_compute; reflexivity|].
  exact (load_facts_batch_references (rt := sample_runtime) db
           DimensionLoader.__init__
           (transformed [january_sales; march_sales]) Hsound Hrefs).
Defined.

(** ** FinancialPipeline: the loop of a run *)

Lemma transactions_cons {rt : PyRuntime} raw records :
  transactions (raw :: records) = transactions [raw] ++ transactions records.
Proof. unfold transactions. cbn [flat_map]. now rewrite app_nil_r. Qed.

Lemma rejected_cons {rt : PyRuntime} source_name raw records :
  rejected source_name (raw :: records)
  = rejected source_name [raw] ++ rejected source_name records.
Proof. unfold rejected. cbn [flat_map]. now rewrite app_nil_r. Qed.




Lemma loads_transactions {rt : PyRuntime} source_name records :
  Forall loads records ->
  length (transactions records) = length records /\ rejected source_name records = [].
Proof.
  induction 1 as [|raw records (t & Ht & _) _ [IHt IHr]]; [split; reflexivity|].
  rewrite transactions_cons, rejected_cons, length_app, IHt, IHr.
  unfold transactions, rejected. cbn [flat_map]. rewrite Ht. split; reflexivity.
Qed.

Lemma loads_loads_or_fails {rt : PyRuntime} raw : loads raw -> loads_or_fails raw.
Proof. intros (t & Ht & Hstorable) t' Ht'. congruence. Qed.

Section RunCounts.
Context {rt : PyRuntime}.
Import FinancialPipeline.

(** What a load leaves alone, whatever it is given and whatever the
    session: [n] is the number of rows it adds. *)
Lemma load_frame db st facts :
  loop_frame db st ->
  let loaded := load st facts in
  batch loaded.2 = batch st /\
  total_processed loaded.2 = total_processed st /\
  total_failed loaded.2 = total_failed st /\
  failed loaded.2 = failed st /\
  Store.pipeline_runs (store loaded.2) = Store.pipeline_runs db /\
  Store.dim_date (store loaded.2) = Store.dim_date db /\
  exists n,
    0 <= n /\
    Z.of_nat (length (Store.fact_financials (store loaded.2)))
    = Z.of_nat (length (Store.fact_financials db)) + total_processed st + n /\
    match loaded.1 with
    | Ok m => m = n
    | Raise _ => n = 0
    end.
Proof.
  intros (Hruns & Hdates & Hpos & Hfacts). unfold load.
  destruct (session st).
  - pose proof (load_facts_batch_frame (store st) (dim_loader st) facts) as Hframe.
    cbv zeta in Hframe.
    destruct (_load_facts_batch (store st) (dim_loader st) facts) as [[loaded l] db'].
    cbn [fst snd batch total_processed total_failed failed store] in *.
    destruct Hframe as (Hruns' & Hdates' & Hrows).
    split; [reflexivity|]. split; [reflexivity|]. split; [reflexivity|].
    split; [reflexivity|]. split; [congruence|]. split; [congruence|].
    destruct loaded as [n|e].
    + exists n. destruct Hrows as [Hn Hlen]. split; [lia|]. split; [lia | reflexivity].
    + exists 0. rewrite Hrows. split; [lia|]. split; [lia | reflexivity].
  - unfold _load_facts_batch_pending.
    destruct (build_facts_pending (dim_loader st) facts) as [objects l].
    assert (Hzero : match (match objects with
                           | [] => (Ok 0, l)
                           | _ :: _ => (Raise PendingRollbackError, l)
                           end).1 with
                    | Ok m => m = 0
                    | Raise _ => 0 = 0
                    end) by (destruct objects; reflexivity).
    destruct (match objects with [] => _ | _ => _ end) as [loaded l'].
    cbn [fst snd batch total_processed total_failed failed store] in *.
    split; [reflexivity|]. split; [reflexivity|]. split; [reflexivity|].
    split; [reflexivity|]. split; [exact Hruns|]. split; [exact Hdates|].
    exists 0. split; [lia|]. split; [lia | exact Hzero].
Qed.

Variable chunk_size : Z.
Variable source_name : string.

Lemma step_frame db st raw :
  loop_frame db st -> loop_frame db (step chunk_size source_name st raw).
Proof.
  intros Hst. unfold step.
  destruct (FinancialTransformer.transform_transaction raw) as [t|e]; [|exact Hst].
  destruct (chunk_size <=? Z.of_nat (length (batch st ++ [t]))); [|exact Hst].
  pose proof (load_frame db st (batch st ++ [t]) Hst) as Hload. cbv zeta in Hload.
  destruct (load st (batch st ++ [t])) as [loaded st']. cbn [fst snd] in Hload.
  destruct Hload as (_ & Hp & _ & _ & Hruns & Hdates & n & Hn & Hlen & Hloaded).
  destruct Hst as (_ & _ & Hpos & _).
  destruct loaded as [m|e]; subst; unfold loop_frame, count, record_failed;
    cbn [store total_processed]; rewrite Hp;
    (split; [exact Hruns|]; split; [exact Hdates|]; split; lia).
Qed.

Lemma loop_frame_fold db records :
  forall st, loop_frame db st ->
             loop_frame db (fold_left (step chunk_size source_name) records st).
Proof.
  induction records as [|raw records IH]; intros st Hst; [exact Hst|].
  cbn [fold_left]. apply IH. now apply step_frame.
Qed.


(** On a sound loop, a batch of storable transactions is loaded whole
    and leaves the loop sound. *)
Lemma load_storable st facts :
  loop_sound st -> Forall (fun t => storable t = true) facts ->
  exists st',
    load st facts = (Ok (Z.of_nat (length facts)), st') /\
    loop_sound st' /\ batch st' = batch st /\
    total_processed st' = total_processed st /\
    total_failed st' = total_failed st /\ failed st' = failed st.
Proof.
  intros (Hsession & Hsound & Hcache & Hloaded & Hbatch) Hall. unfold load.
  rewrite Hsession.
  destruct (load_facts_batch_storable (store st) (dim_loader st) facts
              Hsound Hcache Hloaded Hall)
    as (l & db' & objects & -> & Hsound' & Hcache' & Hloaded' & _).
  eexists. split; [reflexivity|].
  unfold loop_sound. cbn [session dim_loader store batch total_processed total_failed failed].
  auto 10.
Qed.

Lemma step_sound st raw :
  loop_sound st -> loads_or_fails raw ->
  let st' := step chunk_size source_name st raw in
  loop_sound st' /\
  pending st' = pending st + Z.of_nat (length (transactions [raw])) /\
  total_failed st' = total_failed st + Z.of_nat (length (rejected source_name [raw])) /\
  failed st' = failed st ++ rejected source_name [raw].
Proof.
  intros Hst Hraw. unfold step, transactions, rejected, pending. cbn [flat_map].
  destruct (FinancialTransformer.transform_transaction raw) as [t|e] eqn:Ht.
  - assert (Hall : Forall (fun t => storable t = true) (batch st ++ [t])).
    { apply Forall_app. split; [apply Hst|]. constructor; [now apply Hraw | constructor]. }
    cbn [app length]. rewrite app_nil_r.
    destruct (chunk_size <=? Z.of_nat (length (batch st ++ [t]))).
    + destruct (load_storable st _ Hst Hall) as (st' & -> & Hst' & Hb & Hp & Hf & Hr).
      unfold count. cbn [batch total_processed total_failed failed length].
      split.
      * destruct Hst' as (H1 & H2 & H3 & H4 & _). unfold loop_sound.
        cbn [session dim_loader store batch]. auto 10.
      * rewrite Hp, Hf, Hr, length_app. cbn [length]. split; [lia|]. split; [lia | reflexivity].
    + cbn [batch total_processed total_failed failed].
      split.
      * destruct Hst as (H1 & H2 & H3 & H4 & _). unfold loop_sound.
        cbn [session dim_loader store batch]. auto 10.
      * rewrite length_app. cbn [length]. split; [lia|]. split; [lia | reflexivity].
  - unfold record_failed. cbn [batch total_processed total_failed failed app length].
    split.
    + destruct Hst as (H1 & H2 & H3 & H4 & H5). unfold loop_sound.
      cbn [session dim_loader store batch]. auto 10.
    + split; [lia|]. split; [lia | reflexivity].
Qed.

Lemma loop_sound_fold records :
  Forall loads_or_fails records ->
  forall st, loop_sound st ->
    let st' := fold_left (step chunk_size source_name) records st in
    loop_sound st' /\
    pending st' = pending st + Z.of_nat (length (transactions records)) /\
    total_failed st' = total_failed st + Z.of_nat (length (rejected source_name records)) /\
    failed st' = failed st ++ rejected source_name records.
Proof.
  induction 1 as [|raw records Hraw _ IH]; intros st Hst.
  - cbn. rewrite app_nil_r. split; [exact Hst|]. split; [lia|]. split; [lia | reflexivity].
  - cbn [fold_left]. cbv zeta.
    destruct (step_sound st raw Hst Hraw) as (Hst1 & Hp1 & Hf1 & Hr1).
    destruct (IH _ Hst1) as (Hst2 & Hp2 & Hf2 & Hr2).
    rewrite transactions_cons, rejected_cons, !length_app.
    split; [exact Hst2|]. rewrite Hp2, Hf2, Hr2, Hp1, Hf1, Hr1, app_assoc.
    split; [lia|]. split; [lia | reflexivity].
Qed.

Lemma step_chunks n st raw :
  1 <= chunk_size ->
  loop_sound st -> loads_or_fails raw -> loop_chunks chunk_size n st ->
  loop_chunks chunk_size (n + Z.of_nat (length (transactions [raw])))
    (step chunk_size source_name st raw).
Proof.
  intros Hchunk Hst Hraw (Hlen & q & Hq & Hn).
  unfold step, transactions. cbn [flat_map].
  destruct (FinancialTransformer.transform_transaction raw) as [t|e] eqn:Ht.
  - assert (Hall : Forall (fun t => storable t = true) (batch st ++ [t])).
    { apply Forall_app. split; [apply Hst|]. constructor; [now apply Hraw | constructor]. }
    assert (Hlen' : Z.of_nat (length (batch st ++ [t])) = Z.of_nat (length (batch st)) + 1).
    { rewrite length_app. cbn [length]. lia. }
    cbn [app length].
    destruct (Z.leb_spec chunk_size (Z.of_nat (length (batch st ++ [t])))) as [Hfull|Hroom].
    + destruct (load_storable st _ Hst Hall) as (st' & -> & _ & _ & Hp & _).
      unfold loop_chunks, count. cbn [batch total_processed length].
      split; [lia|]. exists (q + 1). rewrite Hp. lia.
    + unfold loop_chunks. cbn [batch total_processed].
      split; [lia|]. exists q. lia.
  - unfold loop_chunks, record_failed. cbn [batch total_processed app length].
    split; [exact Hlen|]. exists q. lia.
Qed.

Lemma loop_chunks_fold records :
  1 <= chunk_size -> Forall loads_or_fails records ->
  forall n st,
    loop_sound st -> loop_chunks chunk_size n st ->
    loop_chunks chunk_size (n + Z.of_nat (length (transactions records)))
      (fold_left (step chunk_size source_name) records st).
Proof.
  intros Hchunk. induction 1 as [|raw records Hraw _ IH]; intros n st Hst Hchunks.
  - cbn. now rewrite Z.add_0_r.
  - cbn [fold_left].
    pose proof (step_chunks n st raw Hchunk Hst Hraw Hchunks) as Hchunks1.
    destruct (step_sound st raw Hst Hraw) as (Hst1 & _).
    specialize (IH _ _ Hst1 Hchunks1).
    rewrite transactions_cons, length_app.
    now replace (n + Z.of_nat (length (transactions [raw]) + length (transactions records)))
      with (n + Z.of_nat (length (transactions [raw]))
            + Z.of_nat (length (transactions records))) by lia.
Qed.


Lemma run_started_frame run_uuid db :
  Store.fact_financials (run_started run_uuid source_name db) = Store.fact_financials db /\
  Store.dim_account (run_started run_uuid source_name db) = Store.dim_account db /\
  Store.dim_source (run_started run_uuid source_name db) = Store.dim_source db /\
  Store.pipeline_runs (run_started run_uuid source_name db)
  = <[run_uuid := PipelineRun.Row run_uuid source_name Started 0 0 None]>
      (Store.pipeline_runs db) /\
  Store.dim_date (run_started run_uuid source_name db)
  = Store.dim_date (_initialize_date_dimension db).
Proof.
  unfold run_started, _initialize_date_dimension.
  set (started := Store.save_run _ db).
  destruct (load_date_dimension_frame (Date 2020 1 1) (Date 2026 12 31) started)
    as (_ & Haccounts & _ & Hsources & _ & Hfacts & Hruns).
  cbv zeta in Haccounts, Hsources, Hfacts, Hruns.
  split; [now rewrite Hfacts|]. split; [now rewrite Haccounts|].
  split; [now rewrite Hsources|]. split; [now rewrite Hruns|].
  unfold DimensionLoader.load_date_dimension.
  set (rows := DimensionLoader.dates_to_insert _ _ _).
  destruct rows; reflexivity.
Qed.

Lemma loop_start_frame run_uuid db :
  loop_frame (run_started run_uuid source_name db)
    (loop_start (run_started run_uuid source_name db)).
Proof. unfold loop_frame, loop_start. cbn. repeat split; lia. Qed.

(** The loop starts sound on a sound store. *)
Lemma loop_start_sound run_uuid db :
  store_sound db -> loop_sound (loop_start (run_started run_uuid source_name db)).
Proof.
  intros Hstore. unfold loop_sound, loop_start, run_started.
  cbn [session dim_loader store batch].
  set (started := Store.save_run _ db).
  assert (Hstarted : store_sound started) by exact Hstore.
  split; [reflexivity|].
  split; [apply initialize_date_dimension_sound, store_sound_warehouse, Hstarted|].
  split; [exact date_cache_sound_new|].
  split; [apply initialize_date_dimension_loaded, Hstarted | constructor].
Qed.

End RunCounts.

Section RunPipeline.
Context {rt : PyRuntime}.
Context (chunk_size : Z) (run_uuid timestamp : string).
Context {E : Type} {base : BaseExtractor E}.
Import FinancialPipeline.


Lemma run_pipeline_raised extractor source_name db ok validated records e :
  validate extractor = (Ok ok, validated) ->
  extract validated = Gen records (Some e) ->
  run_pipeline chunk_size run_uuid timestamp extractor source_name db
  = handle run_uuid timestamp source_name
      (fold_left (step chunk_size source_name) records
         (loop_start (run_started run_uuid source_name db))) e.
Proof.
  intros Hvalidate Hextract. unfold run_pipeline. now rewrite Hvalidate, Hextract.
Qed.



(** The same when the extractor raises after yielding its records. *)
Lemma run_pipeline_raised_storable extractor validated ok source_name db records e :
  store_sound db ->
  validate extractor = (Ok ok, validated) ->
  extract validated = Gen records (Some e) ->
  Forall loads_or_fails records ->
  let out := run_pipeline chunk_size run_uuid timestamp extractor source_name db in
  let st := fold_left (step chunk_size source_name) records
              (loop_start (run_started run_uuid source_name db)) in
  out = run_failed run_uuid timestamp source_name (rejected source_name records) e (store st) /\
  loop_sound st /\
  Z.of_nat (length (Store.fact_financials (store st)))
  = Z.of_nat (length (Store.fact_financials db)) + total_processed st /\
  Store.pipeline_runs (store st)
  = <[run_uuid := PipelineRun.Row run_uuid source_name Started 0 0 None]>
      (Store.pipeline_runs db).
Proof.
  intros Hstore Hvalidate Hextract Hall out st. subst out st.
  rewrite (run_pipeline_raised extractor source_name db ok validated records e
             Hvalidate Hextract).
  pose proof (loop_start_sound source_name run_uuid db Hstore) as Hstart.
  destruct (loop_sound_fold chunk_size source_name records Hall _ Hstart)
    as (Hsound & _ & _ & Hrows).
  pose proof (loop_frame_fold chunk_size source_name _ records _
                (loop_start_frame source_name run_uuid db)) as (Hruns & _ & _ & Hfacts).
  destruct (run_started_frame source_name run_uuid db) as (Hbase & _ & _ & Hstarted & _).
  rewrite Hbase in Hfacts. rewrite Hstarted in Hruns.
  set (start := loop_start (run_started run_uuid source_name db)) in *.
  change (failed start) with (@nil FailedRecord) in Hrows. cbn [app] in Hrows.
  split; [|split; [exact Hsound|split; [exact Hfacts | exact Hruns]]].
  unfold handle. rewrite (proj1 Hsound), Hrows. reflexivity.
Qed.

End RunPipeline.

(** *** What a run returns and leaves behind *)











(** X18. When the extractor raises after yielding records that the
    warehouse takes, on a store whose keys are sound and for a run
    whose row can be inserted (its id is new, its id and source name
    fit their columns), the run raises the same exception and is recorded as
    failed with no counts; the facts loaded are those of the chunks
    that were full, [chunk_size] times the number of full chunks, and
    the records still waiting in the batch are neither loaded nor
    listed as failed nor exported. *)
Theorem run_pipeline_extraction_failure :
  forall (rt : PyRuntime) chunk_size run_uuid timestamp
         (E : Type) (X : BaseExtractor E) (extractor validated : E) (ok : bool)
         source_name db records e,
    1 <= chunk_size ->
    store_sound db ->
    new_run db run_uuid source_name ->
    validate extractor = (Ok ok, validated) ->
    extract validated = Gen records (Some e) ->
    Forall loads records ->
    let out := FinancialPipeline.run_pipeline chunk_size run_uuid timestamp
                 extractor source_name db in
    FinancialPipeline.returned out = Raise e /\
    FinancialPipeline.failed_records out = [] /\
    FinancialPipeline.exported out = None /\
    Z.of_nat (length (Store.fact_financials (FinancialPipeline.db out)))
    = Z.of_nat (length (Store.fact_financials db))
      + chunk_size * (Z.of_nat (length records) / chunk_size) /\
    Store.pipeline_runs (FinancialPipeline.db out) !! run_uuid
    = Some (PipelineRun.Row run_uuid source_name Failed 0 0 (Some e)).
Proof.
  intros rt chunk_size run_uuid timestamp E X extractor validated ok source_name db records e
         Hchunk Hstore _ Hvalidate Hextract Hloads out.
  assert (Hall : Forall loads_or_fails records).
  { eapply List.Forall_impl; [|exact Hloads]. exact loads_loads_or_fails. }
  destruct (loads_transactions source_name records Hloads) as [Hcount Hrejected].
  destruct (run_pipeline_raised_storable chunk_size run_uuid timestamp extractor validated ok
              source_name db records e Hstore Hvalidate Hextract Hall)
    as (Hout & Hsound & Hfacts & Hruns).
  fold out in Hout. rewrite Hrejected in Hout.
  assert (Hstart : loop_chunks chunk_size 0 (loop_start (run_started run_uuid source_name db))).
  { unfold loop_chunks, loop_start. cbn. split; [lia|]. exists 0. lia. }
  pose proof (loop_chunks_fold chunk_size source_name records Hchunk Hall 0 _
                (loop_start_sound source_name run_uuid db Hstore) Hstart)
    as (Hlen & q & Hq & Hn).
  rewrite Hcount in Hn.
  set (st := fold_left _ records _) in *.
  assert (Hdiv : q = Z.of_nat (length records) / chunk_size).
  { apply (Z.div_unique_pos _ _ q (Z.of_nat (length (FinancialPipeline.batch st)))); lia. }
  rewrite Hout. unfold FinancialPipeline.run_failed, Store.save_run.
  cbn [FinancialPipeline.db FinancialPipeline.returned FinancialPipeline.failed_records
       FinancialPipeline.exported Store.pipeline_runs Store.fact_financials
       PipelineRun.run_id FinancialPipeline._save_failed_records].
  rewrite lookup_insert_eq, Hfacts, Hq, Hdiv. auto 10.
Qed.

Lemma run_pipeline_extraction_failure_witness :
  store_sound Store.empty /\
  validate (BaseExtractor := rootfi_extractor (rt := sample_runtime)) broken_rootfi_file
  = (Ok true,
     rootfi_loaded "data/data_set_2.json" broken_rootfi_report
       [ VDict (opex_period (VStr "2024-01-01") (VStr "2024-01-31")); VDict broken_period ]) /\
  extract (BaseExtractor := rootfi_extractor (rt := sample_runtime))
    (rootfi_loaded "data/data_set_2.json" broken_rootfi_report
       [ VDict (opex_period (VStr "2024-01-01") (VStr "2024-01-31")); VDict broken_period ])
  = Gen [salaries_record (VStr "2024-01-01") (VStr "2024-01-31")] (Some AttributeError) /\
  Forall (loads (rt := sample_runtime))
    [salaries_record (VStr "2024-01-01") (VStr "2024-01-31")] /\
  let out := FinancialPipeline.run_pipeline (rt := sample_runtime)
               (base := rootfi_extractor (rt := sample_runtime))
               2 "9c1d7e52-6a3b-4f08-b1c4-2e5a8d0f7b36" "20240401_120500"
               broken_rootfi_file "rootfi" Store.empty in
  FinancialPipeline.returned out = Raise AttributeError /\
  FinancialPipeline.exported out = None /\
  Z.of_nat (length (Store.fact_financials (FinancialPipeline.db out))) = 0.
Proof.
  assert (Hfresh : new_run Store.empty "9c1d7e52-6a3b-4f08-b1c4-2e5a8d0f7b36" "rootfi")
    by (repeat split).
  assert (Hvalidate :
            validate (BaseExtractor := rootfi_extractor (rt := sample_runtime))
              broken_rootfi_file
            = (Ok true,
               rootfi_loaded "data/data_set_2.json" broken_rootfi_report
                 [ VDict (opex_period (VStr "2024-01-01") (VStr "2024-01-31"));
                   VDict broken_period ]))
    by reflexivity.
  assert (Hextract :
            extract (BaseExtractor := rootfi_extractor (rt := sample_runtime))
              (rootfi_loaded "data/data_set_2.json" broken_rootfi_report
                 [ VDict (opex_period (VStr "2024-01-01") (VStr "2024-01-31"));
                   VDict broken_period ])
            = Gen [salaries_record (VStr "2024-01-01") (VStr "2024-01-31")]
                  (Some AttributeError))
    by reflexivity.
  assert (Hloads : Forall (loads (rt := sample_runtime))
                     [salaries_record (VStr "2024-01-01") (VStr "2024-01-31")]).
  { repeat constructor; eexists; split; reflexivity. }
  split; [exact store_sound_empty|]. split; [exact Hvalidate|]. split; [exact Hextract|].
  split; [exact Hloads|].
  destruct (run_pipeline_extraction_failure sample_runtime
              2 "9c1d7e52-6a3b-4f08-b1c4-2e5a8d0f7b36" "20240401_120500"
              RootfiExtractor.t (rootfi_extractor (rt := sample_runtime))
              broken_rootfi_file _ true "rootfi" Store.empty _ AttributeError
              ltac:(lia) store_sound_empty Hfresh Hvalidate Hextract Hloads)
    as (Hreturned & _ & Hexported & Hfacts & _).
  split; [exact Hreturned|]. split; [exact Hexported | exact Hfacts].
Defined.

(** ** QuickBooksExtractor: validation and columns *)

Lemma quickbooks_validate_data path top :
  QuickBooksExtractor.validate (quickbooks_on path (VDict top)) =
  match Py.dict_find "data" top with
  | None => (Raise (ValueError "Missing 'data' key in QuickBooks file"),
             quickbooks_on path (VDict top))
  | Some payload =>
      match (let* _ := QuickBooksExtractor.require "Header" payload
                         "Missing 'Header' in QuickBooks data" in
             let* _ := QuickBooksExtractor.require "Columns" payload
                         "Missing 'Columns' in QuickBooks data" in
             QuickBooksExtractor.require "Rows" payload
               "Missing 'Rows' in QuickBooks data") with
      | Raise e => (Raise e, quickbooks_on path (VDict top))
      | Ok _ =>
          (let* header := Py.subscript "Header" payload in
           let* _ := Py.get_attr "ReportName" header in
           let* _ := Py.get_attr "Currency" header in
           Ok true,
           quickbooks_loaded path (VDict top) payload)
      end
  end.
Proof.
  unfold QuickBooksExtractor.validate, quickbooks_on, quickbooks_loaded,
    QuickBooksExtractor.__init__.
  cbn [QuickBooksExtractor.file QuickBooksExtractor.source_path].
  unfold QuickBooksExtractor.require at 1. cbn [Py.py_in Py.subscript bind].
  rewrite dict_has_find, dict_case_find.
  destruct (Py.dict_find "data" top) as [payload|]; [|reflexivity].
  cbn [bind].
  destruct (QuickBooksExtractor.require "Header" payload _) as [[]|e]; [|reflexivity].
  cbn [bind].
  destruct (QuickBooksExtractor.require "Columns" payload _) as [[]|e]; [|reflexivity].
  cbn [bind].
  destruct (QuickBooksExtractor.require "Rows" payload _) as [[]|e]; reflexivity.
Qed.

Lemma require_dict key d msg :
  QuickBooksExtractor.require key (VDict d) msg =
  if Py.dict_has key d then Ok tt else Raise (ValueError msg).
Proof. reflexivity. Qed.

(** X19. The QuickBooks [validate] checks, in this order and with
    these messages: the file exists; the top level has "data"; the
    payload has "Header", then "Columns", then "Rows".  A payload with
    all three whose header is an object is accepted: [validate]
    returns true and keeps the payload.  A failed check leaves the
    extractor without data. *)
Theorem quickbooks_validate_checks :
  (forall path,
      QuickBooksExtractor.validate (QuickBooksExtractor.__init__ path NoFile) =
      (Raise (FileNotFoundError ("Data file not found: " +:+ path)),
       QuickBooksExtractor.__init__ path NoFile)) /\
  (forall path top,
      Py.dict_has "data" top = false ->
      QuickBooksExtractor.validate (quickbooks_on path (VDict top)) =
      (Raise (ValueError "Missing 'data' key in QuickBooks file"),
       quickbooks_on path (VDict top))) /\
  (forall path top payload,
      Py.dict_find "data" top = Some (VDict payload) ->
      Py.dict_has "Header" payload = false ->
      QuickBooksExtractor.validate (quickbooks_on path (VDict top)) =
      (Raise (ValueError "Missing 'Header' in QuickBooks data"),
       quickbooks_on path (VDict top))) /\
  (forall path top payload,
      Py.dict_find "data" top = Some (VDict payload) ->
      Py.dict_has "Header" payload = true ->
      Py.dict_has "Columns" payload = false ->
      QuickBooksExtractor.validate (quickbooks_on path (VDict top)) =
      (Raise (ValueError "Missing 'Columns' in QuickBooks data"),
       quickbooks_on path (VDict top))) /\
  (forall path top payload,
      Py.dict_find "data" top = Some (VDict payload) ->
      Py.dict_has "Header" payload = true ->
      Py.dict_has "Columns" payload = true ->
      Py.dict_has "Rows" payload = false ->
      QuickBooksExtractor.validate (quickbooks_on path (VDict top)) =
      (Raise (ValueError "Missing 'Rows' in QuickBooks data"),
       quickbooks_on path (VDict top))) /\
  (forall path top payload header,
      Py.dict_find "data" top = Some (VDict payload) ->
      Py.dict_find "Header" payload = Some (VDict header) ->
      Py.dict_has "Columns" payload = true ->
      Py.dict_has "Rows" payload = true ->
      QuickBooksExtractor.validate (quickbooks_on path (VDict top)) =
      (Ok true, quickbooks_loaded path (VDict top) (VDict payload))).
Proof.
  split; [reflexivity|]. split; [|split; [|split; [|split]]].
  - intros path top Hdata. rewrite quickbooks_validate_data.
    rewrite dict_has_find in Hdata.
    destruct (Py.dict_find "data" top); [discriminate | reflexivity].
  - intros path top payload Hdata Hheader.
    rewrite quickbooks_validate_data, Hdata, require_dict, Hheader. reflexivity.
  - intros path top payload Hdata Hheader Hcolumns.
    rewrite quickbooks_validate_data, Hdata, !require_dict, Hheader, Hcolumns. reflexivity.
  - intros path top payload Hdata Hheader Hcolumns Hrows.
    rewrite quickbooks_validate_data, Hdata, !require_dict, Hheader, Hcolumns, Hrows.
    reflexivity.
  - intros path top payload header Hdata Hheader Hcolumns Hrows.
    rewrite quickbooks_validate_data, Hdata, !require_dict, Hcolumns, Hrows.
    rewrite dict_has_find, Hheader. cbn [bind Py.subscript].
    rewrite dict_case_find, Hheader. reflexivity.
Qed.

Lemma quickbooks_validate_checks_witness :
  QuickBooksExtractor.validate
    (quickbooks_on "data/data_set_1.json"
       (VDict [("data", VDict [("Header", VDict []); ("Columns", VDict [])])])) =
  (Raise (ValueError "Missing 'Rows' in QuickBooks data"),
   quickbooks_on "data/data_set_1.json"
     (VDict [("data", VDict [("Header", VDict []); ("Columns", VDict [])])])) /\
  QuickBooksExtractor.validate
    (quickbooks_on "data/data_set_1.json" (VDict [("data", undated_month_report)])) =
  (Ok true,
   quickbooks_loaded "data/data_set_1.json" (VDict [("data", undated_month_report)])
     undated_month_report).
Proof.
  destruct quickbooks_validate_checks as (_ & _ & _ & _ & Hrows & Hok).
  split.
  - apply (Hrows _ _ [("Header", VDict []); ("Columns", VDict [])]); reflexivity.
  - apply (Hok "data/data_set_1.json" [("data", undated_month_report)] _
               [("ReportName", VStr "ProfitAndLoss"); ("Currency", VStr "USD")]);
      reflexivity.
Defined.

Lemma parse_column_list_money cols :
  forall parsed,
    QuickBooksExtractor.parse_column_list cols = Ok parsed ->
    Forall2 (fun parsed_col col =>
               Py.subscript "ColTitle" col = Ok (QuickBooksExtractor.title parsed_col))
            parsed (List.filter is_money cols).
Proof.
  induction cols as [|col cols IH]; intros parsed.
  - intros [= <-]. constructor.
  - cbn [QuickBooksExtractor.parse_column_list List.filter]. unfold is_money at 1.
    destruct (Py.subscript "ColType" col) as [col_type|e]; [|discriminate].
    cbn [bind]. destruct (Py.is_str "Money" col_type); [|apply IH].
    destruct (bind (Py.get_attr_default "MetaData" (VList []) col) Py.py_iter)
      as [meta_items|e]; [|discriminate].
    cbn [bind].
    destruct (QuickBooksExtractor.metadata_of meta_items []) as [metadata|e]; [|discriminate].
    cbn [bind].
    destruct (Py.subscript "ColTitle" col) as [col_title|e] eqn:Htitle; [|discriminate].
    cbn [bind].
    destruct (QuickBooksExtractor.parse_column_list cols) as [rest|e]; [|discriminate].
    cbn [bind]. intros [= <-]. constructor; [exact Htitle | now apply IH].
Qed.

Lemma parse_column_list_skips cols :
  Forall (fun col => exists col_type, Py.subscript "ColType" col = Ok col_type) cols ->
  QuickBooksExtractor.parse_column_list cols
  = QuickBooksExtractor.parse_column_list (List.filter is_money cols).
Proof.
  induction 1 as [|col cols (col_type & Htype) Hall IH]; [reflexivity|].
  cbn [List.filter]. unfold is_money at 1. rewrite Htype.
  destruct (Py.is_str "Money" col_type) eqn:Hmoney.
  - cbn [QuickBooksExtractor.parse_column_list]. rewrite Htype. cbn [bind].
    rewrite Hmoney, IH. reflexivity.
  - cbn [QuickBooksExtractor.parse_column_list]. rewrite Htype. cbn [bind].
    rewrite Hmoney. exact IH.
Qed.

(** X20. [_parse_columns] keeps the columns of type "Money", in the
    order of the report, each under its own title; a column of another
    type is skipped once its type is read, whatever else it holds. *)
Theorem parse_columns_money_only :
  forall self_data columns cols,
    Py.subscript "Columns" self_data = Ok columns ->
    Py.subscript "Column" columns = Ok (VList cols) ->
    (forall parsed,
        QuickBooksExtractor._parse_columns self_data = Ok parsed ->
        Forall2 (fun parsed_col col =>
                   Py.subscript "ColTitle" col = Ok (QuickBooksExtractor.title parsed_col))
                parsed (List.filter is_money cols)) /\
    (Forall (fun col => exists col_type, Py.subscript "ColType" col = Ok col_type) cols ->
     QuickBooksExtractor._parse_columns self_data
     = QuickBooksExtractor.parse_column_list (List.filter is_money cols)).
Proof.
  intros self_data columns cols Hcolumns Hcolumn.
  assert (Hlist : QuickBooksExtractor._parse_columns self_data
                  = QuickBooksExtractor.parse_column_list cols).
  { unfold QuickBooksExtractor._parse_columns. rewrite Hcolumns. cbn [bind].
    rewrite Hcolumn. reflexivity. }
  rewrite Hlist. split.
  - intros parsed. apply parse_column_list_money.
  - apply parse_column_list_skips.
Qed.

Lemma parse_columns_money_only_witness :
  QuickBooksExtractor._parse_columns income_report = Ok [january; february; march] /\
  Forall2 (fun parsed_col col =>
             Py.subscript "ColTitle" col = Ok (QuickBooksExtractor.title parsed_col))
          [january; february; march]
          [ money_column "Jan 2024" "2024-01-01" "2024-01-31";
            money_column "Feb 2024" "2024-02-01" "2024-02-29";
            money_column "Mar 2024" "2024-03-01" "2024-03-31" ].
Proof.
  split; [reflexivity|].
  apply (proj1 (parse_columns_money_only income_report
                  (VDict [ ("Column",
                            VList [ VDict [ ("ColTitle", VStr ""); ("ColType", VStr "Account") ];
                                    money_column "Jan 2024" "2024-01-01" "2024-01-31";
                                    money_column "Feb 2024" "2024-02-01" "2024-02-29";
                                    money_column "Mar 2024" "2024-03-01" "2024-03-31" ]) ])
                  _ eq_refl eq_refl)).
  reflexivity.
Defined.

(** ** QuickBooksExtractor: what [extract] yields *)

Lemma section_account_type_known group account_type account_type' :
  section_type account_type ->
  QuickBooksExtractor.section_account_type group account_type = Ok account_type' ->
  section_type account_type'.
Proof.
  intros Hknown. unfold QuickBooksExtractor.section_account_type, section_type.
  destruct (Py.py_in "Income" group) as [[]|]; cbn [bind]; try discriminate;
    [intros [= <-]; auto|].
  destruct (Py.py_in "Revenue" group) as [[]|]; cbn [bind]; try discriminate;
    [intros [= <-]; auto|].
  destruct (Py.py_in "Cost of Goods Sold" group) as [[]|]; cbn [bind]; try discriminate;
    [intros [= <-]; auto|].
  destruct (Py.py_in "COGS" group) as [[]|]; cbn [bind]; try discriminate;
    [intros [= <-]; auto|].
  destruct (Py.py_in "Expenses" group) as [[]|]; cbn [bind]; try discriminate;
    [intros [= <-]; auto|].
  destruct (Py.py_in "Operating Expenses" group) as [[]|]; cbn [bind]; try discriminate;
    intros [= <-]; auto.
Qed.

Lemma type_or_other_known account_type :
  section_type account_type ->
  In (QuickBooksExtractor.type_or_other account_type) quickbooks_types.
Proof.
  unfold quickbooks_types. intros [ -> | [ -> | [ -> | -> ] ] ]; cbn; auto.
Qed.

Lemma process_row_types self_data columns (n : nat) :
  forall row parent_account account_type r,
    (value_size row < n)%nat ->
    section_type account_type ->
    In r (yielded (QuickBooksExtractor._process_row self_data columns row parent_account
                     account_type)) ->
    exists name ty parent col_def amount currency,
      r = quickbooks_record name ty parent col_def amount currency /\
      In ty quickbooks_types.
Proof.
  induction n as [|n IH]; intros row parent_account account_type r Hsize Hknown Hin; [lia|].
  destruct row as [| | | | | |row]; try contradiction.
  rewrite process_row_dict in Hin. cbv zeta in Hin.
  apply yielded_try in Hin as (ty & Hty & Hin).
  assert (Hknown' : section_type ty).
  { destruct (Py.is_str "Section" (Py.dict_get "type" row VNone)).
    - eapply section_account_type_known; eassumption.
    - injection Hty as <-. exact Hknown. }
  apply yielded_seq in Hin as [Hin|Hin].
  - destruct (Py.is_str "Data" (Py.dict_get "type" row VNone)); [|contradiction].
    apply yielded_data_row in Hin as (name & cells & _ & _ & Hin).
    apply yielded_data_cells in Hin
      as (idx & col_def & cell & amount_str & currency & _ & _ & _ & _ & ->).
    eexists _, _, _, _, _, _. split; [reflexivity|]. now apply type_or_other_known.
  - apply yielded_for in Hin as (child & Hchild & Hin).
    apply yielded_try in Hin as (parent & _ & Hin).
    apply child_rows_smaller in Hchild.
    apply (IH child parent ty r); [lia | exact Hknown' | exact Hin].
Qed.

Lemma section_account_type_named row account_type account_type' :
  (if Py.is_str "Section" (Py.dict_get "type" row VNone)
   then QuickBooksExtractor.section_account_type (Py.dict_get "group" row (VStr ""))
          account_type
   else Ok account_type) = Ok account_type' ->
  account_type' = or_type (named_type row) account_type.
Proof.
  unfold named_type, QuickBooksExtractor.section_account_type, names_label.
  destruct (Py.is_str "Section" (Py.dict_get "type" row VNone)); [|now intros [= <-]].
  cbv zeta.
  destruct (Py.py_in "Income" _) as [[]|]; cbn [bind orb]; try discriminate;
    [now intros [= <-]|].
  destruct (Py.py_in "Revenue" _) as [[]|]; cbn [bind orb]; try discriminate;
    [now intros [= <-]|].
  destruct (Py.py_in "Cost of Goods Sold" _) as [[]|]; cbn [bind orb]; try discriminate;
    [now intros [= <-]|].
  destruct (Py.py_in "COGS" _) as [[]|]; cbn [bind orb]; try discriminate;
    [now intros [= <-]|].
  destruct (Py.py_in "Expenses" _) as [[]|]; cbn [bind orb]; try discriminate;
    [now intros [= <-]|].
  destruct (Py.py_in "Operating Expenses" _) as [[]|]; cbn [bind orb]; try discriminate;
    now intros [= <-].
Qed.

Lemma nearest_type_app inner outer :
  nearest_type (inner ++ outer) = or_type (nearest_type inner) (nearest_type outer).
Proof.
  induction inner as [|row inner IH]; [reflexivity|].
  cbn [app nearest_type]. destruct (named_type row); [reflexivity | exact IH].
Qed.

Lemma or_type_assoc a b c : or_type (or_type a b) c = or_type a (or_type b c).
Proof. now destruct a. Qed.

Lemma row_path_app inner row top :
  row_path (inner ++ [row]) -> In (VDict row) (child_rows_of top) -> row_path (inner ++ [row; top]).
Proof.
  induction inner as [|child [|next inner] IH]; cbn [app row_path].
  - auto.
  - intros [Hin _] Htop. auto.
  - intros [Hin Hrow_path] Htop. split; [exact Hin|]. apply IH; assumption.
Qed.

Lemma named_type_known row ty :
  named_type row = Some ty -> QuickBooksExtractor.type_or_other (Some ty) = ty.
Proof.
  unfold named_type.
  destruct (Py.is_str "Section" _); [|discriminate]. cbv zeta.
  destruct (_ || _); [now intros [= <-]|].
  destruct (_ || _); [now intros [= <-]|].
  destruct (_ || _); [now intros [= <-]|discriminate].
Qed.

Lemma nearest_type_known path :
  QuickBooksExtractor.type_or_other (nearest_type path) = inherited_type path.
Proof.
  unfold inherited_type. induction path as [|row path IH]; [reflexivity|].
  cbn [nearest_type]. destruct (named_type row) as [ty|] eqn:Hnamed; [|exact IH].
  now apply named_type_known in Hnamed.
Qed.

Lemma process_row_inherits self_data columns (n : nat) :
  forall row parent_account account_type r,
    (value_size row < n)%nat ->
    In r (yielded (QuickBooksExtractor._process_row self_data columns row parent_account
                     account_type)) ->
    exists data_row path top name parent col_def amount currency,
      row = VDict top /\
      head path = Some data_row /\
      last path = Some top /\
      row_path path /\
      Py.is_str "Data" (Py.dict_get "type" data_row VNone) = true /\
      QuickBooksExtractor.first_cell_name (Py.dict_get "ColData" data_row (VList []))
      = Ok (Some name) /\
      r = quickbooks_record name
            (QuickBooksExtractor.type_or_other (or_type (nearest_type path) account_type))
            parent col_def amount currency.
Proof.
  induction n as [|n IH]; intros row parent_account account_type r Hsize Hin; [lia|].
  destruct row as [| | | | | |row]; try contradiction.
  rewrite process_row_dict in Hin. cbv zeta in Hin.
  apply yielded_try in Hin as (ty & Hty & Hin).
  apply section_account_type_named in Hty. subst ty.
  apply yielded_seq in Hin as [Hin|Hin].
  - destruct (Py.is_str "Data" (Py.dict_get "type" row VNone)) eqn:Hdata; [|contradiction].
    apply yielded_data_row in Hin as (name & cells & Hcells & Hname & Hin).
    apply yielded_data_cells in Hin
      as (idx & col_def & cell & amount_str & currency & _ & _ & _ & _ & ->).
    exists row, [row], row, name. eexists _, _, _, _.
    split; [reflexivity|]. split; [reflexivity|]. split; [reflexivity|]. split; [exact I|].
    split; [exact Hdata|]. split; [now rewrite Hcells|].
    cbn [nearest_type]. destruct (named_type row); reflexivity.
  - apply yielded_for in Hin as (child & Hchild & Hin).
    apply yielded_try in Hin as (parent & _ & Hin).
    pose proof (child_rows_smaller _ _ Hchild) as Hsmaller.
    apply (IH child parent _ r) in Hin
      as (data_row & path & top & name & parent' & col_def & amount & currency
          & -> & Hhead & Hlast & Hrow_path & Hdata & Hname & ->); [|lia].
    apply last_Some in Hlast as (front & ->).
    exists data_row, (front ++ [top; row]), row, name, parent', col_def, amount, currency.
    split; [reflexivity|]. split.
    { destruct front; [injection Hhead as <-; reflexivity | exact Hhead]. }
    split.
    { change [top; row] with ([top] ++ [row]). rewrite app_assoc. apply last_snoc. }
    split; [now apply row_path_app|].
    split; [exact Hdata|]. split; [exact Hname|].
    change [top; row] with ([top] ++ [row]).
    rewrite app_assoc, (nearest_type_app (front ++ [top]) [row]), or_type_assoc.
    cbn [nearest_type]. destruct (named_type row); reflexivity.
Qed.

Lemma quickbooks_extract_inherits self r :
  In r (yielded (QuickBooksExtractor.extract self)) ->
  exists self_data data_row path top,
    report_of self = Some self_data /\
    In (VDict top) (report_rows self_data) /\
    head path = Some data_row /\
    last path = Some top /\
    row_path path /\
    Py.is_str "Data" (Py.dict_get "type" data_row VNone) = true /\
    (exists name,
        QuickBooksExtractor.first_cell_name (Py.dict_get "ColData" data_row (VList []))
        = Ok (Some name) /\
        Py.dict_find "account_name" r = Some (VStr name)) /\
    Py.dict_find "account_type" r = Some (VStr (inherited_type path)).
Proof.
  unfold QuickBooksExtractor.extract. intros Hin.
  apply yielded_try in Hin as (self_data & Hready & Hin).
  apply yielded_try in Hin as (columns & _ & Hin).
  apply yielded_try in Hin as (rows & Hrows & Hin).
  apply yielded_for in Hin as (row & Hrow & Hin).
  apply (process_row_inherits self_data columns (S (value_size row)) row VNone None r) in Hin
    as (data_row & path & top & name & parent & col_def & amount & currency
        & -> & Hhead & Hlast & Hrow_path & Hdata & Hname & ->); [|lia].
  exists self_data, data_row, path, top.
  split.
  { unfold report_of. destruct (QuickBooksExtractor.data self) as [payload|].
    - now injection Hready as ->.
    - destruct (QuickBooksExtractor.validate self) as [[ok|e] self']; [|discriminate].
      cbn [bind] in Hready. cbn [snd].
      destruct (QuickBooksExtractor.data self'); [now injection Hready as ->|discriminate]. }
  split.
  { unfold report_rows. rewrite Hrows. destruct rows; exact Hrow. }
  split; [exact Hhead|]. split; [exact Hlast|]. split; [exact Hrow_path|].
  split; [exact Hdata|]. split; [exists name; split; [exact Hname | reflexivity]|].
  replace (or_type (nearest_type path) None) with (nearest_type path)
    by (now destruct (nearest_type path)).
  rewrite nearest_type_known. reflexivity.
Qed.

(** X21. Every dict the QuickBooks extractor yields has one of the
    account types "revenue", "cogs", "expense" and "other", the source
    system "quickbooks", and an amount that is not zero.  It is the
    dict of a cell of a Data row of the report, named after the first
    cell of that row, and its type is inherited: going up from the row
    through the rows it lies under to a row at the top of the report,
    it is the type of the nearest Section whose group names one, and
    "other" when there is none. *)
Theorem quickbooks_account_types :
  forall self r,
    In r (yielded (QuickBooksExtractor.extract self)) ->
    (exists ty, Py.dict_find "account_type" r = Some (VStr ty) /\ In ty quickbooks_types) /\
    Py.dict_find "source_system" r = Some (VStr "quickbooks") /\
    amount_nonzero r /\
    exists self_data data_row path top,
      report_of self = Some self_data /\
      In (VDict top) (report_rows self_data) /\
      head path = Some data_row /\
      last path = Some top /\
      row_path path /\
      Py.is_str "Data" (Py.dict_get "type" data_row VNone) = true /\
      (exists name,
          QuickBooksExtractor.first_cell_name (Py.dict_get "ColData" data_row (VList []))
          = Ok (Some name) /\
          Py.dict_find "account_name" r = Some (VStr name)) /\
      Py.dict_find "account_type" r = Some (VStr (inherited_type path)).
Proof.
  intros self r Hin. split; [|split; [|split]].
  - unfold QuickBooksExtractor.extract in Hin.
    apply yielded_try in Hin as (self_data & _ & Hin).
    apply yielded_try in Hin as (columns & _ & Hin).
    apply yielded_try in Hin as (rows & _ & Hin).
    apply yielded_for in Hin as (row & _ & Hin).
    apply (process_row_types self_data columns (S (value_size row)) row VNone None r) in Hin
      as (name & ty & parent & col_def & amount & currency & -> & Hty);
      [|lia|now left].
    exists ty. split; [reflexivity | exact Hty].
  - apply quickbooks_extract_records in Hin
      as (name & ty & parent & col_def & amount & currency & -> & _). reflexivity.
  - exact (quickbooks_extract_nonzero self r Hin).
  - exact (quickbooks_extract_inherits self r Hin).
Qed.

Lemma quickbooks_account_types_witness :
  In january_sales (yielded (QuickBooksExtractor.extract undated_month_file)) /\
  (exists ty, Py.dict_find "account_type" january_sales = Some (VStr ty) /\
              In ty quickbooks_types) /\
  Py.dict_find "source_system" january_sales = Some (VStr "quickbooks") /\
  (exists path top,
      In (VDict top) (report_rows undated_month_report) /\
      last path = Some top /\
      row_path path /\
      Py.dict_find "account_type" january_sales = Some (VStr (inherited_type path))).
Proof.
  assert (Hin : In january_sales (yielded (QuickBooksExtractor.extract undated_month_file)))
    by (left; reflexivity).
  split; [exact Hin|].
  destruct (quickbooks_account_types undated_month_file january_sales Hin)
    as (Htype & Hsource & _ & self_data & data_row & path & top
        & Hreport & Htop & _ & Hlast & Hpath & _ & _ & Hinherited).
  split; [exact Htype|]. split; [exact Hsource|].
  injection Hreport as <-. exists path, top. auto.
Defined.

(** ** RootfiExtractor: what [extract] yields *)

Lemma rootfi_types_of key ty : In (key, ty) section_kinds -> In ty rootfi_types.
Proof.
  unfold section_kinds, rootfi_types.
  intros [[= _ <-]|[[= _ <-]|[[= _ <-]|[]]]]; cbn; auto.
Qed.

(** X22. Every dict the Rootfi extractor yields has one of the account
    types "revenue", "cogs" and "expense", a name that is not empty,
    the source system "rootfi", and an amount that is not zero: leaves
    whose amount is zero are filtered out by [extract]. *)
Theorem rootfi_extract_records :
  forall (rt : PyRuntime) self r,
    In r (yielded (RootfiExtractor.extract self)) ->
    (exists ty, Py.dict_find "account_type" r = Some (VStr ty) /\ In ty rootfi_types) /\
    (exists name, Py.dict_find "account_name" r = Some (VStr name) /\ name <> "") /\
    Py.dict_find "source_system" r = Some (VStr "rootfi") /\
    amount_nonzero r.
Proof.
  intros rt self r Hin. unfold RootfiExtractor.extract in Hin.
  apply yielded_try in Hin as (records & _ & Hin).
  apply yielded_for in Hin as (period_record & _ & Hin).
  apply yielded_filter in Hin as [Hin Hnonzero].
  destruct period_record as [| | | | | |record]; try contradiction.
  apply extract_period_sound in Hin
    as (key & ty & line_items & section_name & leaf & p & item_data
        & Hkind & _ & _ & (name & amount & _ & Hname & _ & ->) & ->).
  split; [exists ty; split; [reflexivity | eapply rootfi_types_of, Hkind]|].
  split; [exists name; split; [reflexivity | exact Hname]|].
  split; [reflexivity|].
  exists amount. split; [reflexivity | exact Hnonzero].
Qed.

Lemma rootfi_extract_records_witness :
  In (salaries_record (VStr "2024-01-01") (VStr "2024-01-31"))
     (yielded (RootfiExtractor.extract (rt := sample_runtime)
                 (rootfi_loaded "data/data_set_2.json" VNone
                    [VDict (opex_period (VStr "2024-01-01") (VStr "2024-01-31"))]))) /\
  amount_nonzero (salaries_record (VStr "2024-01-01") (VStr "2024-01-31")).
Proof.
  assert (Hin : In (salaries_record (VStr "2024-01-01") (VStr "2024-01-31"))
                   (yielded (RootfiExtractor.extract (rt := sample_runtime)
                               (rootfi_loaded "data/data_set_2.json" VNone
                                  [VDict (opex_period (VStr "2024-01-01")
                                            (VStr "2024-01-31"))]))))
    by (left; reflexivity).
  split; [exact Hin|].
  exact (proj2 (proj2 (proj2 (rootfi_extract_records sample_runtime _ _ Hin)))).
Defined.

Lemma gen_for_skip {A B : Type} (body : B -> gen A) before x after :
  body x = gen_done ->
  gen_for body (before ++ x :: after) = gen_for body (before ++ after).
Proof.
  intros Hskip. induction before as [|first before IH].
  - cbn [app gen_for]. rewrite Hskip. apply gen_seq_done_l.
  - cbn [app gen_for]. now rewrite IH.
Qed.

(** X23. A period record whose [period_start] or [period_end] is
    missing or empty yields nothing and raises nothing: extraction goes
    on with the next period, as if the record were not there. *)
Theorem rootfi_undated_period_skipped :
  forall (rt : PyRuntime) path doc before period after,
    Py.truthy (Py.dict_get "period_start" period VNone) = false \/
    Py.truthy (Py.dict_get "period_end" period VNone) = false ->
    RootfiExtractor._extract_period (VDict period) = gen_done /\
    RootfiExtractor.extract (rootfi_loaded path doc (before ++ VDict period :: after))
    = RootfiExtractor.extract (rootfi_loaded path doc (before ++ after)).
Proof.
  intros rt path doc before period after Hundated.
  assert (Hperiod : RootfiExtractor._extract_period (VDict period) = gen_done).
  { unfold RootfiExtractor._extract_period. destruct Hundated as [-> | ->];
      [reflexivity|]. now rewrite orb_true_r. }
  split; [exact Hperiod|].
  unfold RootfiExtractor.extract, rootfi_loaded. cbn [RootfiExtractor.data gen_try].
  apply gen_for_skip. now rewrite Hperiod.
Qed.

Lemma rootfi_undated_period_skipped_witness :
  Py.truthy (Py.dict_get "period_start" [("rootfi_id", VInt 2)] VNone) = false /\
  RootfiExtractor.extract (rt := sample_runtime)
    (rootfi_loaded "data/data_set_2.json" rootfi_last_undated
       ([VDict (opex_period (VStr "2024-01-01") (VStr "2024-01-31"))]
        ++ VDict [("rootfi_id", VInt 2)] :: []))
  = RootfiExtractor.extract (rt := sample_runtime)
      (rootfi_loaded "data/data_set_2.json" rootfi_last_undated
         ([VDict (opex_period (VStr "2024-01-01") (VStr "2024-01-31"))] ++ [])).
Proof.
  split; [reflexivity|].
  apply (proj2 (rootfi_undated_period_skipped sample_runtime "data/data_set_2.json"
                  rootfi_last_undated
                  [VDict (opex_period (VStr "2024-01-01") (VStr "2024-01-31"))]
                  [("rootfi_id", VInt 2)] [] (or_introl eq_refl))).
Defined.

(** ** The extractors: [extract] before [validate] *)

Lemma rootfi_validate_ok self outcome self' :
  RootfiExtractor.validate self = (Ok outcome, self') ->
  exists records, RootfiExtractor.data self' = Some records.
Proof.
  unfold RootfiExtractor.validate.
  destruct (RootfiExtractor.file self) as [| |doc]; try discriminate.
  destruct (Py.py_in "data" doc) as [[]|]; try discriminate.
  destruct (Py.subscript "data" doc) as [[| | | | |[|first_record others]|]|]; try discriminate.
  destruct (RootfiExtractor.check_required _ first_record); try discriminate.
  intros [= _ <-]. eauto.
Qed.

Lemma quickbooks_validate_ok self outcome self' :
  QuickBooksExtractor.validate self = (Ok outcome, self') ->
  exists payload, QuickBooksExtractor.data self' = Some payload.
Proof.
  unfold QuickBooksExtractor.validate.
  destruct (QuickBooksExtractor.file self) as [| |doc]; try discriminate.
  match goal with |- context [match ?checked with Ok _ => _ | Raise _ => _ end] =>
    destruct checked as [payload|]
  end; try discriminate.
  intros [= _ <-]. eauto.
Qed.

(** X24. [extract] on an extractor that holds no data validates
    first: when [validate] raises, the generator raises the same
    exception before it yields anything; when [validate] returns, the
    data is in place and extraction is that of the validated extractor. *)
Theorem extract_validates_first :
  (forall (rt : PyRuntime) self,
      RootfiExtractor.data self = None ->
      (forall e self', RootfiExtractor.validate self = (Raise e, self') ->
                       RootfiExtractor.extract self = gen_raise e) /\
      (forall outcome self', RootfiExtractor.validate self = (Ok outcome, self') ->
                             RootfiExtractor.extract self = RootfiExtractor.extract self')) /\
  (forall self,
      QuickBooksExtractor.data self = None ->
      (forall e self', QuickBooksExtractor.validate self = (Raise e, self') ->
                       QuickBooksExtractor.extract self = gen_raise e) /\
      (forall outcome self', QuickBooksExtractor.validate self = (Ok outcome, self') ->
                             QuickBooksExtractor.extract self
                             = QuickBooksExtractor.extract self')).
Proof.
  split.
  - intros rt self Hnone. split.
    + intros e self' Hvalidate. unfold RootfiExtractor.extract.
      now rewrite Hnone, Hvalidate.
    + intros outcome self' Hvalidate.
      destruct (rootfi_validate_ok _ _ _ Hvalidate) as (records & Hdata).
      unfold RootfiExtractor.extract. rewrite Hnone, Hvalidate, Hdata. reflexivity.
  - intros self Hnone. split.
    + intros e self' Hvalidate. unfold QuickBooksExtractor.extract.
      now rewrite Hnone, Hvalidate.
    + intros outcome self' Hvalidate.
      destruct (quickbooks_validate_ok _ _ _ Hvalidate) as (payload & Hdata).
      unfold QuickBooksExtractor.extract. rewrite Hnone, Hvalidate, Hdata. reflexivity.
Qed.

Lemma extract_validates_first_witness :
  QuickBooksExtractor.data (QuickBooksExtractor.__init__ "data/data_set_1.json" NoFile) = None /\
  QuickBooksExtractor.extract (QuickBooksExtractor.__init__ "data/data_set_1.json" NoFile)
  = gen_raise (FileNotFoundError "Data file not found: data/data_set_1.json") /\
  QuickBooksExtractor.data undated_month_file = None /\
  QuickBooksExtractor.extract undated_month_file
  = QuickBooksExtractor.extract
      (quickbooks_loaded "data/data_set_1.json" (VDict [ ("data", undated_month_report) ])
         undated_month_report).
Proof.
  split; [reflexivity|]. split.
  - apply (proj1 (proj2 extract_validates_first
                    (QuickBooksExtractor.__init__ "data/data_set_1.json" NoFile) eq_refl)
                 _ (QuickBooksExtractor.__init__ "data/data_set_1.json" NoFile)).
    reflexivity.
  - split; [reflexivity|].
    apply (proj2 (proj2 extract_validates_first undated_month_file eq_refl) true).
    reflexivity.
Defined.

(** ** Values that are there but are not text *)

Lemma gen_seq_raise_l {A : Type} e (g : gen A) : gen_seq (gen_raise e) g = gen_raise e.
Proof. reflexivity. Qed.

(** X25. A line item whose "name" is there but is not text, [null]
    for one, ends the walk with an AttributeError as soon as the walk
    reaches it: it yields nothing, and the items after it are not
    walked. *)
Theorem rootfi_name_not_text_raises :
  forall item rest account_type parent_name v,
    Py.dict_find "name" item = Some v -> is_text v = false ->
    RootfiExtractor._process_line_items (VList (VDict item :: rest)) account_type parent_name
    = gen_raise AttributeError.
Proof.
  intros item rest account_type parent_name v Hname Htext.
  rewrite process_line_items_cons.
  assert (Hitem : walk_item (VDict item) account_type parent_name = gen_raise AttributeError).
  { unfold walk_item. rewrite dict_get_find, Hname.
    destruct v; try discriminate; reflexivity. }
  now rewrite Hitem.
Qed.

Lemma rootfi_name_not_text_raises_witness :
  Py.dict_find "name" [("name", VNone); ("value", VInt 100)] = Some VNone /\
  RootfiExtractor._process_line_items
    (VList [VDict [("name", VNone); ("value", VInt 100)]; rent_item]) "expense" (VStr "Opex")
  = gen_raise AttributeError.
Proof.
  split; [reflexivity|].
  apply (rootfi_name_not_text_raises [("name", VNone); ("value", VInt 100)] [rent_item]
           "expense" (VStr "Opex") VNone); reflexivity.
Defined.

Lemma append_assoc' (a b c : string) : (a +:+ b) +:+ c = a +:+ (b +:+ c).
Proof.
  induction a as [|x a IH]; [now rewrite !append_nil|].
  rewrite !append_cons. now rewrite IH.
Qed.

Lemma contains_suffix (skipped needle hay : string) :
  Str.contains (skipped +:+ needle) hay = true -> Str.contains needle hay = true.
Proof.
  rewrite !contains_spec. intros (pre & post & ->).
  exists (pre +:+ skipped), post. now rewrite !append_assoc'.
Qed.

(** X26. The account type of a section.  For a group that is text:
    "revenue" when it contains "Income" or "Revenue"; else "cogs" when
    it contains "Cost of Goods Sold" or "COGS"; else "expense" when it
    contains "Expenses"; else the type inherited from above.  Letter
    case counts, the order above decides between labels, and the test
    for "Operating Expenses" never decides anything.  A Section row
    whose group is there but is neither text nor a list nor an object
    ends the extraction with a TypeError. *)
Theorem section_account_type_cases :
  (forall group account_type,
      QuickBooksExtractor.section_account_type (VStr group) account_type
      = Ok (if Str.contains "Income" group || Str.contains "Revenue" group
            then Some "revenue"
            else if Str.contains "Cost of Goods Sold" group || Str.contains "COGS" group
            then Some "cogs"
            else if Str.contains "Expenses" group then Some "expense"
            else account_type)) /\
  (forall self_data columns row parent_account account_type group,
      Py.dict_find "type" row = Some (VStr "Section") ->
      Py.dict_find "group" row = Some group ->
      is_text group = false -> is_list group = false -> is_dict group = false ->
      QuickBooksExtractor._process_row self_data columns (VDict row) parent_account account_type
      = gen_raise TypeError).
Proof.
  split.
  - intros group account_type. unfold QuickBooksExtractor.section_account_type.
    cbn [Py.py_in bind].
    destruct (Str.contains "Income" group); [reflexivity|]. cbn [bind orb].
    destruct (Str.contains "Revenue" group); [reflexivity|].
    destruct (Str.contains "Cost of Goods Sold" group); [reflexivity|]. cbn [bind orb].
    destruct (Str.contains "COGS" group); [reflexivity|].
    destruct (Str.contains "Expenses" group) eqn:Hexpenses; [reflexivity|]. cbn [bind].
    destruct (Str.contains "Operating Expenses" group) eqn:Hoperating; [|reflexivity].
    apply (contains_suffix "Operating " "Expenses") in Hoperating. congruence.
  - intros self_data columns row parent_account account_type group Htype Hgroup
           Htext Hlist Hdict.
    rewrite process_row_dict. cbv zeta. rewrite !dict_get_find, Htype, Hgroup.
    cbn [Py.is_str String.eqb Ascii.eqb Bool.eqb].
    destruct group; try discriminate; reflexivity.
Qed.

Lemma section_account_type_cases_witness :
  QuickBooksExtractor.section_account_type (VStr "Other Income and Expenses") (Some "cogs")
  = Ok (Some "revenue") /\
  QuickBooksExtractor._process_row income_report [january]
    (VDict [("type", VStr "Section"); ("group", VNone)]) VNone None
  = gen_raise TypeError.
Proof.
  destruct section_account_type_cases as [Htext Hnull].
  split.
  - exact (Htext "Other Income and Expenses" (Some "cogs")).
  - apply (Hnull income_report [january] [("type", VStr "Section"); ("group", VNone)]
                 VNone None VNone); reflexivity.
Defined.

(** ** FinancialTransformer: accounts and names *)

Section TransformAccount.
Context {rt : PyRuntime}.
Import FinancialTransformer.

Lemma transform_account_some self raw account self' :
  transform_account self raw = (Ok (Some account), self') ->
  exists name,
    Py.strip_attr (Py.dict_get "account_name" raw (VStr "")) = Ok name /\
    Account.account_id account
    = _generate_account_id name
        (str_of (Py.dict_get "account_type" raw (VStr "other")))
        (str_of (Py.dict_get "source_system" raw (VStr "unknown"))) /\
    Account.account_name account = name /\
    self !! Account.account_id account = None /\
    self' = <[Account.account_id account := Account.account_id account]> self.
Proof.
  unfold transform_account.
  destruct (Py.strip_attr (Py.dict_get "account_name" raw (VStr ""))) as [name|e];
    [|discriminate].
  cbv zeta.
  destruct (self !! _generate_account_id name _ _) eqn:Hcache; [discriminate|].
  intros [= <- <-]. exists name. cbn. auto.
Qed.

Lemma transform_account_seen self raw name :
  Py.strip_attr (Py.dict_get "account_name" raw (VStr "")) = Ok name ->
  is_Some (self !! _generate_account_id name
                     (str_of (Py.dict_get "account_type" raw (VStr "other")))
                     (str_of (Py.dict_get "source_system" raw (VStr "unknown")))) ->
  transform_account self raw = (Ok None, self).
Proof.
  intros Hname [seen Hseen]. unfold transform_account. rewrite Hname. cbv zeta.
  now rewrite Hseen.
Qed.

End TransformAccount.

(** X27. [transform_account] hands out each account once.  A call
    that returns an account found its id absent from the cache and
    adds it, under itself; from then on the same record, and any
    record that gets the same id, such as one whose name differs in
    letter case or in the blanks around it, gets [None] and leaves the
    cache as it is. *)
Theorem transform_account_deduplicates :
  forall (rt : PyRuntime) self raw account self',
    FinancialTransformer.transform_account self raw = (Ok (Some account), self') ->
    self !! Account.account_id account = None /\
    self' = <[Account.account_id account := Account.account_id account]> self /\
    FinancialTransformer.transform_account self' raw = (Ok None, self') /\
    (forall other raw' account' other',
        FinancialTransformer.transform_account other raw' = (Ok (Some account'), other') ->
        Account.account_id account' = Account.account_id account ->
        FinancialTransformer.transform_account self' raw' = (Ok None, self')).
Proof.
  intros rt self raw account self' Hfirst.
  destruct (transform_account_some _ _ _ _ Hfirst) as (name & Hname & Hid & _ & Hnew & ->).
  split; [exact Hnew|]. split; [reflexivity|]. split.
  - apply (transform_account_seen _ raw name Hname). rewrite <- Hid.
    unfold FinancialTransformer.account_cache in *. rewrite lookup_insert_eq. eauto.
  - intros other raw' account' other' Hother Hsame.
    destruct (transform_account_some _ _ _ _ Hother) as (name' & Hname' & Hid' & _).
    apply (transform_account_seen _ raw' name' Hname').
    rewrite <- Hid', Hsame.
    unfold FinancialTransformer.account_cache in *. rewrite lookup_insert_eq. eauto.
Qed.

Lemma transform_account_deduplicates_witness :
  FinancialTransformer.transform_account (rt := sample_runtime)
    FinancialTransformer.__init__ test_account
  = (Ok (Some (Account.Row "d08429363dc775bb" "Test Account" (VStr "revenue") VNone
                 (VStr "test") VNone)),
     {[ "d08429363dc775bb" := "d08429363dc775bb" ]}) /\
  FinancialTransformer.transform_account (rt := sample_runtime)
    {[ "d08429363dc775bb" := "d08429363dc775bb" ]} test_account_shouted
  = (Ok None, {[ "d08429363dc775bb" := "d08429363dc775bb" ]}).
Proof.
  assert (Hfirst : FinancialTransformer.transform_account (rt := sample_runtime)
                     FinancialTransformer.__init__ test_account
                   = (Ok (Some (Account.Row "d08429363dc775bb" "Test Account" (VStr "revenue")
                                  VNone (VStr "test") VNone)),
                      {[ "d08429363dc775bb" := "d08429363dc775bb" ]}))
    by (vm_compute; reflexivity).
  assert (Hshouted : FinancialTransformer.transform_account (rt := sample_runtime)
                       FinancialTransformer.__init__ test_account_shouted
                     = (Ok (Some (Account.Row "d08429363dc775bb" "TEST ACCOUNT"
                                    (VStr "revenue") VNone (VStr "test") VNone)),
                        {[ "d08429363dc775bb" := "d08429363dc775bb" ]}))
    by (vm_compute; reflexivity).
  split; [exact Hfirst|].
  exact (proj2 (proj2 (proj2 (transform_account_deduplicates sample_runtime _ _ _ _ Hfirst)))
           _ _ _ _ Hshouted eq_refl).
Defined.

Lemma whitespace_only_cons c s :
  whitespace_only (String c s) = Str.is_space c && whitespace_only s.
Proof. reflexivity. Qed.

Lemma lstrip_app_blank (blank s : string) :
  whitespace_only blank = true -> Str.lstrip (blank +:+ s) = Str.lstrip s.
Proof.
  induction blank as [|c blank IH]; [now rewrite append_nil|].
  rewrite whitespace_only_cons, append_cons. intros Hall.
  apply andb_prop in Hall as [Hc Hblank]. cbn [Str.lstrip]. rewrite Hc. auto.
Qed.

Lemma rstrip_blank (blank : string) : whitespace_only blank = true -> Str.rstrip blank = "".
Proof.
  induction blank as [|c blank IH]; [reflexivity|].
  rewrite whitespace_only_cons. intros Hall. apply andb_prop in Hall as [Hc Hblank].
  cbn [Str.rstrip]. rewrite (IH Hblank), Hc. reflexivity.
Qed.

Lemma rstrip_app_blank (s blank : string) :
  whitespace_only blank = true -> Str.rstrip (s +:+ blank) = Str.rstrip s.
Proof.
  intros Hblank. induction s as [|c s IH].
  - rewrite append_nil. now apply rstrip_blank.
  - rewrite append_cons. cbn [Str.rstrip]. now rewrite IH.
Qed.

Lemma strip_app_blank (s blank : string) :
  whitespace_only blank = true ->
  Str.rstrip (Str.lstrip (s +:+ blank)) = Str.rstrip (Str.lstrip s).
Proof.
  intros Hblank. induction s as [|c s IH].
  - rewrite append_nil. cbn [Str.lstrip]. now rewrite lstrip_whitespace_only.
  - rewrite append_cons. cbn [Str.lstrip]. destruct (Str.is_space c); [exact IH|].
    rewrite <- append_cons. now apply rstrip_app_blank.
Qed.

(** [strip] drops the blanks around a text and nothing else. *)
Lemma strip_padded (left_blank s right_blank : string) :
  whitespace_only left_blank = true -> whitespace_only right_blank = true ->
  Str.strip (left_blank +:+ s +:+ right_blank) = Str.strip s.
Proof.
  intros Hleft Hright. unfold Str.strip.
  rewrite lstrip_app_blank by exact Hleft. now apply strip_app_blank.
Qed.

Lemma rstrip_idempotent (s : string) : Str.rstrip (Str.rstrip s) = Str.rstrip s.
Proof.
  induction s as [|c s IH]; [reflexivity|].
  cbn [Str.rstrip]. destruct (Str.rstrip s) as [|d kept] eqn:Hkept.
  - destruct (Str.is_space c) eqn:Hc; [reflexivity|]. cbn [Str.rstrip]. now rewrite Hc.
  - cbn [Str.rstrip] in *. now rewrite IH.
Qed.

Lemma rstrip_head c s :
  Str.is_space c = false -> exists kept, Str.rstrip (String c s) = String c kept.
Proof.
  intros Hc. cbn [Str.rstrip]. destruct (Str.rstrip s); rewrite ?Hc; eauto.
Qed.

Lemma lstrip_head (s : string) :
  Str.lstrip s = "" \/ exists c rest, Str.lstrip s = String c rest /\ Str.is_space c = false.
Proof.
  induction s as [|c s IH]; [now left|].
  cbn [Str.lstrip]. destruct (Str.is_space c) eqn:Hc; [exact IH|]. right. eauto.
Qed.

Lemma strip_idempotent (s : string) : Str.strip (Str.strip s) = Str.strip s.
Proof.
  unfold Str.strip. destruct (lstrip_head s) as [->|(c & rest & -> & Hc)]; [reflexivity|].
  destruct (rstrip_head c rest Hc) as (kept & Hkept).
  assert (Hleft : Str.lstrip (Str.rstrip (String c rest)) = Str.rstrip (String c rest)).
  { rewrite Hkept. cbn [Str.lstrip]. now rewrite Hc. }
  rewrite Hleft. apply rstrip_idempotent.
Qed.

Lemma dict_get_set_eq key v d default : Py.dict_get key (Py.dict_set key v d) default = v.
Proof.
  unfold Py.dict_get. induction d as [|[k w] d IH]; cbn [Py.dict_set Py.dict_case].
  - now rewrite String.eqb_refl.
  - destruct (String.eqb k key) eqn:Hk; cbn [Py.dict_case]; rewrite Hk; [reflexivity | exact IH].
Qed.

Lemma dict_get_set_ne key key' v d default :
  key <> key' -> Py.dict_get key (Py.dict_set key' v d) default = Py.dict_get key d default.
Proof.
  intros Hne. unfold Py.dict_get.
  induction d as [|[k w] d IH]; cbn [Py.dict_set Py.dict_case].
  - destruct (String.eqb_spec key' key); [congruence | reflexivity].
  - destruct (String.eqb_spec k key') as [->|Hk]; cbn [Py.dict_case].
    + destruct (String.eqb_spec key' key); [congruence | reflexivity].
    + destruct (String.eqb k key); [reflexivity | exact IH].
Qed.

Section TransformNames.
Context {rt : PyRuntime}.

Lemma transform_with_name name raw :
  FinancialTransformer.transform_transaction (with_name name raw) =
  let account_type := Py.dict_get "account_type" raw (VStr "other") in
  let source_system := Py.dict_get "source_system" raw (VStr "unknown") in
  match FinancialTransformer._parse_date (Py.dict_get "period_start" raw VNone),
        FinancialTransformer._parse_date (Py.dict_get "period_end" raw VNone) with
  | Some period_start, Some period_end =>
      let* amount := PyFloat.of_value (Py.dict_get "amount" raw (VFloat Py.float_zero)) in
      Ok {| account_id := FinancialTransformer._generate_account_id (Str.strip name)
                            (str_of account_type) (str_of source_system);
            account_name := Str.strip name;
            account_type := account_type;
            account_category :=
              FinancialTransformer.category_of (Str.strip name) account_type
                (Py.dict_get "parent_account" raw VNone);
            parent_account := Py.dict_get "parent_account" raw VNone;
            source_system := source_system;
            source_account_id := Py.dict_get "source_account_id" raw VNone;
            period_start := period_start;
            period_end := period_end;
            amount := amount;
            currency := Py.dict_get "currency" raw (VStr "USD");
            source_record_id := Py.dict_get "source_record_id" raw VNone |}
  | _, _ => Raise (ValueError ("Invalid period dates: "
                               +:+ py_str (VDict (with_name name raw))))
  end.
Proof.
  unfold FinancialTransformer.transform_transaction, with_name.
  rewrite dict_get_set_eq. rewrite !dict_get_set_ne by discriminate.
  reflexivity.
Qed.

End TransformNames.

(** X28. Blanks around an account name do not count: a record whose
    name is padded with white space transforms into the same
    transaction as the record with the bare name; the name of a
    transaction is stripped, and its id is the one generated from that
    name, the account type and the source system. *)
Theorem transform_transaction_strips_name :
  forall (rt : PyRuntime) raw name left_blank right_blank t,
    whitespace_only left_blank = true -> whitespace_only right_blank = true ->
    FinancialTransformer.transform_transaction (with_name name raw) = Ok t ->
    FinancialTransformer.transform_transaction
      (with_name (left_blank +:+ name +:+ right_blank) raw) = Ok t /\
    Str.strip (account_name t) = account_name t /\
    account_id t
    = FinancialTransformer._generate_account_id (account_name t)
        (str_of (account_type t)) (str_of (source_system t)).
Proof.
  intros rt raw name left_blank right_blank t Hleft Hright.
  rewrite !transform_with_name. cbv zeta.
  rewrite (strip_padded left_blank name right_blank Hleft Hright).
  destruct (FinancialTransformer._parse_date (Py.dict_get "period_start" raw VNone));
    [|discriminate].
  destruct (FinancialTransformer._parse_date (Py.dict_get "period_end" raw VNone));
    [|discriminate].
  intros Hok. split; [exact Hok|].
  destruct (PyFloat.of_value _) as [amount|e]; [|discriminate].
  cbn [bind] in Hok. injection Hok as <-. cbn.
  split; [apply strip_idempotent | reflexivity].
Qed.

Lemma transform_transaction_strips_name_witness :
  whitespace_only "  " = true /\ whitespace_only " " = true /\
  (exists t,
      FinancialTransformer.transform_transaction (rt := sample_runtime)
        (with_name "Product Sales" january_sales) = Ok t /\
      FinancialTransformer.transform_transaction (rt := sample_runtime)
        (with_name ("  " +:+ "Product Sales" +:+ " ") january_sales) = Ok t).
Proof.
  split; [reflexivity|]. split; [reflexivity|].
  assert (Hok : exists t,
             FinancialTransformer.transform_transaction (rt := sample_runtime)
               (with_name "Product Sales" january_sales) = Ok t)
    by (eexists; vm_compute; reflexivity).
  destruct Hok as (t & Hok). exists t. split; [exact Hok|].
  exact (proj1 (transform_transaction_strips_name sample_runtime january_sales
                  "Product Sales" "  " " " t eq_refl eq_refl Hok)).
Defined.

(** ** FinancialPipeline: all sources *)


